(** * Token Usage Tracker, UI module ([src/ui.js])

    A shallow embedding of the chart code of [src/ui.js]: the mock-data
    generator [generateMockData], the Y-scale computation, the bar, cursor and
    label geometry of [renderChart], and [update].

    Conventions of the embedding.

    - A JavaScript number is a value of [number]: [NaN], the two infinities,
      or a finite value carried as an exact rational.  The special values
      follow IEEE 754 (division by zero, [NaN] propagation, comparisons with
      [NaN] false); finite arithmetic is exact, so binary rounding is not
      represented, and the model has a single zero.
    - A [Date] is its time value, an integer number of milliseconds since the
      epoch, at most 8.64e15 in absolute value ([TimeClip]); a date outside
      that range is invalid, and formatting it throws [RangeError].  The
      host's time zone is a [Zone]: its offset from UTC at each instant, as
      ECMAScript's [LocalTZA(t, isUTC)], so that daylight-saving transitions
      are covered; an integer stands for the zone that keeps that offset all
      year.  The calendar functions are those of ECMAScript's date
      algorithms.
    - [Math.sin] is a parameter: a function that gives a finite value for
      each integer seed.
    - The DOM is reduced to what [renderChart] writes: the children of the
      chart container, each an [Svg] record with its four layer groups.
      The listeners of the cursors, the tooltip, the classes of the range
      buttons and the resize timer are kept apart from [State], in the
      module [Page]; a timer there fires once the clock has reached its due
      time. *)

From Stdlib Require Import ZArith QArith Qround Qpower List String Bool Lia Lqa.
From Stdlib Require Import Ascii DecimalString.
Import ListNotations.

Local Open Scope Z_scope.

(** ** JavaScript numbers *)

Module JS.

Inductive number : Type :=
| NaN : number
| PosInf : number
| NegInf : number
| Fin (q : Q) : number.

Definition ofZ (z : Z) : number := Fin (inject_Z z).

Definition Qsign (q : Q) : comparison := (0 ?= q)%Q.

Definition neg (a : number) : number :=
  match a with
  | NaN => NaN
  | PosInf => NegInf
  | NegInf => PosInf
  | Fin q => Fin (- q)
  end.

Definition add (a b : number) : number :=
  match a, b with
  | NaN, _ | _, NaN => NaN
  | PosInf, NegInf | NegInf, PosInf => NaN
  | PosInf, _ | _, PosInf => PosInf
  | NegInf, _ | _, NegInf => NegInf
  | Fin p, Fin q => Fin (p + q)
  end.

Definition sub (a b : number) : number := add a (neg b).

(** An infinity scaled by a finite or infinite factor of sign [s]. *)
Definition signedInf (positive : bool) (s : comparison) : number :=
  match s with
  | Eq => NaN
  | Lt => if positive then PosInf else NegInf
  | Gt => if positive then NegInf else PosInf
  end.

Definition mul (a b : number) : number :=
  match a, b with
  | NaN, _ | _, NaN => NaN
  | PosInf, PosInf | NegInf, NegInf => PosInf
  | PosInf, NegInf | NegInf, PosInf => NegInf
  | PosInf, Fin q | Fin q, PosInf => signedInf true (Qsign q)
  | NegInf, Fin q | Fin q, NegInf => signedInf false (Qsign q)
  | Fin p, Fin q => Fin (p * q)
  end.

(** Division.  The single zero of the model stands for [+0]: a non-zero
    finite value divided by zero is the infinity of its sign, and [0 / 0]
    is [NaN]. *)
Definition div (a b : number) : number :=
  match a, b with
  | NaN, _ | _, NaN => NaN
  | (PosInf | NegInf), (PosInf | NegInf) => NaN
  | PosInf, Fin q => if Qle_bool 0 q then PosInf else NegInf
  | NegInf, Fin q => if Qle_bool 0 q then NegInf else PosInf
  | Fin _, (PosInf | NegInf) => Fin 0
  | Fin p, Fin q =>
      if Qeq_bool q 0 then signedInf true (Qsign p) else Fin (p / q)
  end.

(** [a < b] *)
Definition lt (a b : number) : bool :=
  match a, b with
  | NaN, _ | _, NaN => false
  | _, NegInf => false
  | PosInf, _ => false
  | NegInf, _ => true
  | Fin _, PosInf => true
  | Fin p, Fin q => negb (Qle_bool q p)
  end.

(** [a <= b] *)
Definition le (a b : number) : bool :=
  match a, b with
  | NaN, _ | _, NaN => false
  | NegInf, _ => true
  | _, PosInf => true
  | PosInf, _ => false
  | Fin _, NegInf => false
  | Fin p, Fin q => Qle_bool p q
  end.

(** [a > b] and [a >= b] *)
Definition gt (a b : number) : bool := lt b a.
Definition ge (a b : number) : bool := le b a.

(** [a === b] on numbers: [NaN] is not equal to itself. *)
Definition strict_eq (a b : number) : bool :=
  match a, b with
  | PosInf, PosInf | NegInf, NegInf => true
  | Fin p, Fin q => Qeq_bool p q
  | _, _ => false
  end.

(** The same value: as [strict_eq], but [NaN] is the same as [NaN]. *)
Definition same (a b : number) : bool :=
  match a, b with
  | NaN, NaN => true
  | _, _ => strict_eq a b
  end.

Definition Math_ceil (a : number) : number :=
  match a with
  | Fin q => ofZ (Qceiling q)
  | _ => a
  end.

(** [Math.max(a, b)] *)
Definition Math_max2 (a b : number) : number :=
  match a, b with
  | NaN, _ | _, NaN => NaN
  | _, _ => if lt a b then b else a
  end.

(** [Math.max(...xs)]: [-Infinity] for no argument. *)
Definition Math_max (xs : list number) : number :=
  fold_left Math_max2 xs NegInf.

(** *** Decimal logarithm

    [Math.floor(Math.log10(x))] is an integer, an infinity or [NaN]; for a
    positive rational [a / b] the integer is found by counting: upwards from
    [b] in steps of ten while the power still fits under [a], or downwards
    until [a] scaled by the power reaches [b]. *)

Fixpoint log10_up (fuel : nat) (a p n : Z) : Z :=
  match fuel with
  | O => n
  | S fuel' => if p * 10 <=? a then log10_up fuel' a (p * 10) (n + 1) else n
  end.

Fixpoint log10_down (fuel : nat) (b p k : Z) : Z :=
  match fuel with
  | O => - k
  | S fuel' => if b <=? p then - k else log10_down fuel' b (p * 10) (k + 1)
  end.

(** The integer [n] with [10^n <= a / b < 10^(n+1)], for [0 < a] and [0 < b]. *)
Definition ilog10 (a b : Z) : Z :=
  if b <=? a
  then log10_up (S (Z.to_nat (Z.log2 a))) a b 0
  else log10_down (S (Z.to_nat (Z.log2 b))) b a 0.

(** [Math.floor(Math.log10(x))] *)
Definition floor_log10 (x : number) : number :=
  match x with
  | NaN => NaN
  | PosInf => PosInf
  | NegInf => NaN
  | Fin q =>
      match Qsign q with
      | Eq => NegInf
      | Gt => NaN
      | Lt => ofZ (ilog10 (Qnum q) (Zpos (Qden q)))
      end
  end.

(** [10^n] for an integer [n], as a rational. *)
Definition Qpow10 (n : Z) : Q := Qpower 10 n.

(** [Math.pow(10, e)] at the values [floor_log10] gives: an integer
    exponent, an infinity or [NaN]. *)
Definition pow10 (e : number) : number :=
  match e with
  | NaN => NaN
  | PosInf => PosInf
  | NegInf => Fin 0
  | Fin q => Fin (Qpow10 (Qfloor q))
  end.

End JS.

(** ** Dates

    ECMAScript's date algorithms on time values (milliseconds since the
    epoch, as integers) and the [Date] methods the generator calls. *)

Module JSDate.

Definition msPerDay : Z := 86400000.

Definition Day (t : Z) : Z := t / msPerDay.
Definition TimeWithinDay (t : Z) : Z := t mod msPerDay.

Definition DayFromYear (y : Z) : Z :=
  365 * (y - 1970) + (y - 1969) / 4 - (y - 1901) / 100 + (y - 1601) / 400.

Definition isLeapYear (y : Z) : bool :=
  if negb (y mod 4 =? 0) then false
  else if negb (y mod 100 =? 0) then true
  else (y mod 400 =? 0).

(** The year of day number [d]: the largest [y] with [DayFromYear y <= d],
    found in the 400-year cycle that starts on 1 January 1601. *)
Definition YearFromDay (d : Z) : Z :=
  let n := d + 134774 in
  let era := n / 146097 in
  let doe := n mod 146097 in
  let c := Z.min (doe / 36524) 3 in
  let doc := doe - 36524 * c in
  let q := doc / 1461 in
  let d4 := doc mod 1461 in
  let y1 := Z.min (d4 / 365) 3 in
  1601 + 400 * era + 100 * c + 4 * q + y1.

Definition YearFromTime (t : Z) : Z := YearFromDay (Day t).

Definition InLeapYear (t : Z) : Z :=
  if isLeapYear (YearFromTime t) then 1 else 0.

Definition DayWithinYear (t : Z) : Z := Day t - DayFromYear (YearFromTime t).

Definition MonthFromTime (t : Z) : Z :=
  let d := DayWithinYear t in
  let leap := InLeapYear t in
  if d <? 31 then 0
  else if d <? 59 + leap then 1
  else if d <? 90 + leap then 2
  else if d <? 120 + leap then 3
  else if d <? 151 + leap then 4
  else if d <? 181 + leap then 5
  else if d <? 212 + leap then 6
  else if d <? 243 + leap then 7
  else if d <? 273 + leap then 8
  else if d <? 304 + leap then 9
  else if d <? 334 + leap then 10
  else 11.

(** Days of the year before month [m] (0 for January). *)
Definition daysBeforeMonth (m leap : Z) : Z :=
  match m with
  | 0 => 0
  | 1 => 31
  | 2 => 59 + leap
  | 3 => 90 + leap
  | 4 => 120 + leap
  | 5 => 151 + leap
  | 6 => 181 + leap
  | 7 => 212 + leap
  | 8 => 243 + leap
  | 9 => 273 + leap
  | 10 => 304 + leap
  | _ => 334 + leap
  end.

Definition DateFromTime (t : Z) : Z :=
  DayWithinYear t - daysBeforeMonth (MonthFromTime t) (InLeapYear t) + 1.

Definition WeekDay (t : Z) : Z := (Day t + 4) mod 7.

(** [MakeDay(year, month, date)]: the day number of the first day of the
    month, plus [date - 1]. *)
Definition MakeDay (year month date : Z) : Z :=
  let ym := year + month / 12 in
  let mn := month mod 12 in
  DayFromYear ym + daysBeforeMonth mn (if isLeapYear ym then 1 else 0)
  + date - 1.

Definition MakeDate (day time : Z) : Z := day * msPerDay + time.

(** [TimeClip(time)]: a time value further than 8.64e15 ms from the epoch
    is [NaN], written [None]; the date is then invalid. *)
Definition TimeClip (time : Z) : option Z :=
  if Z.abs time <=? 8640000000000000 then Some time else None.

(** The host's time zone, as ECMAScript's [LocalTZA(t, isUTC)]: its offset
    from UTC in milliseconds at a UTC time value ([isUTC] true) and at a
    local time value ([isUTC] false).  At a local time that a transition
    skips or repeats, the latter is the offset in force before the
    transition. *)
Record Zone : Type := mkZone {
  offsetAtUTC : Z -> Z;
  offsetAtLocal : Z -> Z
}.

(** The zone that keeps one offset all year. *)
Definition fixedZone (offset : Z) : Zone :=
  {| offsetAtUTC := fun _ => offset; offsetAtLocal := fun _ => offset |}.

Coercion fixedZone : Z >-> Zone.
Bind Scope Z_scope with Zone.

(** A zone with one transition: the offset is [before] up to the UTC
    instant [instant] and [after] from then on.  The local times that the
    transition skips or repeats take the offset [before]. *)
Definition zoneWithTransition (instant before after : Z) : Zone :=
  {| offsetAtUTC := fun t => if t <? instant then before else after;
     offsetAtLocal := fun lt =>
       if lt <? instant + Z.max before after then before else after |}.

(** America/New_York around the end of daylight saving in 2020: UTC-4 until
    1 November 2020, 06:00 UTC, and UTC-5 afterwards. *)
Definition newYork2020 : Zone :=
  zoneWithTransition 1604210400000 (-14400000) (-18000000).

Section LocalTime.

(** The host's time zone. *)
Variable LocalTZA : Zone.

Definition LocalTime (t : Z) : Z := t + offsetAtUTC LocalTZA t.
Definition UTC (t : Z) : Z := t - offsetAtLocal LocalTZA t.

Definition getTime (t : Z) : Z := t.
Definition getFullYear (t : Z) : Z := YearFromTime (LocalTime t).
Definition getMonth (t : Z) : Z := MonthFromTime (LocalTime t).
Definition getDate (t : Z) : Z := DateFromTime (LocalTime t).
Definition getDay (t : Z) : Z := WeekDay (LocalTime t).

(** The time value [date.setDate(dt)] computes, before [TimeClip]: the day
    of the month is replaced in local time, which keeps the wall-clock time
    of day, and the result is converted back with the offset in force
    there. *)
Definition setDateValue (t dt : Z) : Z :=
  let lt := LocalTime t in
  let newDate :=
    MakeDate (MakeDay (YearFromTime lt) (MonthFromTime lt) dt)
             (TimeWithinDay lt) in
  UTC newDate.

(** [date.setDate(dt)]: the time value the date holds afterwards, [None]
    for an invalid date. *)
Definition setDate (t dt : Z) : option Z := TimeClip (setDateValue t dt).

(** The local calendar day of a date, as a day number. *)
Definition localDay (t : Z) : Z := Day (LocalTime t).

End LocalTime.

(** *** Labels of [Intl.DateTimeFormat('en-US', ...)] *)

Local Open Scope string_scope.

Definition decimal (z : Z) : string := NilZero.string_of_int (Z.to_int z).

Definition monthLong (m : Z) : string :=
  match m with
  | 0 => "January" | 1 => "February" | 2 => "March" | 3 => "April"
  | 4 => "May" | 5 => "June" | 6 => "July" | 7 => "August"
  | 8 => "September" | 9 => "October" | 10 => "November"
  | _ => "December"
  end%Z.

Definition monthShort (m : Z) : string := substring 0 3 (monthLong m).

Definition weekdayLong (w : Z) : string :=
  match w with
  | 0 => "Sunday" | 1 => "Monday" | 2 => "Tuesday" | 3 => "Wednesday"
  | 4 => "Thursday" | 5 => "Friday" | _ => "Saturday"
  end%Z.

(** [{ month: 'short', day: 'numeric' }] *)
Definition formatShort (LocalTZA : Zone) (t : Z) : string :=
  monthShort (getMonth LocalTZA t) ++ " " ++ decimal (getDate LocalTZA t).

(** [{ weekday: 'long', year: 'numeric', month: 'long', day: 'numeric' }] *)
Definition formatFull (LocalTZA : Zone) (t : Z) : string :=
  weekdayLong (getDay LocalTZA t) ++ ", " ++ monthLong (getMonth LocalTZA t)
  ++ " " ++ decimal (getDate LocalTZA t) ++ ", "
  ++ decimal (getFullYear LocalTZA t).

End JSDate.

Import JS JSDate.

(** ** Mock data generation *)

Record Sample : Type := mkSample {
  date : Z;
  usage : Z;
  displayDate : string;
  fullDate : string
}.

(** The ways a call can end.  [InvalidRange] is the failure the spec
    names; the code has no [throw] of its own.
    [Intl.DateTimeFormat.prototype.format] throws [RangeError] on an invalid
    date. *)
Inductive Failure : Type := InvalidRange | RangeError.

Inductive Completion (A : Type) : Type :=
| Returned (v : A)
| Thrown (e : Failure).
Arguments Returned {A} v.
Arguments Thrown {A} e.

Section Generator.

(** [Math.sin] at an integer seed. *)
Variable Math_sin : Z -> Q.

(** The host's time zone. *)
Variable LocalTZA : Zone.

Definition dateSeed (d : Z) : Z :=
  getFullYear LocalTZA d * 10000 + (getMonth LocalTZA d + 1) * 100
  + getDate LocalTZA d.

Definition randomFactor (d : Z) : Q := (Math_sin (dateSeed d) + 1) / 2.

Definition isWeekend (d : Z) : bool :=
  (getDay LocalTZA d =? 0) || (getDay LocalTZA d =? 6).

(** [usage] before the spikes: the baseline and the pseudo-random part. *)
Definition baseUsage (d : Z) : Z :=
  (if isWeekend d then 1500 else 5000)
  + Qfloor (randomFactor d * 2500).

Definition dayIndex (d : Z) : Z := getTime d / (1000 * 60 * 60 * 24).

(** The [if] / [else if] chain on [dayIndex]; [%] is the truncating
    remainder. *)
Definition spike (d : Z) : Z :=
  if Z.rem (dayIndex d) 37 =? 0 then 45000
  else if Z.rem (dayIndex d) 11 =? 0 then 15000
  else if (Z.rem (dayIndex d) 5 =? 0) && negb (isWeekend d) then 5000
  else 0.

Definition usageOf (d : Z) : Z := baseUsage d + spike d.

(** The sample pushed for a date whose time value is [d]. *)
Definition sampleOn (d : Z) : Sample :=
  {| date := d;
     usage := usageOf d;
     displayDate := formatShort LocalTZA d;
     fullDate := formatFull LocalTZA d |}.

(** The sample of the turn with loop variable [i], when its date is a valid
    one: [today] moved back by [i] days of the month. *)
Definition sampleAt (today i : Z) : Sample :=
  sampleOn (setDateValue LocalTZA today (getDate LocalTZA today - i)).

(** [for (let i = days - 1; i >= 0; i--)] with [n] turns left, so that the
    loop variable is [n - 1]; each turn pushes one sample.  A turn whose
    date is invalid throws in [format], which ends the call. *)
Fixpoint generateLoop (today : Z) (n : nat) : Completion (list Sample) :=
  match n with
  | O => Returned []
  | S i =>
      match setDate LocalTZA today (getDate LocalTZA today - Z.of_nat i) with
      | None => Thrown RangeError
      | Some d =>
          match generateLoop today i with
          | Returned rest => Returned (sampleOn d :: rest)
          | Thrown e => Thrown e
          end
      end
  end.

(** The call [generateMockData(days)] when [new Date()] gives [today]. *)
Definition generateMockData_call (today days : Z)
  : Completion (list Sample) :=
  generateLoop today (Z.to_nat days).

(** The series [generateMockData(days)] returns; a call that throws
    returns none, and has no sample. *)
Definition generateMockData (today days : Z) : list Sample :=
  match generateMockData_call today days with
  | Returned data => data
  | Thrown _ => []
  end.

(** Every date of the call [generateMockData(days)] is a valid one. *)
Definition datesValid (today days : Z) : Prop :=
  forall i, 0 <= i < days ->
    setDate LocalTZA today (getDate LocalTZA today - i) <> None.

End Generator.

(** ** Chart rendering *)

(** *** The elements [renderChart] creates

    Each record keeps the geometry attributes of its element; the constant
    presentation attributes (colours, font, dash pattern) are left out. *)

(** The text of a label: what [formatNumber] returns, or a date label. *)
Inductive LabelText : Type :=
| Thousands (k : number)   (* `${k}k`, with [k] the value [toFixed(0)] prints *)
| Digits (v : number)      (* [v.toString()] *)
| Caption (s : string).

(** A hover cursor: a [rect] of class [cursor-rect], together with the sample
    its listeners close over. *)
Record CursorRect : Type := mkCursor {
  cursor_x : number;
  cursor_y : number;
  cursor_width : number;
  cursor_height : number;
  cursor_sample : Sample
}.

Record GridLine : Type := mkLine {
  line_x1 : number;
  line_y1 : number;
  line_x2 : number;
  line_y2 : number
}.

Inductive Anchor : Type := AnchorEnd | AnchorMiddle.

Record TextEl : Type := mkText {
  text_x : number;
  text_y : number;
  text_anchor : Anchor;
  textContent : LabelText
}.

(** The commands of a path's [d] attribute. *)
Inductive PathCmd : Type :=
| MoveTo (x y : number)                          (* M x,y *)
| VLineBy (dy : number)                          (* v dy *)
| HLineBy (dx : number)                          (* h dx *)
| ArcBy (rx ry : number) (rotation : Z) (largeArc sweep : bool)
        (dx dy : number)                         (* a rx,ry rot f1 f2 dx,dy *)
| ClosePath.                                     (* z *)

Record Svg : Type := mkSvg {
  svg_width : number;
  svg_height : number;
  cursors : list CursorRect;
  grid : list GridLine;
  bars : list (list PathCmd);
  labels : list TextEl
}.

(** *** App state *)

Record State : Type := mkState {
  currentRange : Z;
  chartData : list Sample;
  container : list Svg      (* the children of [#chart-container] *)
}.

Definition initialState : State :=
  {| currentRange := 30; chartData := []; container := [] |}.

Record Margin : Type := mkMargin {
  top : number;
  right : number;
  bottom : number;
  left : number
}.

Definition margin : Margin :=
  {| top := ofZ 10; right := ofZ 10; bottom := ofZ 25; left := ofZ 50 |}.

(** [num.toFixed(0)]: the nearest integer, the larger one at a tie. *)
Definition toFixed0 (a : number) : number :=
  match a with
  | Fin q => ofZ (Qfloor (q + (1 # 2))%Q)
  | _ => a
  end.

Definition formatNumber (num : number) : LabelText :=
  if ge num (ofZ 1000) then Thousands (toFixed0 (div num (ofZ 1000)))
  else Digits num.

(** *** Y scale *)

Record AxisSpec : Type := mkAxis {
  niceMax : number;
  step : number
}.

(** The "Y Scale Logic" block of [renderChart], from [roughStep] to the
    [niceMax] fallback, as a function of [maxUsage]. *)
Definition computeAxis (maxUsage : number) : AxisSpec :=
  let roughStep := div maxUsage (ofZ 4) in
  let magnitude := pow10 (floor_log10 roughStep) in
  let step0 := mul (Math_ceil (div roughStep magnitude)) magnitude in
  let step :=
    if lt (div step0 magnitude) (Fin 1.5%Q) then mul (ofZ 1) magnitude
    else if lt (div step0 magnitude) (ofZ 3) then mul (Fin 2.5%Q) magnitude
    else if lt (div step0 magnitude) (ofZ 7) then mul (ofZ 5) magnitude
    else mul (ofZ 10) magnitude in
  let niceMax0 := mul (Math_ceil (div maxUsage step)) step in
  let niceMax := if strict_eq niceMax0 (ofZ 0) then ofZ 5000 else niceMax0 in
  {| niceMax := niceMax; step := step |}.

Definition maxUsageOf (data : list Sample) : number :=
  Math_max (map (fun d => ofZ (usage d)) data).

(** *** Grid lines and Y axis labels *)

Section Drawing.

Variables width height : number.

Definition chartWidth : number := sub (sub width (left margin)) (right margin).
Definition chartHeight : number :=
  sub (sub height (top margin)) (bottom margin).

Variable axis : AxisSpec.

Definition yScale (val : number) : number :=
  sub chartHeight (mul (div val (niceMax axis)) chartHeight).

Definition gridLineAt (val : number) : GridLine :=
  let y := add (top margin) (yScale val) in
  {| line_x1 := left margin; line_y1 := y;
     line_x2 := sub width (right margin); line_y2 := y |}.

Definition yLabelAt (val : number) : TextEl :=
  let y := add (top margin) (yScale val) in
  {| text_x := sub (left margin) (ofZ 10); text_y := add y (ofZ 4);
     text_anchor := AnchorEnd; textContent := formatNumber val |}.

(** [for (let val = 0; val <= niceMax; val += step)], with a bound on the
    number of turns. *)
Fixpoint gridLoop (fuel : nat) (val : number) : list (GridLine * TextEl) :=
  match fuel with
  | O => []
  | S fuel' =>
      if le val (niceMax axis)
      then (gridLineAt val, yLabelAt val)
           :: gridLoop fuel' (add val (step axis))
      else []
  end.

(** Turns the loop can take: one more than the number of whole steps under
    [niceMax]. *)
Definition gridFuel : nat :=
  match div (niceMax axis) (step axis) with
  | Fin q => S (Z.to_nat (Qfloor q))
  | _ => 1%nat
  end.

Definition gridTicks : list (GridLine * TextEl) := gridLoop gridFuel (ofZ 0).

(** *** Bars, cursors and X axis labels *)

Variable count : nat.          (* [chartData.length] *)
Variable range : Z.            (* [currentRange] *)

Definition barGapPct : number := Fin 0.02%Q.

Definition totalBarWidth : number := div chartWidth (ofZ (Z.of_nat count)).

Definition barWidth : number :=
  let barWidth0 := mul totalBarWidth (sub (ofZ 1) barGapPct) in
  if gt barWidth0 (ofZ 80) then ofZ 80 else barWidth0.

Definition actualGap : number := sub totalBarWidth barWidth.

Definition labelInterval : Z :=
  if range =? 90 then 6 else if range =? 30 then 2 else 1.

Definition slotX (i : nat) : number :=
  add (left margin) (mul (ofZ (Z.of_nat i)) totalBarWidth).

Definition barX (i : nat) : number :=
  add (slotX i) (div actualGap (ofZ 2)).

Definition barH (d : Sample) : number :=
  mul (div (ofZ (usage d)) (niceMax axis)) chartHeight.

Definition barY (d : Sample) : number :=
  add (top margin) (sub chartHeight (barH d)).

Definition cursorAt (d : Sample) (i : nat) : CursorRect :=
  {| cursor_x := slotX i; cursor_y := top margin;
     cursor_width := totalBarWidth; cursor_height := chartHeight;
     cursor_sample := d |}.

(** The corner radius [r]. *)
Definition cornerRadius : number := ofZ 4.

(** The [d] attribute of a bar whose corner is at [(x, y)], of height [bh]
    before clamping and width [w]. *)
Definition pathD (x y bh w : number) : list PathCmd :=
  let r := cornerRadius in
  let h := Math_max2 (ofZ 0) bh in
  if lt h r then
    [ MoveTo x (add y h); VLineBy (neg h); HLineBy w; VLineBy h; ClosePath ]
  else
    [ MoveTo x (add y h);
      VLineBy (neg (sub h r));
      ArcBy r r 0 false true r (neg r);
      HLineBy (sub w (mul (ofZ 2) r));
      ArcBy r r 0 false true r r;
      VLineBy (sub h r);
      ClosePath ].

Definition barPath (d : Sample) (i : nat) : list PathCmd :=
  pathD (barX i) (barY d) (barH d) barWidth.

Definition xLabelAt (d : Sample) (i : nat) : list TextEl :=
  if Z.rem (Z.of_nat i) labelInterval =? 0 then
    [ {| text_x := add (barX i) (div barWidth (ofZ 2));
         text_y := sub height (ofZ 5);
         text_anchor := AnchorMiddle;
         textContent := Caption (displayDate d) |} ]
  else [].

(** [chartData.forEach((d, i) => ...)], from index [i] on: the cursor, the
    bar and the label (if any) of each sample. *)
Fixpoint forEachBar (data : list Sample) (i : nat)
  : list (CursorRect * list PathCmd * list TextEl) :=
  match data with
  | [] => []
  | d :: rest =>
      (cursorAt d i, barPath d i, xLabelAt d i) :: forEachBar rest (S i)
  end.

End Drawing.

(** [renderChart()], when the container's bounding rectangle is
    [width] by [height]. *)
Definition renderChart (width height : number) (st : State) : State :=
  let cleared :=
    {| currentRange := currentRange st; chartData := chartData st;
       container := [] |} in
  if strict_eq width (ofZ 0) || strict_eq height (ofZ 0) then cleared
  else
    let data := chartData st in
    let axis := computeAxis (maxUsageOf data) in
    let ticks := gridTicks width height axis in
    let slots :=
      forEachBar width height axis (List.length data) (currentRange st) data 0 in
    let svg :=
      {| svg_width := width;
         svg_height := height;
         cursors := map (fun s => fst (fst s)) slots;
         grid := map fst ticks;
         bars := map (fun s => snd (fst s)) slots;
         labels := (map snd ticks ++ List.concat (map snd slots))%list |} in
    {| currentRange := currentRange st; chartData := chartData st;
       container := [svg] |}.

(** The state after [update(range)], when [new Date()] gives [today] and
    [generateMockData] returns. *)
Definition update (Math_sin : Z -> Q) (LocalTZA : Zone) (today : Z)
    (width height : number) (range : Z) (st : State) : State :=
  renderChart width height
    {| currentRange := range;
       chartData := generateMockData Math_sin LocalTZA today range;
       container := container st |}.

(** The call [update(range)]: a throw of [generateMockData] leaves it
    before the chart data is assigned and before anything is drawn; the
    range is assigned by then. *)
Definition update_call (Math_sin : Z -> Q) (LocalTZA : Zone) (today : Z)
    (width height : number) (range : Z) (st : State) : State * option Failure :=
  match generateMockData_call Math_sin LocalTZA today range with
  | Returned _ =>
      (update Math_sin LocalTZA today width height range st, None)
  | Thrown e =>
      ({| currentRange := range; chartData := chartData st;
          container := container st |}, Some e)
  end.

(** ** Reading a [number]

    [is_fin a q]: the number [a] is finite, with value [q]. *)

Definition is_fin (a : number) (q : Q) : Prop :=
  match a with
  | Fin p => p == q
  | _ => False
  end.

(** The sum of a list of numbers, from the left. *)
Definition sumOf (xs : list number) : number := fold_left add xs (ofZ 0).

(** ** The step rule in two wordings

    [thresholdStep] follows the four-threshold rule with the ratio
    [r = roughStep / magnitude] itself; [ceilingStep] applies the same
    thresholds to the ratio rounded up to an integer. *)

Definition multiplierFor (r : number) : number :=
  if lt r (Fin 1.5%Q) then ofZ 1
  else if lt r (ofZ 3) then Fin 2.5%Q
  else if lt r (ofZ 7) then ofZ 5
  else ofZ 10.

Definition thresholdStep (maxValue : number) : number :=
  let roughStep := div maxValue (ofZ 4) in
  let magnitude := pow10 (floor_log10 roughStep) in
  let r := div roughStep magnitude in
  mul (multiplierFor r) magnitude.

Definition ceilingStep (maxValue : number) : number :=
  let roughStep := div maxValue (ofZ 4) in
  let magnitude := pow10 (floor_log10 roughStep) in
  let r := div roughStep magnitude in
  mul (multiplierFor (Math_ceil r)) magnitude.

(** ** The rest of the page

    [formatNumberFull], the tooltip and the listeners of the cursors, the
    range buttons that [update] restyles, the outline a path draws, and the
    debounced resize. *)

Module Page.

Local Open Scope string_scope.

(** *** [formatNumberFull]

    [Intl.NumberFormat('en-US').format(num)] on an integer: the decimal
    digits in groups of three, separated by commas, after the sign. *)

(** Commas between groups of three, on the digits in reverse order. *)
Fixpoint groupReversed (ds : list Ascii.ascii) : list Ascii.ascii :=
  match ds with
  | a :: b :: c :: ((_ :: _) as rest) =>
      a :: b :: c :: ","%char :: groupReversed rest
  | _ => ds
  end.

Definition groupDigits (ds : list Ascii.ascii) : list Ascii.ascii :=
  rev (groupReversed (rev ds)).

Definition formatNumberFull (num : Z) : string :=
  (if (num <? 0)%Z then "-" else "")
  ++ string_of_list_ascii
       (groupDigits (list_ascii_of_string (decimal (Z.abs num)))).

(** *** Class lists

    A [classList] as the list of its tokens, without repetition. *)

Definition contains (cl : list string) (tok : string) : bool :=
  existsb (String.eqb tok) cl.

Definition classList_add1 (cl : list string) (tok : string) : list string :=
  if contains cl tok then cl else (cl ++ [tok])%list.

Definition classList_remove1 (cl : list string) (tok : string) : list string :=
  filter (fun c => negb (String.eqb c tok)) cl.

(** [classList.add(...toks)] and [classList.remove(...toks)] *)
Definition classList_add (cl toks : list string) : list string :=
  fold_left classList_add1 toks cl.

Definition classList_remove (cl toks : list string) : list string :=
  fold_left classList_remove1 toks cl.

(** *** The tooltip and the listeners of a cursor *)

(** [COLORS.cursor] *)
Definition COLORS_cursor : string := "#f1f5f9".

Record Tooltip : Type := mkTooltip {
  tooltip_classes : list string;           (* [tooltip.classList] *)
  tooltipDate : string;                    (* [tooltipDate.textContent] *)
  tooltipUsage : string;                   (* [tooltipUsage.textContent] *)
  tooltip_translate : option (number * number)
                                           (* [translate(${x}px, ${y}px)] *)
}.

(** The [fill] attribute of each cursor, by index, and the tooltip. *)
Record Hover : Type := mkHover {
  cursor_fill : list string;
  tooltip : Tooltip
}.

Inductive PointerEvent : Type :=
| MouseEnter (i : nat)                         (* on cursor [i] *)
| MouseMove (i : nat) (clientX clientY : number)
| MouseLeave (i : nat).

(** [cursor.setAttribute('fill', v)] on cursor [i]. *)
Fixpoint setFill (i : nat) (v : string) (fills : list string) : list string :=
  match fills, i with
  | [], _ => []
  | _ :: rest, O => v :: rest
  | f :: rest, S j => f :: setFill j v rest
  end.

(** The listener of cursor [i], which closes over the sample [d]. *)
Definition onMouseEnter (d : Sample) (i : nat) (ui : Hover) : Hover :=
  {| cursor_fill := setFill i COLORS_cursor (cursor_fill ui);
     tooltip :=
       {| tooltip_classes := classList_remove (tooltip_classes (tooltip ui))
                                              ["hidden"];
          tooltipDate := fullDate d;
          tooltipUsage := formatNumberFull (usage d) ++ " tokens";
          tooltip_translate := tooltip_translate (tooltip ui) |} |}.

Definition onMouseMove (clientX clientY : number) (ui : Hover) : Hover :=
  let tipX := add clientX (ofZ 15) in
  let tipY := sub clientY (ofZ 10) in
  {| cursor_fill := cursor_fill ui;
     tooltip :=
       {| tooltip_classes := tooltip_classes (tooltip ui);
          tooltipDate := tooltipDate (tooltip ui);
          tooltipUsage := tooltipUsage (tooltip ui);
          tooltip_translate := Some (tipX, tipY) |} |}.

Definition onMouseLeave (i : nat) (ui : Hover) : Hover :=
  {| cursor_fill := setFill i "transparent" (cursor_fill ui);
     tooltip :=
       {| tooltip_classes := classList_add (tooltip_classes (tooltip ui))
                                           ["hidden"];
          tooltipDate := tooltipDate (tooltip ui);
          tooltipUsage := tooltipUsage (tooltip ui);
          tooltip_translate := tooltip_translate (tooltip ui) |} |}.

(** An event on the cursors drawn for [data]; a cursor that does not exist
    has no listener. *)
Definition dispatch (data : list Sample) (e : PointerEvent) (ui : Hover)
  : Hover :=
  match e with
  | MouseEnter i =>
      match nth_error data i with
      | Some d => onMouseEnter d i ui
      | None => ui
      end
  | MouseMove i clientX clientY =>
      match nth_error data i with
      | Some _ => onMouseMove clientX clientY ui
      | None => ui
      end
  | MouseLeave i =>
      match nth_error data i with
      | Some _ => onMouseLeave i ui
      | None => ui
      end
  end.

Definition dispatchAll (data : list Sample) (es : list PointerEvent)
    (ui : Hover) : Hover :=
  fold_left (fun u e => dispatch data e u) es ui.

(** The cursors as [renderChart] creates them: every fill transparent. *)
Definition afterRender (data : list Sample) (tip : Tooltip) : Hover :=
  {| cursor_fill := repeat "transparent" (List.length data); tooltip := tip |}.

(** *** The range buttons

    The second half of [update]: every element of class [range-btn] is
    restyled after its [data-value]; [parseInt] of a missing or
    non-numeric attribute is [NaN], here [None]. *)

Record RangeButton : Type := mkButton {
  data_value : option Z;
  button_classes : list string
}.

Definition inactiveClasses : list string :=
  ["text-slate-500"; "hover:text-slate-700"; "hover:bg-slate-200/50"].

Definition restyle (range : Z) (btn : RangeButton) : RangeButton :=
  let isRange :=
    match data_value btn with
    | Some val => (val =? range)%Z
    | None => false
    end in
  if isRange then
    {| data_value := data_value btn;
       button_classes :=
         classList_remove (classList_add (button_classes btn) ["active"])
                          inactiveClasses |}
  else
    {| data_value := data_value btn;
       button_classes :=
         classList_add (classList_remove (button_classes btn) ["active"])
                       inactiveClasses |}.

(** [document.querySelectorAll('.range-btn').forEach(...)] over the
    elements of the page that carry [data-value]. *)
Definition updateButtons (range : Z) (elements : list RangeButton)
  : list RangeButton :=
  map (fun el => if contains (button_classes el) "range-btn"
                 then restyle range el else el) elements.

(** *** The points of a path

    The current point after each command of a [d] attribute; [z] returns
    to the start of the subpath. *)

Definition Point : Type := (number * number)%type.

Definition moveBy (p : Point) (dx dy : number) : Point :=
  (add (fst p) dx, add (snd p) dy).

Fixpoint pathPoints (start cur : Point) (cmds : list PathCmd) : list Point :=
  match cmds with
  | [] => []
  | MoveTo x y :: rest => (x, y) :: pathPoints (x, y) (x, y) rest
  | VLineBy dy :: rest =>
      moveBy cur (ofZ 0) dy :: pathPoints start (moveBy cur (ofZ 0) dy) rest
  | HLineBy dx :: rest =>
      moveBy cur dx (ofZ 0) :: pathPoints start (moveBy cur dx (ofZ 0)) rest
  | ArcBy _ _ _ _ _ dx dy :: rest =>
      moveBy cur dx dy :: pathPoints start (moveBy cur dx dy) rest
  | ClosePath :: rest => start :: pathPoints start start rest
  end.

Definition vertices (cmds : list PathCmd) : list Point :=
  pathPoints (ofZ 0, ofZ 0) (ofZ 0, ofZ 0) cmds.

(** The point [p] has the finite coordinates [c]. *)
Definition at_point (p : Point) (c : Q * Q) : Prop :=
  is_fin (fst p) (fst c) /\ is_fin (snd p) (snd c).

(** *** The debounced resize

    [resizeTimeout] holds the timer of the last [resize] event; a timer
    that is still pending has a due time.  A timer runs [renderChart] once
    the clock has reached its due time, before a later event is handled. *)

Record ResizeState : Type := mkResize {
  pendingDue : option Z;       (* due time of the pending timer, if any *)
  redraws : list Z             (* times at which [renderChart] has run *)
}.

(** The timer fires if it is due at time [now]. *)
Definition runTimers (now : Z) (rs : ResizeState) : ResizeState :=
  match pendingDue rs with
  | Some due =>
      if (due <=? now)%Z
      then {| pendingDue := None; redraws := (redraws rs ++ [due])%list |}
      else rs
  | None => rs
  end.

(** The [resize] listener at time [now]:
    [clearTimeout(resizeTimeout); resizeTimeout = setTimeout(renderChart, 100)]. *)
Definition onResize (now : Z) (rs : ResizeState) : ResizeState :=
  {| pendingDue := Some (now + 100)%Z; redraws := redraws rs |}.

(** [resize] events at the given times, in order. *)
Definition resizeAt (rs : ResizeState) (now : Z) : ResizeState :=
  onResize now (runTimers now rs).

Definition resizes (times : list Z) (rs : ResizeState) : ResizeState :=
  fold_left resizeAt times rs.

(** Resize times that follow one another by less than the delay. *)
Fixpoint closeTogether (t : Z) (later : list Z) : Prop :=
  match later with
  | [] => True
  | u :: rest => (t <= u < t + 100)%Z /\ closeTogether u rest
  end.

(** Resize times that follow one another by more than the delay: each
    event comes strictly after the timer of the one before was due. *)
Fixpoint farApart (t : Z) (later : list Z) : Prop :=
  match later with
  | [] => True
  | u :: rest => (t + 100 < u)%Z /\ farApart u rest
  end.

(** *** Pointer paths

    The zone the pointer is in after a sequence of events that a pointer
    can produce over [n] zones: it enters a zone from outside any zone, and
    it moves within, or leaves, the zone it is in.  [None] when the
    sequence is not of that kind. *)
Fixpoint pointerPath (n : nat) (cur : option nat) (es : list PointerEvent)
  : option (option nat) :=
  match es, cur with
  | [], _ => Some cur
  | MouseEnter i :: rest, None =>
      if (i <? n)%nat then pointerPath n (Some i) rest else None
  | MouseMove i _ _ :: rest, Some j =>
      if (i =? j)%nat then pointerPath n cur rest else None
  | MouseLeave i :: rest, Some j =>
      if (i =? j)%nat then pointerPath n None rest else None
  | _, _ => None
  end.

(** What the page shows while the pointer is in zone [cur] ([None]:
    outside every zone), for the cursors of [data] and a tooltip that was
    [tip0] when they were drawn: the cursor of that zone alone is
    highlighted, the tooltip is visible exactly when there is such a zone
    and then shows its sample; the other classes of the tooltip are those
    of [tip0]. *)
Definition shows (data : list Sample) (tip0 : Tooltip) (cur : option nat)
    (ui : Hover) : Prop :=
  (forall c, c <> "hidden" ->
     contains (tooltip_classes (tooltip ui)) c
     = contains (tooltip_classes tip0) c) /\
  match cur with
  | None =>
      cursor_fill ui = repeat "transparent" (List.length data) /\
      contains (tooltip_classes (tooltip ui)) "hidden" = true
  | Some i =>
      cursor_fill ui
      = setFill i COLORS_cursor (repeat "transparent" (List.length data)) /\
      contains (tooltip_classes (tooltip ui)) "hidden" = false /\
      exists d, nth_error data i = Some d /\
        tooltipDate (tooltip ui) = fullDate d /\
        tooltipUsage (tooltip ui) = formatNumberFull (usage d) ++ " tokens"
  end.

End Page.

(** A fixed stand-in for [Math.sin] in closed examples.  The properties
    below hold for every function in its place. *)
Definition sampleSin (_ : Z) : Q := 0.

(** * Properties *)

(** ** Numbers *)

Module NumberFacts.

Local Open Scope Q_scope.

Lemma div_Fin (a b : Q) : ~ b == 0 -> div (Fin a) (Fin b) = Fin (a / b).
Proof.
  intros Hb. unfold div.
  destruct (Qeq_bool b 0) eqn:E; [|reflexivity].
  apply Qeq_bool_iff in E. contradiction.
Qed.

Lemma lt_Fin (a b : Q) : lt (Fin a) (Fin b) = true <-> a < b.
Proof.
  unfold lt. rewrite negb_true_iff.
  split.
  - intros H. apply Qnot_le_lt. intros Hle.
    apply Qle_bool_iff in Hle. congruence.
  - intros H. destruct (Qle_bool b a) eqn:E; [|reflexivity].
    apply Qle_bool_iff in E. exfalso. apply (Qlt_not_le _ _ H E).
Qed.

Lemma lt_Fin_false (a b : Q) : lt (Fin a) (Fin b) = false <-> b <= a.
Proof.
  unfold lt. rewrite negb_false_iff. apply Qle_bool_iff.
Qed.

Lemma le_Fin (a b : Q) : le (Fin a) (Fin b) = true <-> a <= b.
Proof. unfold le. apply Qle_bool_iff. Qed.

Lemma le_Fin_false (a b : Q) : le (Fin a) (Fin b) = false <-> b < a.
Proof.
  unfold le. split.
  - intros H. apply Qnot_le_lt. intros Hle.
    apply Qle_bool_iff in Hle. congruence.
  - intros H. destruct (Qle_bool a b) eqn:E; [|reflexivity].
    apply Qle_bool_iff in E. exfalso. apply (Qlt_not_le _ _ H E).
Qed.

Lemma strict_eq_Fin (a b : Q) : strict_eq (Fin a) (Fin b) = true <-> a == b.
Proof. unfold strict_eq. apply Qeq_bool_iff. Qed.

Lemma strict_eq_Fin_false (a b : Q) :
  ~ a == b -> strict_eq (Fin a) (Fin b) = false.
Proof.
  intros H. unfold strict_eq. destruct (Qeq_bool a b) eqn:E; [|reflexivity].
  apply Qeq_bool_iff in E. contradiction.
Qed.

(** A comparison with [NaN] on either side is false, and [ge] excludes
    [lt]. *)
Lemma ge_not_lt (a b : number) : ge a b = true -> lt a b = false.
Proof.
  unfold ge. destruct a as [| | |p], b as [| | |q]; simpl; try congruence.
  intros H. apply negb_false_iff. exact H.
Qed.

Lemma lt_not_ge (a b : number) : lt a b = true -> ge a b = false.
Proof.
  unfold ge. destruct a as [| | |p], b as [| | |q]; simpl; try congruence.
  intros H. apply negb_true_iff. exact H.
Qed.

End NumberFacts.

(** ** The decimal logarithm *)

Module Log10Facts.

Local Open Scope Z_scope.

Lemma log10_up_spec (fuel : nat) :
  forall a p n,
    0 < p <= a ->
    a < p * 10 ^ Z.of_nat fuel ->
    let r := log10_up fuel a p n in
    n <= r /\ p * 10 ^ (r - n) <= a < p * 10 ^ (r - n + 1).
Proof.
  induction fuel as [|fuel IH]; intros a p n Hp Hfuel.
  - simpl in Hfuel. lia.
  - cbn [log10_up]. destruct (p * 10 <=? a) eqn:E.
    + apply Z.leb_le in E.
      assert (Hf : a < p * 10 * 10 ^ Z.of_nat fuel).
      { rewrite Nat2Z.inj_succ, Z.pow_succ_r in Hfuel by lia. lia. }
      specialize (IH a (p * 10) (n + 1) ltac:(lia) Hf).
      cbv zeta in IH. destruct IH as (Hn & Hlo & Hhi).
      set (r := log10_up fuel a (p * 10) (n + 1)) in *.
      cbv zeta.
      replace (r - n) with (Z.succ (r - (n + 1))) by lia.
      replace (Z.succ (r - (n + 1)) + 1) with (Z.succ (r - (n + 1) + 1)) by lia.
      rewrite !Z.pow_succ_r by lia.
      split; [lia|]. split; lia.
    + apply Z.leb_gt in E. cbv zeta.
      replace (n - n) with 0 by lia. simpl. lia.
Qed.

Lemma log10_down_spec (fuel : nat) :
  forall b p k,
    0 < p ->
    b <= p * 10 ^ Z.of_nat fuel ->
    let j := - log10_down (S fuel) b p k - k in
    0 <= j /\ b <= p * 10 ^ j /\ (0 < j -> p * 10 ^ (j - 1) < b).
Proof.
  induction fuel as [|fuel IH]; intros b p k Hp Hfuel.
  - simpl in Hfuel. cbn [log10_down].
    replace (b <=? p) with true by (symmetry; apply Z.leb_le; lia).
    cbv zeta. replace (- - k - k) with 0 by lia. simpl. lia.
  - cbn [log10_down]. destruct (b <=? p) eqn:E.
    + apply Z.leb_le in E. cbv zeta.
      replace (- - k - k) with 0 by lia. simpl. lia.
    + apply Z.leb_gt in E.
      assert (Hf : b <= p * 10 * 10 ^ Z.of_nat fuel).
      { rewrite Nat2Z.inj_succ, Z.pow_succ_r in Hfuel by lia. lia. }
      specialize (IH b (p * 10) (k + 1) ltac:(lia) Hf).
      cbn [log10_down] in IH. cbv zeta in IH.
      destruct IH as (Hj & Hlo & Hhi).
      set (r := if b <=? p * 10 then - (k + 1)
                else log10_down fuel b (p * 10 * 10) (k + 1 + 1)) in *.
      cbv zeta.
      replace (- r - k) with (Z.succ (- r - (k + 1))) by lia.
      rewrite Z.pow_succ_r by lia.
      split; [lia|]. split; [lia|]. intros _.
      replace (Z.succ (- r - (k + 1)) - 1) with (- r - (k + 1)) by lia.
      destruct (Z.eq_dec (- r - (k + 1)) 0) as [H0|H0].
      * rewrite H0. simpl. lia.
      * specialize (Hhi ltac:(lia)).
        replace (- r - (k + 1)) with (Z.succ (- r - (k + 1) - 1)) by lia.
        rewrite Z.pow_succ_r by lia. lia.
Qed.

Lemma pow10_above (a : Z) : 0 < a -> a < 10 ^ Z.of_nat (S (Z.to_nat (Z.log2 a))).
Proof.
  intros Ha.
  pose proof (Z.log2_nonneg a) as Hl.
  rewrite Nat2Z.inj_succ, Z2Nat.id by lia.
  pose proof (Z.log2_spec a Ha) as [_ Hhi].
  assert (2 ^ Z.succ (Z.log2 a) <= 10 ^ Z.succ (Z.log2 a)).
  { apply Z.pow_le_mono_l. lia. }
  lia.
Qed.

(** [ilog10 a b] is the integer part of the decimal logarithm of [a / b]:
    stated on integers, with the negative powers moved to the other side. *)
Lemma ilog10_spec (a b : Z) :
  0 < a -> 0 < b ->
  let n := ilog10 a b in
  (0 <= n -> b * 10 ^ n <= a < b * 10 ^ (n + 1)) /\
  (n < 0 -> b <= a * 10 ^ (- n) /\ a * 10 ^ (- n - 1) < b).
Proof.
  intros Ha Hb. unfold ilog10. destruct (b <=? a) eqn:E.
  - apply Z.leb_le in E.
    assert (Hfuel : a < b * 10 ^ Z.of_nat (S (Z.to_nat (Z.log2 a)))).
    { pose proof (pow10_above a Ha). nia. }
    pose proof (log10_up_spec _ a b 0 ltac:(lia) Hfuel) as H.
    cbv zeta in H. destruct H as (Hn & H).
    set (r := log10_up _ a b 0) in *. cbv zeta.
    rewrite Z.sub_0_r in H. split; [intros _; exact H | lia].
  - apply Z.leb_gt in E.
    assert (Hfuel : b <= a * 10 ^ Z.of_nat (Z.to_nat (Z.log2 b))).
    { pose proof (Z.log2_nonneg b) as Hl.
      pose proof (Z.log2_spec b Hb) as [_ Hhi].
      destruct (Z.eq_dec (Z.log2 b) 0) as [H0|H0].
      - rewrite H0 in *. simpl in *. lia.
      - pose proof (pow10_above b Hb) as Hp.
        rewrite Nat2Z.inj_succ, Z.pow_succ_r in Hp by lia.
        assert (2 ^ Z.succ (Z.log2 b) <= 10 ^ Z.of_nat (Z.to_nat (Z.log2 b))).
        { rewrite Z2Nat.id by lia.
          replace (Z.succ (Z.log2 b)) with (Z.succ (Z.succ (Z.log2 b - 1))) by lia.
          replace (Z.log2 b) with (Z.succ (Z.log2 b - 1)) at 2 by lia.
          rewrite !Z.pow_succ_r by lia.
          assert (2 ^ (Z.log2 b - 1) <= 10 ^ (Z.log2 b - 1))
            by (apply Z.pow_le_mono_l; lia).
          assert (0 < 2 ^ (Z.log2 b - 1)) by (apply Z.pow_pos_nonneg; lia).
          lia. }
        nia. }
    pose proof (log10_down_spec _ b a 0 Ha Hfuel) as H.
    cbv zeta in H. destruct H as (Hj & Hlo & Hhi).
    set (r := log10_down _ b a 0) in *. cbv zeta.
    rewrite Z.sub_0_r in *.
    assert (r <> 0).
    { intros H0. rewrite H0 in Hlo. simpl in Hlo. lia. }
    split; [lia|]. intros Hr. split; [exact Hlo|].
    apply Hhi. lia.
Qed.

End Log10Facts.

(** ** The Y scale *)

Module AxisFacts.

Import NumberFacts.
Local Open Scope Q_scope.

Lemma Qpow10_pos (n : Z) : 0 < Qpow10 n.
Proof. unfold Qpow10. apply Qpower_0_lt. reflexivity. Qed.

Lemma Qpow10_nonneg_exp (n : Z) : (0 <= n)%Z -> Qpow10 n == inject_Z (10 ^ n).
Proof.
  intros Hn. unfold Qpow10. rewrite Zpower_Qpower by exact Hn. reflexivity.
Qed.

Lemma Qpow10_neg_exp (n : Z) : (n < 0)%Z -> Qpow10 n == / inject_Z (10 ^ (- n)).
Proof.
  intros Hn. unfold Qpow10.
  replace n with (- - n)%Z at 1 by lia.
  rewrite Qpower_opp, Zpower_Qpower by lia. reflexivity.
Qed.

Lemma Qpow10_succ (n : Z) : Qpow10 (n + 1) == 10 * Qpow10 n.
Proof.
  unfold Qpow10. rewrite Qpower_plus by discriminate.
  rewrite Qmult_comm. reflexivity.
Qed.

(** The magnitude of a positive value: a finite power of ten. *)
Lemma magnitude_Fin (q : Q) :
  0 < q ->
  pow10 (floor_log10 (Fin q))
  = Fin (Qpow10 (ilog10 (Qnum q) (Zpos (Qden q)))).
Proof.
  intros Hq. unfold floor_log10, Qsign.
  assert (E : (0 ?= q) = Lt) by (apply Qlt_alt; exact Hq).
  rewrite E.
  unfold ofZ, pow10. rewrite Qfloor_Z. reflexivity.
Qed.

(** It is the largest power of ten that is at most the value. *)
Lemma magnitude_brackets (q : Q) :
  0 < q ->
  let m := Qpow10 (ilog10 (Qnum q) (Zpos (Qden q))) in
  m <= q /\ q < 10 * m.
Proof.
  intros Hq. destruct q as [a b].
  assert (Ha : (0 < a)%Z).
  { unfold Qlt in Hq. simpl in Hq. lia. }
  cbn [Qnum Qden].
  pose proof (Log10Facts.ilog10_spec a (Zpos b) Ha ltac:(lia)) as H.
  cbv zeta in H. destruct H as [Hpos Hneg].
  set (n := ilog10 a (Zpos b)) in *.
  cbv zeta. rewrite <- Qpow10_succ.
  assert (Hb : 0 < inject_Z (Zpos b)) by reflexivity.
  rewrite (Qmake_Qdiv a b).
  destruct (Z_le_gt_dec 0 n) as [Hn|Hn].
  - specialize (Hpos Hn). destruct Hpos as [Hlo Hhi].
    rewrite !Qpow10_nonneg_exp by lia.
    split.
    + apply Qle_shift_div_l; [exact Hb|].
      rewrite <- inject_Z_mult, <- Zle_Qle. lia.
    + apply Qlt_shift_div_r; [exact Hb|].
      rewrite <- inject_Z_mult, <- Zlt_Qlt. lia.
  - specialize (Hneg ltac:(lia)). destruct Hneg as [Hlo Hhi].
    assert (Hp : 0 < inject_Z (10 ^ (- n))).
    { rewrite <- (Zlt_Qlt 0). apply Z.pow_pos_nonneg; lia. }
    rewrite Qpow10_neg_exp by lia.
    split.
    + apply Qle_shift_div_l; [exact Hb|].
      rewrite Qmult_comm. apply Qle_shift_div_r; [exact Hp|].
      rewrite <- inject_Z_mult, <- Zle_Qle. lia.
    + apply Qlt_shift_div_r; [exact Hb|].
      destruct (Z.eq_dec n (-1)) as [E|E].
      * rewrite E. change (Qpow10 (-1 + 1)) with 1.
        rewrite Qmult_1_l, <- Zlt_Qlt.
        rewrite E in Hhi. simpl in Hhi. lia.
      * assert (Hp' : 0 < inject_Z (10 ^ (- (n + 1)))).
        { rewrite <- (Zlt_Qlt 0). apply Z.pow_pos_nonneg; lia. }
        rewrite Qpow10_neg_exp by lia.
        rewrite Qmult_comm.
        apply (Qlt_shift_div_l (inject_Z a) (inject_Z (Zpos b)) _ Hp').
        rewrite <- inject_Z_mult, <- Zlt_Qlt.
        replace (- (n + 1))%Z with (- n - 1)%Z by lia. lia.
Qed.

Lemma four_nonzero : ~ inject_Z 4 == 0.
Proof. discriminate. Qed.

Lemma lt_Fin_morph (a a' b : Q) :
  a == a' -> lt (Fin a) (Fin b) = lt (Fin a') (Fin b).
Proof. intros H. unfold lt. rewrite H. reflexivity. Qed.

Lemma multiplierFor_morph (a a' : Q) :
  a == a' -> multiplierFor (Fin a) = multiplierFor (Fin a').
Proof.
  intros H. unfold multiplierFor, ofZ.
  rewrite !(lt_Fin_morph a a') by exact H. reflexivity.
Qed.

(** The multiplier is one of 1, 2.5, 5 and 10. *)
Lemma multiplierFor_cases (r : number) :
  exists k, multiplierFor r = Fin k /\ 1 <= k <= 10.
Proof.
  unfold multiplierFor, ofZ.
  destruct (lt r (Fin 1.5)); [exists (inject_Z 1); split; [reflexivity|split; discriminate]|].
  destruct (lt r (Fin (inject_Z 3))); [exists 2.5; split; [reflexivity|split; discriminate]|].
  destruct (lt r (Fin (inject_Z 7))); [exists (inject_Z 5); split; [reflexivity|split; discriminate]|].
  exists (inject_Z 10); split; [reflexivity|split; discriminate].
Qed.

Lemma div_zero (p z : Q) : p == 0 -> z == 0 -> div (Fin p) (Fin z) = NaN.
Proof.
  intros Hp Hz. unfold div.
  assert (Ez : Qeq_bool z 0 = true) by (apply Qeq_bool_iff; exact Hz).
  assert (Es : Qsign p = Eq).
  { unfold Qsign. apply Qeq_alt. rewrite Hp. reflexivity. }
  rewrite Ez, Es. reflexivity.
Qed.

(** A maximum of zero, in whatever form, leaves [niceMax] at [NaN]. *)
Lemma niceMax_zero (q : Q) : q == 0 -> niceMax (computeAxis (Fin q)) = NaN.
Proof.
  intros E. unfold computeAxis. cbv zeta. cbn [niceMax].
  assert (R : div (Fin q) (ofZ 4) = Fin (q / 4))
    by (apply div_Fin, four_nonzero).
  rewrite !R.
  assert (Er : q / 4 == 0) by (rewrite E; reflexivity).
  assert (Hl : floor_log10 (Fin (q / 4)) = NegInf).
  { unfold floor_log10, Qsign.
    assert (Ec : (0 ?= q / 4) = Eq)
      by (apply Qeq_alt; rewrite Er; reflexivity).
    rewrite Ec. reflexivity. }
  rewrite !Hl. change (pow10 NegInf) with (Fin 0).
  rewrite !(div_zero (q / 4) 0 Er (Qeq_refl 0)).
  change (Math_ceil NaN) with NaN.
  change (mul NaN (Fin 0)) with NaN.
  change (div NaN (Fin 0)) with NaN.
  cbn [lt].
  change (mul (ofZ 10) (Fin 0)) with (Fin (inject_Z 10 * 0)).
  rewrite (div_zero q (inject_Z 10 * 0) E) by reflexivity.
  reflexivity.
Qed.

Section PositiveMaximum.

Variable q : Q.
Hypothesis q_pos : 0 < q.

(** [roughStep], [magnitude] and the rounded-up ratio of the code. *)
Local Abbreviation rough := (q / 4).
Local Abbreviation m := (Qpow10 (ilog10 (Qnum rough) (Zpos (Qden rough)))).
Local Abbreviation c := (Qceiling (rough / m)).

Lemma rough_pos : 0 < rough.
Proof.
  apply Qlt_shift_div_l; [reflexivity|].
  rewrite Qmult_0_l. exact q_pos.
Qed.

Lemma m_pos : 0 < m.
Proof. apply Qpow10_pos. Qed.

Lemma m_nonzero : ~ m == 0.
Proof. pose proof m_pos. lra. Qed.

Lemma roughStep_eq : div (Fin q) (ofZ 4) = Fin rough.
Proof. unfold ofZ. rewrite div_Fin by exact four_nonzero. reflexivity. Qed.

Lemma magnitude_eq : pow10 (floor_log10 (Fin rough)) = Fin m.
Proof. apply magnitude_Fin, rough_pos. Qed.

(** The ratio lies in [1, 10), so its ceiling is one of 1, ..., 10. *)
Lemma ratio_range : 1 <= rough / m /\ rough / m < 10.
Proof.
  pose proof (magnitude_brackets rough rough_pos) as [Hlo Hhi].
  pose proof m_pos as Hm. split.
  - apply Qle_shift_div_l; [exact Hm|]. lra.
  - apply Qlt_shift_div_r; [exact Hm|]. lra.
Qed.

Lemma c_range : (1 <= c <= 10)%Z.
Proof.
  destruct ratio_range as [Hlo Hhi]. split.
  - pose proof (Qle_ceiling (rough / m)) as H.
    assert (H1 : 0 < inject_Z (Qceiling (rough / m))) by lra.
    rewrite <- (Zlt_Qlt 0) in H1. lia.
  - pose proof (Qceiling_resp_le (rough / m) (inject_Z 10)
                  (Qlt_le_weak _ _ Hhi)) as H.
    rewrite Qceiling_Z in H. exact H.
Qed.

(** The step the code computes: the multiplier for the rounded-up ratio,
    times the magnitude. *)
Lemma step_eq :
  step (computeAxis (Fin q)) = mul (multiplierFor (ofZ c)) (Fin m).
Proof.
  unfold computeAxis. cbv zeta. cbn [step].
  rewrite roughStep_eq, magnitude_eq.
  rewrite (div_Fin rough m m_nonzero). cbn [Math_ceil].
  assert (R : div (mul (ofZ c) (Fin m)) (Fin m) = Fin (inject_Z c * m / m)).
  { unfold ofZ. cbn [mul]. apply div_Fin, m_nonzero. }
  rewrite !R.
  assert (E : inject_Z c * m / m == inject_Z c).
  { apply Qdiv_mult_l. exact m_nonzero. }
  unfold multiplierFor, ofZ.
  rewrite (lt_Fin_morph _ _ 1.5 E), (lt_Fin_morph _ _ (inject_Z 3) E),
    (lt_Fin_morph _ _ (inject_Z 7) E).
  destruct (lt (Fin (inject_Z c)) (Fin 1.5)); [reflexivity|].
  destruct (lt (Fin (inject_Z c)) (Fin (inject_Z 3))); [reflexivity|].
  destruct (lt (Fin (inject_Z c)) (Fin (inject_Z 7))); reflexivity.
Qed.

Lemma step_positive :
  exists s, step (computeAxis (Fin q)) = Fin s /\ 0 < s.
Proof.
  rewrite step_eq.
  destruct (multiplierFor_cases (ofZ c)) as (k & -> & Hk).
  exists (k * m). split; [reflexivity|].
  apply Qmult_lt_0_compat; [lra | exact m_pos].
Qed.

Lemma niceMax_eq (s : Q) :
  step (computeAxis (Fin q)) = Fin s -> 0 < s ->
  niceMax (computeAxis (Fin q)) = Fin (inject_Z (Qceiling (q / s)) * s)
  /\ 0 < inject_Z (Qceiling (q / s)) * s.
Proof.
  intros Hs Hpos.
  assert (Hk : 0 < inject_Z (Qceiling (q / s))).
  { pose proof (Qle_ceiling (q / s)) as H.
    assert (0 < q / s) by (apply Qlt_shift_div_l; [exact Hpos | lra]).
    lra. }
  assert (Hn : 0 < inject_Z (Qceiling (q / s)) * s)
    by (apply Qmult_lt_0_compat; assumption).
  split; [|exact Hn].
  unfold computeAxis in *. cbv zeta in *. cbn [step niceMax] in *.
  rewrite Hs. rewrite (div_Fin q s) by lra.
  cbn [Math_ceil]. unfold ofZ. cbn [mul].
  rewrite strict_eq_Fin_false; [reflexivity|].
  change (inject_Z 0) with 0. lra.
Qed.

End PositiveMaximum.

End AxisFacts.

(** ** The generator *)

Module GeneratorFacts.

Local Open Scope Z_scope.

(** [YearFromDay] gives the year ECMAScript asks for: the largest [y] whose
    first day is not after [d]. *)
Lemma YearFromDay_spec (d : Z) :
  DayFromYear (YearFromDay d) <= d < DayFromYear (YearFromDay d + 1).
Proof.
  unfold DayFromYear, YearFromDay. cbv zeta.
  Z.to_euclidean_division_equations; lia.
Qed.

Lemma DaysInYear_leap (y : Z) :
  DayFromYear (y + 1) - DayFromYear y = if isLeapYear y then 366 else 365.
Proof.
  unfold DayFromYear, isLeapYear.
  destruct (y mod 4 =? 0) eqn:E4; cbn [negb];
    [destruct (y mod 100 =? 0) eqn:E100; cbn [negb];
     [destruct (y mod 400 =? 0) eqn:E400|]|];
    rewrite ?Z.eqb_eq, ?Z.eqb_neq in *;
    Z.to_euclidean_division_equations; lia.
Qed.

Lemma MonthFromTime_range (t : Z) : 0 <= MonthFromTime t <= 11.
Proof.
  unfold MonthFromTime.
  repeat match goal with
         | |- context [if ?b then _ else _] => destruct b
         end; lia.
Qed.

(** [MakeDay] at the year and month of [t] counts from the first day of
    [t]'s own month. *)
Lemma MakeDay_same_month (t dt : Z) :
  MakeDay (YearFromTime t) (MonthFromTime t) dt
  = Day t - DateFromTime t + dt.
Proof.
  pose proof (MonthFromTime_range t) as Hm.
  unfold MakeDay, DateFromTime, DayWithinYear, InLeapYear.
  rewrite Z.div_small, Z.mod_small by lia.
  rewrite Z.add_0_r. lia.
Qed.

Lemma TimeClip_valid (t : Z) :
  Z.abs t <= 8640000000000000 -> TimeClip t = Some t.
Proof.
  intros H. unfold TimeClip.
  destruct (Z.leb_spec (Z.abs t) 8640000000000000); [reflexivity|lia].
Qed.

Lemma TimeClip_Some (t d : Z) : TimeClip t = Some d -> d = t.
Proof.
  unfold TimeClip.
  destruct (Z.abs t <=? 8640000000000000); congruence.
Qed.

Section AnyZone.

Variable LocalTZA : Zone.

(** Setting the day of the month [i] days back moves the local time back
    by [i] whole days; the result is converted back to UTC there. *)
Lemma setDateValue_back (t i : Z) :
  setDateValue LocalTZA t (getDate LocalTZA t - i)
  = UTC LocalTZA (LocalTime LocalTZA t - i * msPerDay).
Proof.
  unfold setDateValue, getDate, MakeDate. cbv zeta.
  rewrite MakeDay_same_month. f_equal.
  unfold Day, TimeWithinDay.
  pose proof (Z.div_mod (LocalTime LocalTZA t) msPerDay ltac:(discriminate))
    as H.
  lia.
Qed.

Lemma setDate_Some (t dt d : Z) :
  setDate LocalTZA t dt = Some d -> d = setDateValue LocalTZA t dt.
Proof. unfold setDate. apply TimeClip_Some. Qed.


(** The dates of a range are valid when the range stays two days inside
    the range of time values, in a zone whose offsets are within a day. *)
Lemma datesValid_bounded (today days : Z) :
  (forall t, Z.abs (offsetAtUTC LocalTZA t) <= msPerDay) ->
  (forall lt, Z.abs (offsetAtLocal LocalTZA lt) <= msPerDay) ->
  - 8640000000000000 + 2 * msPerDay <= today - days * msPerDay ->
  today <= 8640000000000000 - 2 * msPerDay ->
  datesValid LocalTZA today days.
Proof.
  intros Hu Hl Hlo Hhi i Hi. unfold setDate.
  rewrite setDateValue_back.
  rewrite TimeClip_valid; [discriminate|].
  unfold UTC, LocalTime.
  specialize (Hu today).
  specialize (Hl (today + offsetAtUTC LocalTZA today - i * msPerDay)).
  unfold msPerDay in *. lia.
Qed.

Variable Math_sin : Z -> Q.

(** When every date is valid the loop returns, with the sample of turn
    [i = n - 1 - k] at position [k]. *)
Lemma generateLoop_Returned (today : Z) (n : nat) :
  (forall i, 0 <= i < Z.of_nat n ->
     setDate LocalTZA today (getDate LocalTZA today - i) <> None) ->
  exists data,
    generateLoop Math_sin LocalTZA today n = Returned data /\
    List.length data = n /\
    forall k dflt, (k < n)%nat ->
      nth k data dflt
      = sampleAt Math_sin LocalTZA today (Z.of_nat (n - 1 - k)).
Proof.
  induction n as [|n IH]; intros Hvalid.
  - exists []. split; [reflexivity|]. split; [reflexivity|].
    intros k dflt Hk. lia.
  - destruct IH as (rest & Hrest & Hlen & Hnth).
    { intros i Hi. apply Hvalid. lia. }
    pose proof (Hvalid (Z.of_nat n) ltac:(lia)) as Hn.
    destruct (setDate LocalTZA today (getDate LocalTZA today - Z.of_nat n))
      as [d|] eqn:Ed; [|congruence].
    exists (sampleOn Math_sin LocalTZA d :: rest).
    split; [cbn [generateLoop]; rewrite Ed, Hrest; reflexivity|].
    split; [cbn [List.length]; congruence|].
    intros k dflt Hk. destruct k as [|k]; cbn [nth].
    + apply setDate_Some in Ed.
      replace (S n - 1 - 0)%nat with n by lia.
      unfold sampleAt. rewrite <- Ed. reflexivity.
    + rewrite Hnth by lia.
      replace (S n - 1 - S k)%nat with (n - 1 - k)%nat by lia.
      reflexivity.
Qed.

(** When every date is valid, the sample of each turn is in the series. *)
Lemma sampleAt_generated (today days i : Z) :
  datesValid LocalTZA today days ->
  0 <= i < days ->
  In (sampleAt Math_sin LocalTZA today i)
     (generateMockData Math_sin LocalTZA today days).
Proof.
  intros Hvalid Hi.
  destruct (generateLoop_Returned today (Z.to_nat days))
    as (data & Hdata & Hlen & Hnth).
  { intros j Hj. apply Hvalid. lia. }
  unfold generateMockData, generateMockData_call. rewrite Hdata.
  pose proof (Hnth (Z.to_nat days - 1 - Z.to_nat i)%nat
                (sampleAt Math_sin LocalTZA today i) ltac:(lia)) as H.
  replace (Z.of_nat (Z.to_nat days - 1 - (Z.to_nat days - 1 - Z.to_nat i)))
    with i in H by lia.
  rewrite <- H. apply nth_In. lia.
Qed.

(** When every date is valid the call returns, with one sample for each
    day. *)
Lemma generateMockData_Returned (today days : Z) :
  datesValid LocalTZA today days ->
  generateMockData_call Math_sin LocalTZA today days
  = Returned (generateMockData Math_sin LocalTZA today days) /\
  List.length (generateMockData Math_sin LocalTZA today days)
  = Z.to_nat days.
Proof.
  intros Hvalid.
  destruct (generateLoop_Returned today (Z.to_nat days))
    as (data & Hdata & Hlen & _).
  { intros j Hj. apply Hvalid. lia. }
  unfold generateMockData, generateMockData_call. rewrite Hdata.
  split; [reflexivity | exact Hlen].
Qed.

(** When the date of the first turn is invalid, the call throws. *)
Lemma generateMockData_call_invalid (today days : Z) :
  0 < days ->
  setDate LocalTZA today (getDate LocalTZA today - (days - 1)) = None ->
  generateMockData_call Math_sin LocalTZA today days = Thrown RangeError.
Proof.
  intros Hd H. unfold generateMockData_call.
  replace (Z.to_nat days) with (S (Z.to_nat (days - 1))) by lia.
  cbn [generateLoop]. rewrite Z2Nat.id by lia. rewrite H. reflexivity.
Qed.

(** Every sample of a returned series is the sample of one of the turns. *)
Lemma In_generateLoop_Returned (today : Z) (s : Sample) (n : nat) :
  forall data,
    generateLoop Math_sin LocalTZA today n = Returned data ->
    In s data ->
    exists i, 0 <= i < Z.of_nat n /\ s = sampleAt Math_sin LocalTZA today i.
Proof.
  induction n as [|n IH]; intros data; cbn [generateLoop].
  - intros [= <-] [].
  - destruct (setDate LocalTZA today (getDate LocalTZA today - Z.of_nat n))
      as [d|] eqn:Ed; [|discriminate].
    destruct (generateLoop Math_sin LocalTZA today n) as [rest|e];
      [|discriminate].
    intros [= <-] [H|H].
    + exists (Z.of_nat n). split; [lia|].
      apply setDate_Some in Ed. unfold sampleAt. congruence.
    + destruct (IH rest eq_refl H) as (i & Hi & Hs).
      exists i. split; [lia|exact Hs].
Qed.


(** The calendar fields, the weekday and hence the baseline of a date
    only depend on its local day. *)
Lemma baseUsage_local (d d' : Z) :
  localDay LocalTZA d = localDay LocalTZA d' ->
  baseUsage Math_sin LocalTZA d = baseUsage Math_sin LocalTZA d'.
Proof.
  unfold localDay. intros H.
  assert (Hy : getFullYear LocalTZA d = getFullYear LocalTZA d').
  { unfold getFullYear, YearFromTime. rewrite H. reflexivity. }
  assert (Hw : DayWithinYear (LocalTime LocalTZA d)
               = DayWithinYear (LocalTime LocalTZA d')).
  { unfold DayWithinYear. unfold getFullYear in Hy. rewrite H, Hy.
    reflexivity. }
  assert (Hl : InLeapYear (LocalTime LocalTZA d)
               = InLeapYear (LocalTime LocalTZA d')).
  { unfold InLeapYear. unfold getFullYear in Hy. rewrite Hy. reflexivity. }
  assert (Hm : getMonth LocalTZA d = getMonth LocalTZA d').
  { unfold getMonth, MonthFromTime. rewrite Hw, Hl. reflexivity. }
  assert (Hd : getDate LocalTZA d = getDate LocalTZA d').
  { unfold getDate, DateFromTime. unfold getMonth in Hm.
    rewrite Hw, Hl, Hm. reflexivity. }
  assert (Hg : getDay LocalTZA d = getDay LocalTZA d').
  { unfold getDay, WeekDay. rewrite H. reflexivity. }
  unfold baseUsage, randomFactor, isWeekend, dateSeed.
  rewrite Hy, Hm, Hd, Hg. reflexivity.
Qed.

End AnyZone.

Section FixedOffset.

(** A zone that keeps the offset [offset] all year. *)
Variable offset : Z.

(** Setting the day of the month [i] days back moves the time value back
    by [i] whole days. *)
Lemma setDateValue_fixed (t i : Z) :
  setDateValue offset t (getDate offset t - i) = t - i * msPerDay.
Proof.
  rewrite setDateValue_back. unfold UTC, LocalTime, fixedZone.
  cbn [offsetAtUTC offsetAtLocal]. lia.
Qed.

Lemma setDate_back (t i : Z) :
  Z.abs (t - i * msPerDay) <= 8640000000000000 ->
  setDate offset t (getDate offset t - i) = Some (t - i * msPerDay).
Proof.
  intros H. unfold setDate. rewrite setDateValue_fixed.
  apply TimeClip_valid, H.
Qed.

Lemma localDay_back (t i : Z) :
  localDay offset (t - i * msPerDay) = localDay offset t - i.
Proof.
  unfold localDay, LocalTime, Day, fixedZone. cbn [offsetAtUTC].
  replace (t - i * msPerDay + offset)
    with (t + offset + (- i) * msPerDay) by lia.
  rewrite Z.div_add by discriminate. lia.
Qed.

(** The way from a local time to UTC and back is the identity. *)
Lemma fixedZone_round_trip (lt : Z) :
  Day (LocalTime offset (UTC offset lt)) = Day lt.
Proof.
  unfold LocalTime, UTC, fixedZone. cbn [offsetAtUTC offsetAtLocal].
  f_equal. lia.
Qed.

(** The dates of a range are valid when its first and last are. *)
Lemma datesValid_fixed (today days : Z) :
  - 8640000000000000 <= today - days * msPerDay ->
  today <= 8640000000000000 ->
  datesValid offset today days.
Proof.
  intros Hlo Hhi i Hi. rewrite setDate_back; [discriminate|].
  unfold msPerDay in *. lia.
Qed.

Variable Math_sin : Z -> Q.

Lemma sampleAt_date (today i : Z) :
  date (sampleAt Math_sin offset today i) = today - i * msPerDay.
Proof. unfold sampleAt. cbn [sampleOn date]. apply setDateValue_fixed. Qed.

Lemma sampleAt_usage (today i : Z) :
  usage (sampleAt Math_sin offset today i)
  = usageOf Math_sin offset (today - i * msPerDay).
Proof.
  unfold sampleAt. cbn [sampleOn usage]. rewrite setDateValue_fixed.
  reflexivity.
Qed.

Lemma generateMockData_one (today : Z) :
  Z.abs today <= 8640000000000000 ->
  generateMockData Math_sin offset today 1
  = [sampleAt Math_sin offset today 0].
Proof.
  intros H. unfold generateMockData, generateMockData_call.
  change (Z.to_nat 1) with 1%nat. cbn [generateLoop].
  change (Z.of_nat 0) with 0.
  rewrite setDate_back by (rewrite Z.sub_0_r; exact H).
  unfold sampleAt. rewrite setDateValue_fixed. reflexivity.
Qed.

End FixedOffset.

(** *** New York at the end of daylight saving in 2020 *)




End GeneratorFacts.

(** A sample of one of the turns is in the series, for a zone with a fixed
    offset and a range of valid dates. *)
Ltac generated :=
  apply GeneratorFacts.sampleAt_generated;
  [apply GeneratorFacts.datesValid_fixed; unfold msPerDay; lia | lia].

(** ** Claims on the generator *)

Section GeneratorClaims.

Import GeneratorFacts.
Local Open Scope Z_scope.

Variable Math_sin : Z -> Q.
Variable LocalTZA : Zone.

Lemma In_generateLoop (today days : Z) (s : Sample) :
  In s (generateMockData Math_sin LocalTZA today days) ->
  exists i, s = sampleAt Math_sin LocalTZA today i.
Proof.
  unfold generateMockData, generateMockData_call.
  destruct (generateLoop Math_sin LocalTZA today (Z.to_nat days))
    as [data|e] eqn:E; [|intros []].
  intros H.
  destruct (In_generateLoop_Returned LocalTZA Math_sin today s _ data E H)
    as (i & _ & Hs).
  exists i. exact Hs.
Qed.

Lemma usage_of_generated (today days : Z) (s : Sample) :
  In s (generateMockData Math_sin LocalTZA today days) ->
  usage s = baseUsage Math_sin LocalTZA (date s) + spike LocalTZA (date s).
Proof.
  intros H. apply In_generateLoop in H. destruct H as [i ->].
  unfold sampleAt. cbn [sampleOn usage date]. unfold usageOf. reflexivity.
Qed.

(** The usage of a date is decided by its local day together with its
    day index. *)
Lemma usageOf_local (d d' : Z) :
  localDay LocalTZA d = localDay LocalTZA d' ->
  dayIndex d = dayIndex d' ->
  usageOf Math_sin LocalTZA d = usageOf Math_sin LocalTZA d'.
Proof.
  intros Hl Hi. unfold usageOf.
  rewrite (baseUsage_local LocalTZA Math_sin d d' Hl).
  f_equal. unfold spike, isWeekend, getDay, WeekDay.
  unfold localDay in Hl. rewrite Hi, Hl. reflexivity.
Qed.

(** With no offset from UTC the day index is the local day, and the usage
    is a function of the calendar date alone. *)
Lemma usageOf_pure_at_UTC (Math_sin' : Z -> Q) (d d' : Z) :
  localDay 0 d = localDay 0 d' ->
  usageOf Math_sin' 0 d = usageOf Math_sin' 0 d'.
Proof.
  intros H. unfold usageOf.
  rewrite (baseUsage_local 0 Math_sin' d d' H).
  f_equal. unfold spike, isWeekend, getDay, WeekDay, dayIndex, getTime.
  unfold localDay, LocalTime, Day in *. rewrite !Z.add_0_r in *.
  change (1000 * 60 * 60 * 24) with msPerDay. rewrite H. reflexivity.
Qed.

(** C5: the spike rules are tried in order and the first that matches is
    the only one added.  For every generated sample, with [n] its day
    index: when 37 divides [n] the usage is the baseline plus 45000,
    whether or not 11 or 5 divide [n] too; the 15000 of the 11-day rule is
    added only when 37 does not divide [n]; the 5000 of the 5-day rule
    only when neither 37 nor 11 divides [n] and the date is a weekday;
    otherwise nothing is added. *)
Theorem spike_priority (today days : Z) (s : Sample) :
  In s (generateMockData Math_sin LocalTZA today days) ->
  let n := dayIndex (date s) in
  let base := baseUsage Math_sin LocalTZA (date s) in
  (Z.rem n 37 = 0 -> usage s = base + 45000) /\
  (Z.rem n 37 <> 0 -> Z.rem n 11 = 0 -> usage s = base + 15000) /\
  (Z.rem n 37 <> 0 -> Z.rem n 11 <> 0 -> Z.rem n 5 = 0 ->
   isWeekend LocalTZA (date s) = false -> usage s = base + 5000) /\
  (Z.rem n 37 <> 0 -> Z.rem n 11 <> 0 ->
   Z.rem n 5 <> 0 \/ isWeekend LocalTZA (date s) = true ->
   usage s = base).
Proof.
  intros Hin. cbv zeta. rewrite (usage_of_generated _ _ _ Hin).
  unfold spike.
  destruct (Z.eqb_spec (Z.rem (dayIndex (date s)) 37) 0) as [H37|H37];
  destruct (Z.eqb_spec (Z.rem (dayIndex (date s)) 11) 0) as [H11|H11];
  destruct (Z.eqb_spec (Z.rem (dayIndex (date s)) 5) 0) as [H5|H5];
  destruct (isWeekend LocalTZA (date s)); cbn [andb negb];
  repeat split; intros; try congruence; try lia;
  match goal with
  | H : _ \/ _ |- _ => destruct H; congruence
  end.
Qed.


(** C4 as the code has it: with [days <= 0] the loop body never runs and
    the call returns the empty series; nothing is thrown. *)
Theorem generateMockData_nonpositive (today days : Z) :
  days <= 0 ->
  generateMockData_call Math_sin LocalTZA today days = Returned [].
Proof.
  intros Hd. unfold generateMockData_call.
  replace (Z.to_nat days) with 0%nat by lia. reflexivity.
Qed.

End GeneratorClaims.

(** Witness of [spike_priority]: 8 August 2024 is day 19943 = 37 * 11 * 49;
    its sample carries the 45000 spike alone. *)
Lemma spike_priority_witness :
  let today := 19943 * msPerDay in
  let s := sampleAt sampleSin 0 today 0 in
  In s (generateMockData sampleSin 0 today 1) /\
  Z.rem (dayIndex (date s)) 37 = 0 /\
  Z.rem (dayIndex (date s)) 11 = 0 /\
  usage s = baseUsage sampleSin 0 (date s) + 45000.
Proof.
  cbv zeta.
  assert (Hin : In (sampleAt sampleSin 0 (19943 * msPerDay) 0)
                   (generateMockData sampleSin 0 (19943 * msPerDay) 1)).
  { generated. }
  split; [exact Hin|].
  split; [vm_compute; reflexivity|].
  split; [vm_compute; reflexivity|].
  apply (proj1 (spike_priority sampleSin 0 (19943 * msPerDay) 1 _ Hin)).
  vm_compute. reflexivity.
Defined.


(** C4 fails as stated: for [days = 0] and for [days = -7] the call returns
    an empty series, it does not throw [InvalidRange]. *)
Lemma generateMockData_nonpositive_returns :
  generateMockData_call sampleSin 0 1726326000000 0 = Returned [] /\
  generateMockData_call sampleSin 0 1726326000000 (-7) = Returned [] /\
  generateMockData_call sampleSin 0 1726326000000 0 <> Thrown InvalidRange.
Proof.
  split; [reflexivity|]. split; [reflexivity|]. discriminate.
Qed.

Lemma generateMockData_nonpositive_witness :
  -7 <= 0 /\
  generateMockData_call sampleSin 0 1726326000000 (-7) = Returned [].
Proof.
  split; [discriminate|].
  apply (generateMockData_nonpositive sampleSin 0 1726326000000 (-7)).
  discriminate.
Defined.

(** C2 at a failing input.  In a zone five hours behind UTC, take two calls
    on 14 September 2024, one at 10:00 and one at 20:00 local time.  Both
    produce a sample for the same calendar date, with the same labels, but
    the day index of the first is 19980 = 37 * 540 and that of the second is
    19981: the morning value carries the 45000 spike and the evening value
    does not, whatever [Math.sin] gives. *)
Theorem usage_depends_on_time_of_day (Math_sin : Z -> Q) :
  let tz := -18000000 in
  let morning := 1726326000000 in
  let evening := 1726362000000 in
  localDay tz morning = localDay tz evening /\
  map fullDate (generateMockData Math_sin tz morning 1)
  = map fullDate (generateMockData Math_sin tz evening 1) /\
  dayIndex morning = 19980 /\
  dayIndex evening = 19981 /\
  map usage (generateMockData Math_sin tz morning 1)
  = [baseUsage Math_sin tz morning + 45000] /\
  map usage (generateMockData Math_sin tz evening 1)
  = [baseUsage Math_sin tz morning] /\
  map usage (generateMockData Math_sin tz morning 1)
  <> map usage (generateMockData Math_sin tz evening 1).
Proof.
  cbv zeta.
  assert (Hday : localDay (-18000000) 1726326000000
                 = localDay (-18000000) 1726362000000)
    by (vm_compute; reflexivity).
  assert (Hm : map usage (generateMockData Math_sin (-18000000) 1726326000000 1)
               = [baseUsage Math_sin (-18000000) 1726326000000 + 45000]).
  { rewrite GeneratorFacts.generateMockData_one by lia. cbn [map].
    rewrite GeneratorFacts.sampleAt_usage. unfold usageOf.
    replace (1726326000000 - 0 * msPerDay) with 1726326000000 by reflexivity.
    replace (spike (-18000000) 1726326000000) with 45000
      by (vm_compute; reflexivity).
    reflexivity. }
  assert (He : map usage (generateMockData Math_sin (-18000000) 1726362000000 1)
               = [baseUsage Math_sin (-18000000) 1726326000000]).
  { rewrite GeneratorFacts.generateMockData_one by lia. cbn [map].
    rewrite GeneratorFacts.sampleAt_usage. unfold usageOf.
    replace (1726362000000 - 0 * msPerDay) with 1726362000000 by reflexivity.
    replace (spike (-18000000) 1726362000000) with 0
      by (vm_compute; reflexivity).
    rewrite (GeneratorFacts.baseUsage_local _ Math_sin _ _ Hday).
    rewrite Z.add_0_r. reflexivity. }
  split; [exact Hday|].
  split; [vm_compute; reflexivity|].
  split; [vm_compute; reflexivity|].
  split; [vm_compute; reflexivity|].
  split; [exact Hm|]. split; [exact He|].
  rewrite Hm, He. intros H. injection H as H. lia.
Qed.

(** ** Claims on the Y scale *)

Section AxisClaims.

Import NumberFacts AxisFacts.
Local Open Scope Q_scope.

(** For a positive maximum the scale is sound: the step and [niceMax] are
    finite and positive, [niceMax] is a whole number of steps, and it is
    not below the maximum. *)
Lemma computeAxis_positive (q : Q) :
  0 < q ->
  exists n s k,
    computeAxis (Fin q) = {| niceMax := Fin n; step := Fin s |} /\
    0 < s /\ 0 < n /\ n == inject_Z k * s /\ q <= n.
Proof.
  intros Hq.
  destruct (step_positive q Hq) as (s & Hs & Hpos).
  destruct (niceMax_eq q Hq s Hs Hpos) as [Hn Hnpos].
  exists (inject_Z (Qceiling (q / s)) * s), s, (Qceiling (q / s)).
  split.
  - destruct (computeAxis (Fin q)) as [nm st]. cbn [step niceMax] in *.
    congruence.
  - split; [exact Hpos|]. split; [exact Hnpos|]. split; [reflexivity|].
    pose proof (Qle_ceiling (q / s)) as Hc.
    apply (Qmult_le_r _ _ s Hpos) in Hc.
    assert (E : q / s * s == q) by (field; lra).
    rewrite E in Hc. exact Hc.
Qed.

(** The multiplier, read off the rounded-up ratio. *)
Lemma multiplierFor_ofZ (c : Z) :
  multiplierFor (ofZ c)
  = if (c <=? 1)%Z then ofZ 1
    else if (c <=? 2)%Z then Fin 2.5
    else if (c <=? 6)%Z then ofZ 5
    else ofZ 10.
Proof.
  unfold multiplierFor, ofZ.
  assert (H1 : lt (Fin (inject_Z c)) (Fin 1.5) = (c <=? 1)%Z).
  { destruct (Z.leb_spec c 1) as [H|H].
    - apply lt_Fin. unfold Qlt. simpl. lia.
    - apply lt_Fin_false. unfold Qle. simpl. lia. }
  assert (H3 : lt (Fin (inject_Z c)) (Fin (inject_Z 3)) = (c <=? 2)%Z).
  { destruct (Z.leb_spec c 2) as [H|H].
    - apply lt_Fin. rewrite <- Zlt_Qlt. lia.
    - apply lt_Fin_false. rewrite <- Zle_Qle. lia. }
  assert (H7 : lt (Fin (inject_Z c)) (Fin (inject_Z 7)) = (c <=? 6)%Z).
  { destruct (Z.leb_spec c 6) as [H|H].
    - apply lt_Fin. rewrite <- Zlt_Qlt. lia.
    - apply lt_Fin_false. rewrite <- Zle_Qle. lia. }
  rewrite H1, H3, H7. reflexivity.
Qed.

(** C3 as the code has it: for [maxValue > 0], with
    [roughStep = maxValue / 4] and [magnitude] the largest power of ten
    not above [roughStep], the step is [multiplier * magnitude] where the
    thresholds 1.5, 3 and 7 pick the multiplier from the ratio
    [roughStep / magnitude] rounded up to an integer [c] (one of 1, ...,
    10): 1 for [c = 1], 2.5 for [c = 2], 5 for [c] from 3 to 6, and 10
    from 7 on. *)
Theorem step_follows_ceiling_rule (q : Q) :
  0 < q ->
  step (computeAxis (Fin q)) = ceilingStep (Fin q) /\
  exists m c,
    pow10 (floor_log10 (div (Fin q) (ofZ 4))) = Fin m /\
    m <= q / 4 /\ q / 4 < 10 * m /\
    c = Qceiling (q / 4 / m) /\ (1 <= c <= 10)%Z /\
    step (computeAxis (Fin q))
    = mul (if (c <=? 1)%Z then ofZ 1
           else if (c <=? 2)%Z then Fin 2.5
           else if (c <=? 6)%Z then ofZ 5
           else ofZ 10) (Fin m).
Proof.
  intros Hq.
  pose proof (step_eq q Hq) as Hstep. cbv zeta in Hstep.
  set (rough := q / 4) in *.
  set (m := Qpow10 (ilog10 (Qnum rough) (Zpos (Qden rough)))) in *.
  split.
  - rewrite Hstep. unfold ceilingStep. cbv zeta.
    rewrite (roughStep_eq q). fold rough.
    rewrite (magnitude_Fin rough (rough_pos q Hq)). fold m.
    rewrite (div_Fin rough m (m_nonzero q)). reflexivity.
  - exists m, (Qceiling (rough / m)).
    pose proof (magnitude_brackets rough (rough_pos q Hq)) as [Hlo Hhi].
    fold m in Hlo, Hhi.
    split.
    { rewrite (roughStep_eq q). fold rough.
      apply (magnitude_Fin rough (rough_pos q Hq)). }
    split; [exact Hlo|]. split; [exact Hhi|]. split; [reflexivity|].
    split; [exact (c_range q Hq)|].
    rewrite Hstep, multiplierFor_ofZ. reflexivity.
Qed.

End AxisClaims.

(** C1 at the failing input.  For a maximum of 0, [roughStep] is 0, its
    logarithm is [-Infinity] and the magnitude is 0; the ratio [0 / 0] is
    [NaN], every threshold test is false, the step is [10 * 0 = 0] and
    [niceMax] is [NaN].  The test [niceMax === 0] is false on [NaN], so the
    fallback to 5000 is not taken: [niceMax] is not positive and is not the
    default. *)
Theorem computeAxis_zero :
  floor_log10 (div (ofZ 0) (ofZ 4)) = NegInf /\
  pow10 (floor_log10 (div (ofZ 0) (ofZ 4))) = Fin 0 /\
  div (div (ofZ 0) (ofZ 4)) (Fin 0) = NaN /\
  strict_eq NaN (ofZ 0) = false /\
  computeAxis (ofZ 0) = {| niceMax := NaN; step := Fin 0 |} /\
  gt (niceMax (computeAxis (ofZ 0))) (ofZ 0) = false /\
  same (niceMax (computeAxis (ofZ 0))) (ofZ 5000) = false.
Proof.
  assert (Hlog : floor_log10 (div (ofZ 0) (ofZ 4)) = NegInf) by reflexivity.
  split; [exact Hlog|].
  split; [rewrite Hlog; reflexivity|].
  split; [reflexivity|].
  split; [reflexivity|].
  assert (Hax : computeAxis (ofZ 0) = {| niceMax := NaN; step := Fin 0 |})
    by reflexivity.
  split; [exact Hax|].
  rewrite Hax. split; reflexivity.
Qed.

(** C3 fails as stated: for a maximum of 48 the ratio is 1.2, below the
    first threshold, so the rule on the ratio itself gives the step 10; the
    code rounds the ratio up to 2 first and gives the step 25. *)
Lemma step_rule_on_ratio_fails :
  same (thresholdStep (ofZ 48)) (ofZ 10) = true /\
  same (step (computeAxis (ofZ 48))) (ofZ 25) = true /\
  same (step (computeAxis (ofZ 48))) (thresholdStep (ofZ 48)) = false.
Proof. repeat split. Qed.

Lemma step_follows_ceiling_rule_witness :
  (0 < 48)%Q /\
  step (computeAxis (Fin 48)) = ceilingStep (Fin 48).
Proof.
  split; [reflexivity|].
  apply (proj1 (step_follows_ceiling_rule 48 ltac:(reflexivity))).
Defined.

(** ** The drawing *)

Module RenderFacts.

Import NumberFacts.
Local Open Scope nat_scope.

Section Bars.

Variables width height : number.
Variable axis : AxisSpec.
Variable count : nat.
Variable range : Z.

Lemma forEachBar_length (data : list Sample) :
  forall i, List.length (forEachBar width height axis count range data i)
            = List.length data.
Proof.
  induction data as [|d rest IH]; intros i; cbn [forEachBar List.length].
  - reflexivity.
  - rewrite IH. reflexivity.
Qed.

(** The cursors, one per sample and in the samples' order. *)
Lemma forEachBar_cursors (data : list Sample) :
  forall i,
    map (fun s => fst (fst s))
        (forEachBar width height axis count range data i)
    = map (fun p => cursorAt width height count (fst p) (snd p))
          (combine data (seq i (List.length data))).
Proof.
  induction data as [|d rest IH]; intros i.
  - reflexivity.
  - cbn [forEachBar List.length seq combine map fst snd].
    rewrite IH. reflexivity.
Qed.

(** The bars, likewise. *)
Lemma forEachBar_bars (data : list Sample) :
  forall i,
    map (fun s => snd (fst s))
        (forEachBar width height axis count range data i)
    = map (fun p => barPath width height axis count (fst p) (snd p))
          (combine data (seq i (List.length data))).
Proof.
  induction data as [|d rest IH]; intros i.
  - reflexivity.
  - cbn [forEachBar List.length seq combine map fst snd].
    rewrite IH. reflexivity.
Qed.

End Bars.

Lemma combine_seq_nth (data : list Sample) (d0 : Sample) :
  forall i k, k < List.length data ->
    nth k (combine data (seq i (List.length data))) (d0, 0)
    = (nth k data d0, i + k).
Proof.
  induction data as [|d rest IH]; intros i k Hk; cbn [List.length] in *.
  - lia.
  - cbn [seq combine]. destruct k as [|k]; cbn [nth].
    + f_equal. lia.
    + rewrite IH by lia. f_equal. lia.
Qed.

Lemma combine_seq_nth_error (data : list Sample) :
  forall i k d, nth_error data k = Some d ->
    nth_error (combine data (seq i (List.length data))) k = Some (d, i + k).
Proof.
  induction data as [|d0 rest IH]; intros i k d Hk.
  - destruct k; discriminate.
  - cbn [List.length seq combine]. destruct k as [|k]; cbn [nth_error] in *.
    + injection Hk as <-. do 2 f_equal. lia.
    + rewrite (IH (S i) k d Hk). do 2 f_equal. lia.
Qed.

(** The two branches of [pathD]. *)
Lemma pathD_plain (x y bh w : number) :
  lt (Math_max2 (ofZ 0) bh) cornerRadius = true ->
  pathD x y bh w
  = [ MoveTo x (add y (Math_max2 (ofZ 0) bh));
      VLineBy (neg (Math_max2 (ofZ 0) bh)); HLineBy w;
      VLineBy (Math_max2 (ofZ 0) bh); ClosePath ].
Proof. intros H. unfold pathD. cbv zeta. rewrite H. reflexivity. Qed.

Lemma pathD_rounded (x y bh w : number) :
  lt (Math_max2 (ofZ 0) bh) cornerRadius = false ->
  pathD x y bh w
  = [ MoveTo x (add y (Math_max2 (ofZ 0) bh));
      VLineBy (neg (sub (Math_max2 (ofZ 0) bh) cornerRadius));
      ArcBy cornerRadius cornerRadius 0 false true
            cornerRadius (neg cornerRadius);
      HLineBy (sub w (mul (ofZ 2) cornerRadius));
      ArcBy cornerRadius cornerRadius 0 false true cornerRadius cornerRadius;
      VLineBy (sub (Math_max2 (ofZ 0) bh) cornerRadius);
      ClosePath ].
Proof. intros H. unfold pathD. cbv zeta. rewrite H. reflexivity. Qed.

(** Under a width of 8 the top segment of the rounded outline is
    negative. *)
Lemma top_segment_negative (w : number) :
  lt w (ofZ 8) = true ->
  lt (sub w (mul (ofZ 2) cornerRadius)) (ofZ 0) = true.
Proof.
  destruct w as [| | |q]; try (cbn; congruence).
  intros Hq. apply lt_Fin in Hq.
  change (lt (Fin (q + - (inject_Z 2 * inject_Z 4))) (Fin (inject_Z 0))
          = true).
  apply lt_Fin. unfold inject_Z in *. lra.
Qed.

(** What [renderChart] leaves in the container when the rectangle has no
    zero side. *)
Lemma renderChart_draws (width height : number) (st : State) :
  strict_eq width (ofZ 0) = false ->
  strict_eq height (ofZ 0) = false ->
  exists svg,
    renderChart width height st
    = {| currentRange := currentRange st; chartData := chartData st;
         container := [svg] |} /\
    cursors svg
    = map (fun p => cursorAt width height (List.length (chartData st))
                             (fst p) (snd p))
          (combine (chartData st) (seq 0 (List.length (chartData st)))) /\
    bars svg
    = map (fun p => barPath width height (computeAxis (maxUsageOf (chartData st)))
                            (List.length (chartData st)) (fst p) (snd p))
          (combine (chartData st) (seq 0 (List.length (chartData st)))).
Proof.
  intros Hw Hh. unfold renderChart. rewrite Hw, Hh. cbn [orb].
  eexists. split; [reflexivity|]. cbn [cursors bars].
  rewrite forEachBar_cursors, forEachBar_bars. split; reflexivity.
Qed.

(** The bar of each sample: the path at position [k] of the bar group is
    the outline made for sample [k]. *)
Lemma renderChart_bars (width height : number) (st : State) :
  strict_eq width (ofZ 0) = false ->
  strict_eq height (ofZ 0) = false ->
  exists svg,
    container (renderChart width height st) = [svg] /\
    List.length (bars svg) = List.length (chartData st) /\
    forall k d, nth_error (chartData st) k = Some d ->
      nth_error (bars svg) k
      = Some (pathD (barX width (List.length (chartData st)) k)
                    (barY height (computeAxis (maxUsageOf (chartData st))) d)
                    (barH height (computeAxis (maxUsageOf (chartData st))) d)
                    (barWidth width (List.length (chartData st)))).
Proof.
  intros Hw Hh.
  destruct (renderChart_draws width height st Hw Hh) as (svg & Hr & _ & Hb).
  exists svg. rewrite Hr. cbn [container].
  split; [reflexivity|].
  split; [rewrite Hb, length_map, length_combine, length_seq; lia|].
  intros k d Hk. rewrite Hb, nth_error_map.
  rewrite (combine_seq_nth_error _ 0 k d Hk). reflexivity.
Qed.

End RenderFacts.

(** ** Claims on the drawing *)

(** C9 as the code has it: when the width or the height of the rectangle is
    zero, [renderChart] empties the container and returns; it draws
    nothing, and the range and the data are as before. *)
Theorem renderChart_empty_viewport (width height : number) (st : State) :
  strict_eq width (ofZ 0) = true \/ strict_eq height (ofZ 0) = true ->
  renderChart width height st
  = {| currentRange := currentRange st; chartData := chartData st;
       container := [] |}.
Proof.
  intros H. unfold renderChart.
  destruct H as [H|H]; rewrite H; [reflexivity|].
  rewrite orb_true_r. reflexivity.
Qed.

Lemma renderChart_empty_viewport_witness :
  renderChart (ofZ 0) (ofZ 200) initialState
  = {| currentRange := 30; chartData := []; container := [] |}.
Proof.
  apply (renderChart_empty_viewport (ofZ 0) (ofZ 200) initialState).
  left. reflexivity.
Defined.

(** C9 fails as stated: after a chart has been drawn, a render at width 0
    removes it; the container is not left as it was. *)
Lemma renderChart_empty_viewport_clears :
  let st := update sampleSin 0 1726326000000 (ofZ 300) (ofZ 200) 2
                   initialState in
  container st <> [] /\
  container (renderChart (ofZ 0) (ofZ 200) st) = [] /\
  renderChart (ofZ 0) (ofZ 200) st <> st.
Proof.
  cbv zeta. split; [|split].
  - vm_compute. discriminate.
  - reflexivity.
  - vm_compute. discriminate.
Qed.

(** ** Hover zones *)

Module ZoneFacts.

Import NumberFacts.
Local Open Scope Q_scope.

Lemma is_fin_morph (a : number) (p q : Q) : is_fin a p -> p == q -> is_fin a q.
Proof.
  destruct a as [| | |r]; cbn [is_fin]; try tauto.
  intros H E. rewrite H. exact E.
Qed.

(** Adding up [len] copies of one finite width. *)
Lemma sum_of_equal_widths (tw : Q) (l : list number) :
  (forall v, In v l -> v = Fin tw) ->
  forall a,
    is_fin (fold_left add l (Fin a))
           (a + inject_Z (Z.of_nat (List.length l)) * tw).
Proof.
  induction l as [|v l IH]; intros Hall a.
  - cbn [fold_left List.length is_fin]. change (inject_Z (Z.of_nat 0)) with 0.
    ring.
  - cbn [fold_left]. rewrite (Hall v (or_introl eq_refl)). cbn [add].
    apply (is_fin_morph _ _ _ (IH (fun u Hu => Hall u (or_intror Hu)) (a + tw))).
    cbn [List.length]. rewrite Nat2Z.inj_succ. unfold Z.succ.
    rewrite inject_Z_plus. change (inject_Z 1) with 1. ring.
Qed.

Section Zones.

Variables (w h : Q) (n : nat).
Hypothesis n_pos : (0 < n)%nat.

Local Abbreviation N := (inject_Z (Z.of_nat n)).
Local Abbreviation slot := ((w - 60) / N).

Lemma N_pos : 0 < N.
Proof. rewrite <- (Zlt_Qlt 0). lia. Qed.

Lemma N_nonzero : ~ N == 0.
Proof. pose proof N_pos. lra. Qed.

Lemma totalBarWidth_Fin :
  totalBarWidth (Fin w) n = Fin ((w + - 50 + - 10) / N).
Proof.
  unfold totalBarWidth.
  change (chartWidth (Fin w)) with (Fin (w + - 50 + - 10)).
  unfold ofZ. apply div_Fin, N_nonzero.
Qed.

Lemma slot_eq : (w + - 50 + - 10) / N == slot.
Proof. pose proof N_nonzero. field. assumption. Qed.

Lemma cursorAt_geometry (d : Sample) (k : nat) :
  let c := cursorAt (Fin w) (Fin h) n d k in
  cursor_sample c = d /\
  is_fin (cursor_x c) (50 + inject_Z (Z.of_nat k) * slot) /\
  is_fin (cursor_y c) 10 /\
  is_fin (cursor_width c) slot /\
  is_fin (cursor_height c) (h - 35) /\
  is_fin (add (cursor_x c) (cursor_width c))
         (50 + inject_Z (Z.of_nat (S k)) * slot).
Proof.
  cbv zeta. unfold cursorAt, slotX.
  cbn [cursor_sample cursor_x cursor_y cursor_width cursor_height].
  rewrite totalBarWidth_Fin.
  change (chartHeight (Fin h)) with (Fin (h + - 10 + - 25)).
  unfold ofZ. cbn [left top margin mul add is_fin ofZ].
  pose proof slot_eq as E.
  split; [reflexivity|].
  split; [rewrite E; reflexivity|].
  split; [reflexivity|].
  split; [exact E|].
  split; [ring|].
  rewrite E, Nat2Z.inj_succ. unfold Z.succ. rewrite inject_Z_plus.
  change (inject_Z 50) with 50. change (inject_Z 1) with 1. ring.
Qed.

Lemma slots_fill_width : 50 + N * slot == w - 10.
Proof. pose proof N_nonzero. field. assumption. Qed.

Lemma slot_positive : 60 < w -> 0 < slot.
Proof.
  intros Hw. apply Qlt_shift_div_l; [exact N_pos|]. lra.
Qed.

End Zones.

End ZoneFacts.

(** C8: a render at a rectangle with no zero side and a non-empty series
    puts one hover zone per sample in the chart, in the samples' order.
    Each zone is one slot wide, the usable width [w - 60] divided by the
    number of samples, and as high as the chart, [h - 35], starting at the
    top margin.  Zone [k] starts at the left margin plus [k] slots and ends
    where zone [k + 1] starts, so the zones neither overlap nor leave a
    gap; the last zone ends at the right margin, and the widths add up to
    the usable width.  When the usable width is positive, so is every
    slot. *)
Theorem hover_zones_tile (w h : Q) (st : State) :
  ~ (w == 0)%Q -> ~ (h == 0)%Q -> chartData st <> [] ->
  let n := List.length (chartData st) in
  let slot := ((w - 60) / inject_Z (Z.of_nat n))%Q in
  exists svg,
    container (renderChart (Fin w) (Fin h) st) = [svg] /\
    List.length (cursors svg) = n /\
    (forall k c0 d0, (k < n)%nat ->
       let c := nth k (cursors svg) c0 in
       cursor_sample c = nth k (chartData st) d0 /\
       is_fin (cursor_x c) (50 + inject_Z (Z.of_nat k) * slot) /\
       is_fin (cursor_y c) 10 /\
       is_fin (cursor_width c) slot /\
       is_fin (cursor_height c) (h - 35) /\
       is_fin (add (cursor_x c) (cursor_width c))
              (50 + inject_Z (Z.of_nat (S k)) * slot)) /\
    (50 + inject_Z (Z.of_nat n) * slot == w - 10)%Q /\
    is_fin (sumOf (map cursor_width (cursors svg))) (w - 60) /\
    ((60 < w)%Q -> (0 < slot)%Q).
Proof.
  intros Hw Hh Hdata. cbv zeta.
  set (n := List.length (chartData st)).
  assert (Hn : (0 < n)%nat).
  { unfold n. destruct (chartData st); [congruence | cbn; lia]. }
  destruct (RenderFacts.renderChart_draws (Fin w) (Fin h) st) as (svg & Hr & Hc & _).
  { apply NumberFacts.strict_eq_Fin_false. exact Hw. }
  { apply NumberFacts.strict_eq_Fin_false. exact Hh. }
  fold n in Hc.
  exists svg. rewrite Hr. cbn [container].
  assert (Hlen : List.length (cursors svg) = n).
  { rewrite Hc, length_map, length_combine, length_seq. fold n. lia. }
  assert (Hnth : forall k c0 d0, (k < n)%nat ->
            nth k (cursors svg) c0
            = cursorAt (Fin w) (Fin h) n (nth k (chartData st) d0) k).
  { intros k c0 d0 Hk. rewrite Hc.
    rewrite (nth_indep _ c0
               (cursorAt (Fin w) (Fin h) n (fst (d0, 0%nat)) (snd (d0, 0%nat)))).
    2:{ rewrite length_map, length_combine, length_seq. fold n. lia. }
    rewrite (map_nth (fun p => cursorAt (Fin w) (Fin h) n (fst p) (snd p))).
    unfold n. rewrite RenderFacts.combine_seq_nth by exact Hk.
    reflexivity. }
  split; [reflexivity|]. split; [exact Hlen|].
  split.
  { intros k c0 d0 Hk. cbv zeta. rewrite (Hnth k c0 d0 Hk).
    exact (ZoneFacts.cursorAt_geometry w h n Hn _ k). }
  split; [exact (ZoneFacts.slots_fill_width w n Hn)|].
  split; [|exact (ZoneFacts.slot_positive w n Hn)].
  unfold sumOf, ofZ.
  assert (Hall : forall v, In v (map cursor_width (cursors svg)) ->
                           v = Fin ((w + - 50 + - 10) / inject_Z (Z.of_nat n))).
  { intros v Hv. apply in_map_iff in Hv. destruct Hv as (c & <- & Hin).
    rewrite Hc in Hin. apply in_map_iff in Hin. destruct Hin as (p & <- & _).
    unfold cursorAt. cbn [cursor_width].
    apply (ZoneFacts.totalBarWidth_Fin w n Hn). }
  apply (ZoneFacts.is_fin_morph _ _ _
           (ZoneFacts.sum_of_equal_widths _ _ Hall (inject_Z 0))).
  rewrite length_map, Hlen. change (inject_Z 0) with 0%Q.
  assert (HN : ~ (inject_Z (Z.of_nat n) == 0)%Q)
    by exact (ZoneFacts.N_nonzero n Hn).
  field. exact HN.
Qed.

(** Witness of [hover_zones_tile]: thirty samples in a rectangle of 800 by
    300 give thirty zones whose widths add up to 740. *)
Lemma hover_zones_tile_witness :
  let st := {| currentRange := 30;
               chartData := generateMockData sampleSin 0 1726326000000 30;
               container := [] |} in
  exists svg,
    container (renderChart (Fin 800) (Fin 300) st) = [svg] /\
    List.length (cursors svg) = 30%nat /\
    is_fin (sumOf (map cursor_width (cursors svg))) (800 - 60).
Proof.
  cbv zeta.
  destruct (hover_zones_tile 800 300
              {| currentRange := 30;
                 chartData := generateMockData sampleSin 0 1726326000000 30;
                 container := [] |})
    as (svg & H1 & H2 & _ & _ & H5 & _).
  - discriminate.
  - discriminate.
  - vm_compute. discriminate.
  - exists svg. split; [exact H1|]. split; [exact H2|]. exact H5.
Defined.

(** ** The outline of each bar *)

Module BarShape.

Import NumberFacts.
Local Open Scope Q_scope.

(** The bars are narrower than 8 when 98% of a slot is: lines 152 to 156
    with a usable width [w - 60] shared among [n] bars. *)
Lemma barWidth_narrow (w : Q) (n : nat) :
  (0 < n)%nat ->
  (w - 60) * 0.98 < 8 * inject_Z (Z.of_nat n) ->
  lt (barWidth (Fin w) n) (ofZ 8) = true.
Proof.
  intros Hn Hnarrow.
  pose proof (ZoneFacts.N_pos n Hn) as HN.
  unfold barWidth. cbv zeta.
  rewrite (ZoneFacts.totalBarWidth_Fin w n Hn).
  change (sub (ofZ 1) barGapPct) with (Fin (inject_Z 1 + - 0.02)).
  cbn [mul]. unfold gt.
  set (N := inject_Z (Z.of_nat n)) in *.
  assert (Hbw : (w + - 50 + - 10) / N * (inject_Z 1 + - 0.02) < 8).
  { assert (E : (w + - 50 + - 10) / N * (inject_Z 1 + - 0.02)
                == ((w - 60) * 0.98) / N).
    { change (inject_Z 1) with 1. field. lra. }
    rewrite E. apply Qlt_shift_div_r; [exact HN | lra]. }
  destruct (lt (ofZ 80) (Fin ((w + - 50 + - 10) / N * (inject_Z 1 + - 0.02))))
    eqn:L.
  - apply lt_Fin in L. change (inject_Z 80) with 80 in L. lra.
  - apply lt_Fin. change (inject_Z 8) with 8. exact Hbw.
Qed.

End BarShape.

Section BarClaims.

Import NumberFacts RenderFacts.

Variables width height : number.
Variable st : State.

(** C7: every bar of a render gets its outline by the corner radius, fixed
    at 4.  In a render at a rectangle with no zero side the bar group
    holds one path per sample, in the samples' order.  The path of sample
    [k] starts at the bottom left corner of its bar, with [h] the bar's
    height [barH], clamped at 0: when [h] is below the radius the path is
    the plain rectangle, with no arc; when [h] is at or above the radius it
    is the outline with the two top corners rounded at that radius and a
    square bottom. *)
Theorem bar_outline_threshold :
  strict_eq width (ofZ 0) = false ->
  strict_eq height (ofZ 0) = false ->
  exists svg,
    container (renderChart width height st) = [svg] /\
    List.length (bars svg) = List.length (chartData st) /\
    forall k d, nth_error (chartData st) k = Some d ->
      let n := List.length (chartData st) in
      let axis := computeAxis (maxUsageOf (chartData st)) in
      let r := cornerRadius in
      let x := barX width n k in
      let y := barY height axis d in
      let w := barWidth width n in
      let h := Math_max2 (ofZ 0) (barH height axis d) in
      r = ofZ 4 /\
      (lt h r = true ->
       nth_error (bars svg) k
       = Some [ MoveTo x (add y h); VLineBy (neg h); HLineBy w; VLineBy h;
                ClosePath ]) /\
      (ge h r = true ->
       nth_error (bars svg) k
       = Some [ MoveTo x (add y h);
                VLineBy (neg (sub h r));
                ArcBy r r 0 false true r (neg r);
                HLineBy (sub w (mul (ofZ 2) r));
                ArcBy r r 0 false true r r;
                VLineBy (sub h r);
                ClosePath ]).
Proof.
  intros Hw Hh.
  destruct (renderChart_bars width height st Hw Hh)
    as (svg & Hc & Hlen & Hbar).
  exists svg. split; [exact Hc|]. split; [exact Hlen|].
  intros k d Hk. cbv zeta. rewrite (Hbar k d Hk).
  split; [reflexivity|]. split; intros H.
  - rewrite (pathD_plain _ _ _ _ H). reflexivity.
  - rewrite (pathD_rounded _ _ _ _ (ge_not_lt _ _ H)). reflexivity.
Qed.

(** C10: the width of a bar plays no part in the choice of its outline.
    In a render at a rectangle with no zero side, every bar whose height
    [h] is at least 4 gets the rounded outline, whatever the bar width
    [barWidth] of lines 152 to 156 is; its top segment has length
    [barWidth - 2 * r], which is negative when the bar width is below 8,
    and the bar width is below 8 as soon as 98% of a slot is, that is when
    [(width - 60) * 0.98 < 8 * n] for [n] samples. *)
Theorem rounded_outline_ignores_width :
  strict_eq width (ofZ 0) = false ->
  strict_eq height (ofZ 0) = false ->
  exists svg,
    container (renderChart width height st) = [svg] /\
    forall k d, nth_error (chartData st) k = Some d ->
      let n := List.length (chartData st) in
      let axis := computeAxis (maxUsageOf (chartData st)) in
      let r := cornerRadius in
      let x := barX width n k in
      let y := barY height axis d in
      let w := barWidth width n in
      let h := Math_max2 (ofZ 0) (barH height axis d) in
      ge h r = true ->
      nth_error (bars svg) k
      = Some [ MoveTo x (add y h);
               VLineBy (neg (sub h r));
               ArcBy r r 0 false true r (neg r);
               HLineBy (sub w (mul (ofZ 2) r));
               ArcBy r r 0 false true r r;
               VLineBy (sub h r);
               ClosePath ] /\
      (lt w (ofZ 8) = true -> lt (sub w (mul (ofZ 2) r)) (ofZ 0) = true) /\
      (forall wq, width = Fin wq ->
         ((wq - 60) * 0.98 < 8 * inject_Z (Z.of_nat n))%Q ->
         lt w (ofZ 8) = true).
Proof.
  intros Hw Hh.
  destruct (renderChart_bars width height st Hw Hh)
    as (svg & Hc & _ & Hbar).
  exists svg. split; [exact Hc|].
  intros k d Hk. cbv zeta. intros H. rewrite (Hbar k d Hk).
  split; [rewrite (pathD_rounded _ _ _ _ (ge_not_lt _ _ H)); reflexivity|].
  split; [apply top_segment_negative|].
  intros wq -> Hnarrow. apply BarShape.barWidth_narrow; [|exact Hnarrow].
  destruct (chartData st); [destruct k; discriminate | cbn; lia].
Qed.

End BarClaims.

(** Witness of [bar_outline_threshold], at a rectangle of 300 by 100 with
    the three days that end on Sunday 15 September 2024.  The scale ends at
    50000 and the chart is 65 high: Friday's 6250 makes a bar of height
    8.125, which is rounded, and Sunday's 2750 a bar of height 3.575, which
    is plain. *)
Lemma bar_outline_threshold_witness :
  let st := {| currentRange := 30;
               chartData := generateMockData sampleSin 0 1726412400000 3;
               container := [] |} in
  let n := List.length (chartData st) in
  let axis := computeAxis (maxUsageOf (chartData st)) in
  let friday := sampleAt sampleSin 0 1726412400000 2 in
  let sunday := sampleAt sampleSin 0 1726412400000 0 in
  let w := barWidth (ofZ 300) n in
  let hf := Math_max2 (ofZ 0) (barH (ofZ 100) axis friday) in
  let hs := Math_max2 (ofZ 0) (barH (ofZ 100) axis sunday) in
  nth_error (chartData st) 0 = Some friday /\
  nth_error (chartData st) 2 = Some sunday /\
  (usage friday = 6250 /\ is_fin hf 8.125) /\
  (usage sunday = 2750 /\ is_fin hs 3.575) /\
  exists svg,
    container (renderChart (ofZ 300) (ofZ 100) st) = [svg] /\
    nth_error (bars svg) 0
    = Some [ MoveTo (barX (ofZ 300) n 0)
                    (add (barY (ofZ 100) axis friday) hf);
             VLineBy (neg (sub hf cornerRadius));
             ArcBy cornerRadius cornerRadius 0 false true
                   cornerRadius (neg cornerRadius);
             HLineBy (sub w (mul (ofZ 2) cornerRadius));
             ArcBy cornerRadius cornerRadius 0 false true
                   cornerRadius cornerRadius;
             VLineBy (sub hf cornerRadius);
             ClosePath ] /\
    nth_error (bars svg) 2
    = Some [ MoveTo (barX (ofZ 300) n 2)
                    (add (barY (ofZ 100) axis sunday) hs);
             VLineBy (neg hs); HLineBy w; VLineBy hs; ClosePath ].
Proof.
  cbv zeta.
  match goal with
  | |- ?A /\ _ => assert (Hf : A) by (vm_compute; reflexivity)
  end.
  split; [exact Hf|].
  match goal with
  | |- ?A /\ _ => assert (Hs : A) by (vm_compute; reflexivity)
  end.
  split; [exact Hs|].
  split; [split; vm_compute; reflexivity|].
  split; [split; vm_compute; reflexivity|].
  destruct (bar_outline_threshold (ofZ 300) (ofZ 100)
              {| currentRange := 30;
                 chartData := generateMockData sampleSin 0 1726412400000 3;
                 container := [] |} eq_refl eq_refl)
    as (svg & Hc & _ & Hbar).
  destruct (Hbar 0%nat _ Hf) as (_ & _ & Hrounded).
  destruct (Hbar 2%nat _ Hs) as (_ & Hplain & _).
  exists svg. split; [exact Hc|]. split.
  - apply Hrounded. vm_compute. reflexivity.
  - apply Hplain. vm_compute. reflexivity.
Defined.

(** Witness of [rounded_outline_ignores_width], at a rectangle of 300 by 200
    with the widest range, 90 days: the bars are 240 / 90 * 0.98 wide,
    about 2.6.  The bar of the last day is 105 high, so it is rounded, and
    its top segment is about 5.4 long in the negative direction. *)
Lemma rounded_outline_ignores_width_witness :
  let st := {| currentRange := 90;
               chartData := generateMockData sampleSin 0 1726326000000 90;
               container := [] |} in
  let n := List.length (chartData st) in
  let axis := computeAxis (maxUsageOf (chartData st)) in
  let d := sampleAt sampleSin 0 1726326000000 0 in
  let w := barWidth (ofZ 300) n in
  let h := Math_max2 (ofZ 0) (barH (ofZ 200) axis d) in
  n = 90%nat /\
  nth_error (chartData st) 89 = Some d /\
  ge h cornerRadius = true /\
  ((300 - 60) * 0.98 < 8 * inject_Z (Z.of_nat n))%Q /\
  exists svg,
    container (renderChart (ofZ 300) (ofZ 200) st) = [svg] /\
    nth_error (bars svg) 89
    = Some [ MoveTo (barX (ofZ 300) n 89) (add (barY (ofZ 200) axis d) h);
             VLineBy (neg (sub h cornerRadius));
             ArcBy cornerRadius cornerRadius 0 false true
                   cornerRadius (neg cornerRadius);
             HLineBy (sub w (mul (ofZ 2) cornerRadius));
             ArcBy cornerRadius cornerRadius 0 false true
                   cornerRadius cornerRadius;
             VLineBy (sub h cornerRadius);
             ClosePath ] /\
    lt w (ofZ 8) = true /\
    lt (sub w (mul (ofZ 2) cornerRadius)) (ofZ 0) = true.
Proof.
  cbv zeta.
  split; [vm_compute; reflexivity|].
  match goal with
  | |- ?A /\ _ => assert (Hd : A) by (vm_compute; reflexivity)
  end.
  split; [exact Hd|].
  match goal with
  | |- ?A /\ _ => assert (Hh : A) by (vm_compute; reflexivity)
  end.
  split; [exact Hh|].
  match goal with
  | |- ?A /\ _ => assert (Hn : A) by (vm_compute; reflexivity)
  end.
  split; [exact Hn|].
  destruct (rounded_outline_ignores_width (ofZ 300) (ofZ 200)
              {| currentRange := 90;
                 chartData := generateMockData sampleSin 0 1726326000000 90;
                 container := [] |} eq_refl eq_refl)
    as (svg & Hc & Hbar).
  destruct (Hbar 89%nat _ Hd Hh) as (Hpath & Hneg & Hnarrow).
  pose proof (Hnarrow (inject_Z 300) eq_refl Hn) as Hw.
  exists svg. split; [exact Hc|]. split; [exact Hpath|].
  split; [exact Hw | exact (Hneg Hw)].
Defined.

(** At the threshold itself.  With a scale that ends at 100 in a chart 100
    high, a bar is as high as its value: the bar of 3, one unit under the
    radius, is the plain rectangle of five commands, and the bars of 4 and
    of 100 are rounded. *)
Example bar_outline_at_the_radius :
  let sample := fun u =>
    {| date := 0; usage := u; displayDate := EmptyString;
       fullDate := EmptyString |} in
  let st := {| currentRange := 30;
               chartData := [sample 100; sample 4; sample 3];
               container := [] |} in
  let axis := computeAxis (maxUsageOf (chartData st)) in
  niceMax axis = Fin 100 /\
  is_fin (barH (ofZ 135) axis (sample 4)) 4 /\
  is_fin (barH (ofZ 135) axis (sample 3)) 3 /\
  map (fun svg => map (fun path => List.length path) (bars svg))
      (container (renderChart (ofZ 300) (ofZ 135) st))
  = [[7; 7; 5]%nat] /\
  map (fun svg => nth_error (bars svg) 2)
      (container (renderChart (ofZ 300) (ofZ 135) st))
  = [Some (pathD (barX (ofZ 300) 3 2) (barY (ofZ 135) axis (sample 3))
                 (barH (ofZ 135) axis (sample 3)) (barWidth (ofZ 300) 3))].
Proof. vm_compute. repeat split. Qed.

(** ** The grid loop *)

Module GridFacts.

Import NumberFacts AxisFacts.
Local Open Scope Q_scope.

Section Loop.

Variables width height : number.
Variables nm s : Q.
Hypothesis s_pos : 0 < s.

Local Abbreviation axis := {| niceMax := Fin nm; step := Fin s |}.

(** Once the bound on the turns exceeds what the condition allows, more
    turns change nothing: the loop ends on its condition. *)
Lemma gridLoop_stable (fuel extra : nat) :
  forall (v : Q) (j : Z),
    v == inject_Z j * s ->
    nm < inject_Z (j + Z.of_nat fuel) * s ->
    gridLoop width height axis (fuel + extra) (Fin v)
    = gridLoop width height axis fuel (Fin v).
Proof.
  induction fuel as [|fuel IH]; intros v j Hv Hnm.
  - rewrite Z.add_0_r in Hnm.
    assert (Hle : le (Fin v) (niceMax axis) = false).
    { apply le_Fin_false. rewrite Hv. exact Hnm. }
    destruct extra as [|extra]; [reflexivity|].
    cbn [Nat.add gridLoop]. rewrite Hle. reflexivity.
  - cbn [Nat.add gridLoop].
    destruct (le (Fin v) (niceMax axis)); [|reflexivity].
    f_equal. cbn [step add].
    apply (IH (v + s) (j + 1)%Z).
    + rewrite Hv, inject_Z_plus. change (inject_Z 1) with 1. ring.
    + replace (j + 1 + Z.of_nat fuel)%Z with (j + Z.of_nat (S fuel))%Z by lia.
      exact Hnm.
Qed.

Lemma gridFuel_enough :
  0 <= nm ->
  forall extra,
    gridLoop width height axis (gridFuel axis + extra) (ofZ 0)
    = gridTicks width height axis.
Proof.
  intros Hnm extra. unfold gridTicks, gridFuel.
  cbn [niceMax step].
  assert (Hs : ~ s == 0) by lra.
  rewrite (div_Fin nm s Hs).
  apply (gridLoop_stable _ extra (inject_Z 0) 0%Z).
  - change (inject_Z 0) with 0. ring.
  - assert (Hq : 0 <= nm / s).
    { apply Qle_shift_div_l; [exact s_pos | lra]. }
    assert (Hf : (0 <= Qfloor (nm / s))%Z).
    { change 0%Z with (Qfloor (inject_Z 0)). apply Qfloor_resp_le. exact Hq. }
    rewrite Nat2Z.inj_succ, Z2Nat.id by exact Hf.
    rewrite Z.add_0_l. unfold Z.succ.
    pose proof (Qlt_floor (nm / s)) as Hlt.
    apply (Qmult_lt_r _ _ s s_pos) in Hlt.
    assert (E : nm / s * s == nm) by (field; exact Hs).
    rewrite E in Hlt. exact Hlt.
Qed.

End Loop.

(** For every finite maximum that is not negative, the grid loop of the
    chart ends within [gridFuel] turns. *)
Lemma gridTicks_complete (width height : number) (q : Q) :
  0 <= q ->
  forall extra,
    gridLoop width height (computeAxis (Fin q))
             (gridFuel (computeAxis (Fin q)) + extra) (ofZ 0)
    = gridTicks width height (computeAxis (Fin q)).
Proof.
  intros Hq extra.
  destruct (Qlt_le_dec 0 q) as [Hpos|Hzero].
  - destruct (step_positive q Hpos) as (s & Hs & Hspos).
    destruct (niceMax_eq q Hpos s Hs Hspos) as [Hn Hnpos].
    destruct (computeAxis (Fin q)) as [nm0 st0]. cbn [step niceMax] in *.
    subst nm0 st0.
    apply gridFuel_enough; [exact Hspos | lra].
  - assert (Hax : niceMax (computeAxis (Fin q)) = NaN)
      by (apply niceMax_zero; lra).
    unfold gridTicks.
    destruct (gridFuel (computeAxis (Fin q))) as [|f] eqn:Ef.
    + unfold gridFuel in Ef. destruct (div _ _); discriminate.
    + cbn [Nat.add gridLoop]. rewrite Hax. reflexivity.
Qed.

End GridFacts.

(** ** All-zero series *)

Lemma maxUsageOf_zeros (data : list Sample) :
  data <> [] ->
  (forall d, In d data -> usage d = 0%Z) ->
  maxUsageOf data = ofZ 0.
Proof.
  intros Hne Hall. unfold maxUsageOf, Math_max.
  destruct data as [|d rest]; [congruence|].
  cbn [map fold_left]. rewrite (Hall d (or_introl eq_refl)).
  change (Math_max2 NegInf (ofZ 0)) with (ofZ 0).
  assert (Hrest : forall d', In d' rest -> usage d' = 0%Z)
    by (intros d' Hd; apply Hall; right; exact Hd).
  clear Hall Hne. induction rest as [|e rest IH]; [reflexivity|].
  cbn [map fold_left]. rewrite (Hrest e (or_introl eq_refl)).
  change (Math_max2 (ofZ 0) (ofZ 0)) with (ofZ 0).
  apply IH. intros d' Hd. apply Hrest. right. exact Hd.
Qed.

(** A series whose values are all zero gets no usable scale: [niceMax] is
    [NaN], whatever the number of samples. *)
Lemma all_zero_series_niceMax (data : list Sample) :
  data <> [] ->
  (forall d, In d data -> usage d = 0%Z) ->
  niceMax (computeAxis (maxUsageOf data)) = NaN.
Proof.
  intros Hne Hall. rewrite (maxUsageOf_zeros data Hne Hall).
  reflexivity.
Qed.

(** ** Worked examples *)

Local Open Scope string_scope.

(** 14 September 2024, a Saturday, is day 19980. *)
Example calendar_2024_09_14 :
  let t := (19980 * msPerDay)%Z in
  (getFullYear 0 t, getMonth 0 t, getDate 0 t, getDay 0 t)
  = (2024, 8, 14, 6)%Z
  /\ dateSeed 0 t = 20240914%Z
  /\ formatShort 0 t = "Sep 14"
  /\ formatFull 0 t = "Saturday, September 14, 2024".
Proof. repeat split. Qed.

(** Month ends around a leap day and across a year. *)
Example calendar_rollover :
  map (fun d => (YearFromDay d, MonthFromTime (d * msPerDay),
                 DateFromTime (d * msPerDay)))
      [11016; 11017; -1; 0; 47540; 47541]%Z
  = [(2000, 1, 29); (2000, 2, 1); (1969, 11, 31); (1970, 0, 1);
     (2100, 1, 28); (2100, 2, 1)]%Z.
Proof. reflexivity. Qed.

(** [setDate] with a day of the month below 1 steps into the month before. *)
Example setDate_across_month :
  let t := (19967 * msPerDay + 3600000)%Z in      (* 1 September 2024, 01:00 *)
  getDate 0 t = 1%Z /\
  setDate 0 t (getDate 0 t - 2) = Some (19965 * msPerDay + 3600000)%Z /\
  option_map (formatShort 0) (setDate 0 t (getDate 0 t - 2)) = Some "Aug 30".
Proof. repeat split. Qed.

(** New York on 1 November 2020, 19:30 local time, the day daylight saving
    ends.  The dates of the two days before keep the time of day, 19:30, so
    they lie 24 and then 25 hours apart; the first falls on day 18565 of
    the epoch, a multiple of 5, and the last on day 18568, a multiple of
    11. *)
Example generateMockData_across_fall_back :
  let data := generateMockData sampleSin newYork2020 1604277000000 3 in
  map date data = [1604100600000; 1604187000000; 1604277000000]%Z /\
  map displayDate data = ["Oct 30"; "Oct 31"; "Nov 1"] /\
  (1604187000000 - 1604100600000 = 86400000)%Z /\
  (1604277000000 - 1604187000000 = 90000000)%Z /\
  map (fun s => spike newYork2020 (date s)) data = [5000; 0; 15000]%Z.
Proof. vm_compute. repeat split. Qed.

(** The same call in the repeated hour, at 01:30 local time after the
    clocks went back: [setDate] reads 01:30 as the first of the two, so the
    last sample is dated an hour before [today], on the same calendar
    day. *)
Example generateMockData_in_repeated_hour :
  let today := 1604212200000%Z in
  map date (generateMockData sampleSin newYork2020 today 1)
  = [today - 3600000]%Z /\
  localDay newYork2020 (today - 3600000) = localDay newYork2020 today.
Proof. vm_compute. repeat split. Qed.

(** A range that reaches before the earliest time value: the date of the
    first turn is invalid, and the call throws. *)
Example generateMockData_out_of_range :
  setDate 0 1726326000000 (getDate 0 1726326000000 - 199999999) = None /\
  generateMockData_call sampleSin 0 1726326000000 200000000
  = Thrown RangeError /\
  generateMockData sampleSin 0 1726326000000 200000000 = [].
Proof.
  assert (H : generateMockData_call sampleSin 0 1726326000000 200000000
              = Thrown RangeError).
  { apply GeneratorFacts.generateMockData_call_invalid.
    - reflexivity.
    - vm_compute. reflexivity. }
  split; [vm_compute; reflexivity|].
  split; [exact H|].
  unfold generateMockData. rewrite H. reflexivity.
Qed.

(** Three days ending on 14 September 2024, 15:00 UTC, oldest first. *)
Example generateMockData_three_days :
  map (fun s => (displayDate s, usage s))
      (generateMockData sampleSin 0 1726326000000 3)
  = [("Sep 12", 6250%Z); ("Sep 13", 6250%Z); ("Sep 14", 47750%Z)].
Proof. vm_compute. reflexivity. Qed.

(** A maximum of 47750: [roughStep] is 11937.5, the magnitude 10000, the
    ratio rounds up to 2, the step is 25000 and [niceMax] 50000. *)
Example computeAxis_47750 :
  same (step (computeAxis (ofZ 47750))) (ofZ 25000) = true /\
  same (niceMax (computeAxis (ofZ 47750))) (ofZ 50000) = true.
Proof. repeat split. Qed.

(** Maxima below 4 have a magnitude below 1. *)
Example computeAxis_3 :
  same (step (computeAxis (ofZ 3))) (ofZ 1) = true /\
  same (niceMax (computeAxis (ofZ 3))) (ofZ 3) = true.
Proof. repeat split. Qed.

(** The chart of one sample of usage 0 at 800 by 300: the cursor is drawn,
    no grid line is, and the bar's outline is built from [NaN]. *)
Example render_all_zero :
  let zero := {| date := 0; usage := 0; displayDate := "Jan 1";
                 fullDate := "Thursday, January 1, 1970" |} in
  let st := {| currentRange := 7; chartData := [zero]; container := [] |} in
  exists svg,
    container (renderChart (ofZ 800) (ofZ 300) st) = [svg] /\
    List.length (cursors svg) = 1%nat /\
    grid svg = [] /\
    bars svg
    = [[ MoveTo (Fin (760 # 2)) NaN; VLineBy NaN;
         ArcBy (ofZ 4) (ofZ 4) 0 false true (ofZ 4) (Fin (-4));
         HLineBy (ofZ 72);
         ArcBy (ofZ 4) (ofZ 4) 0 false true (ofZ 4) (ofZ 4);
         VLineBy NaN; ClosePath ]].
Proof.
  cbv zeta. eexists. split; [reflexivity|].
  split; [reflexivity|]. split; [reflexivity|].
  vm_compute. reflexivity.
Qed.

(** * Further properties *)

(** ** The calendar *)

Module CalendarFacts.

Import GeneratorFacts.
Local Open Scope Z_scope.

Lemma DayWithinYear_range (t : Z) :
  0 <= DayWithinYear t < 365 + InLeapYear t.
Proof.
  unfold DayWithinYear, InLeapYear, YearFromTime.
  pose proof (YearFromDay_spec (Day t)) as H.
  pose proof (DaysInYear_leap (YearFromDay (Day t))) as L.
  destruct (isLeapYear (YearFromDay (Day t))); lia.
Qed.

Lemma InLeapYear_cases (t : Z) : InLeapYear t = 0 \/ InLeapYear t = 1.
Proof. unfold InLeapYear. destruct (isLeapYear _); auto. Qed.

Lemma DateFromTime_range (t : Z) : 1 <= DateFromTime t <= 31.
Proof.
  pose proof (DayWithinYear_range t) as H.
  pose proof (InLeapYear_cases t) as L.
  unfold DateFromTime, MonthFromTime.
  repeat match goal with
         | |- context [if ?b <? ?c then _ else _] =>
             destruct (Z.ltb_spec b c)
         end; cbn [daysBeforeMonth]; lia.
Qed.

Lemma WeekDay_range (t : Z) : 0 <= WeekDay t <= 6.
Proof.
  unfold WeekDay. pose proof (Z.mod_pos_bound (Day t + 4) 7 ltac:(lia)). lia.
Qed.

(** The day number, rebuilt from the year, the month and the day of the
    month. *)
Lemma Day_from_fields (t : Z) :
  Day t = DayFromYear (YearFromTime t)
          + daysBeforeMonth (MonthFromTime t) (InLeapYear t)
          + DateFromTime t - 1.
Proof. unfold DateFromTime, DayWithinYear. lia. Qed.

Section LocalFields.

Variable LocalTZA : Zone.

(** The calendar fields of a date are those of its local day. *)
Lemma fields_of_local_day (d d' : Z) :
  localDay LocalTZA d = localDay LocalTZA d' ->
  getFullYear LocalTZA d = getFullYear LocalTZA d' /\
  getMonth LocalTZA d = getMonth LocalTZA d' /\
  getDate LocalTZA d = getDate LocalTZA d' /\
  getDay LocalTZA d = getDay LocalTZA d'.
Proof.
  unfold localDay. intros H.
  assert (Hy : YearFromTime (LocalTime LocalTZA d)
               = YearFromTime (LocalTime LocalTZA d')).
  { unfold YearFromTime. rewrite H. reflexivity. }
  assert (Hw : DayWithinYear (LocalTime LocalTZA d)
               = DayWithinYear (LocalTime LocalTZA d')).
  { unfold DayWithinYear. rewrite H, Hy. reflexivity. }
  assert (Hl : InLeapYear (LocalTime LocalTZA d)
               = InLeapYear (LocalTime LocalTZA d')).
  { unfold InLeapYear. rewrite Hy. reflexivity. }
  assert (Hm : MonthFromTime (LocalTime LocalTZA d)
               = MonthFromTime (LocalTime LocalTZA d')).
  { unfold MonthFromTime. rewrite Hw, Hl. reflexivity. }
  unfold getFullYear, getMonth, getDate, getDay, DateFromTime, WeekDay.
  rewrite Hy, Hw, Hl, Hm, H. repeat split.
Qed.

(** Conversely the year, the month and the day of the month fix the local
    day. *)
Lemma local_day_of_fields (d d' : Z) :
  getFullYear LocalTZA d = getFullYear LocalTZA d' ->
  getMonth LocalTZA d = getMonth LocalTZA d' ->
  getDate LocalTZA d = getDate LocalTZA d' ->
  localDay LocalTZA d = localDay LocalTZA d'.
Proof.
  unfold getFullYear, getMonth, getDate, localDay. intros Hy Hm Hd.
  rewrite (Day_from_fields (LocalTime LocalTZA d)),
          (Day_from_fields (LocalTime LocalTZA d')).
  unfold InLeapYear. rewrite Hy, Hm, Hd. reflexivity.
Qed.

End LocalFields.

End CalendarFacts.

(** ** More on the generator *)

Section GeneratorExtras.

Import GeneratorFacts CalendarFacts.
Local Open Scope Z_scope.

Variable Math_sin : Z -> Q.
Variable LocalTZA : Zone.

(** X1: the date seed identifies the calendar day.  Two dates have the
    same seed exactly when they fall on the same local day, so the
    pseudo-random part of the usage never mixes up two days. *)
Theorem dateSeed_identifies_day (d d' : Z) :
  dateSeed LocalTZA d = dateSeed LocalTZA d' <->
  localDay LocalTZA d = localDay LocalTZA d'.
Proof.
  split.
  - unfold dateSeed. intros H.
    pose proof (DateFromTime_range (LocalTime LocalTZA d)) as Hd.
    pose proof (DateFromTime_range (LocalTime LocalTZA d')) as Hd'.
    pose proof (MonthFromTime_range (LocalTime LocalTZA d)) as Hm.
    pose proof (MonthFromTime_range (LocalTime LocalTZA d')) as Hm'.
    fold (getDate LocalTZA d) in Hd. fold (getDate LocalTZA d') in Hd'.
    fold (getMonth LocalTZA d) in Hm. fold (getMonth LocalTZA d') in Hm'.
    apply local_day_of_fields; lia.
  - intros H. unfold dateSeed.
    destruct (fields_of_local_day LocalTZA d d' H) as (Hy & Hm & Hd & _).
    rewrite Hy, Hm, Hd. reflexivity.
Qed.

End GeneratorExtras.

Section GeneratorBounds.

Import GeneratorFacts CalendarFacts.
Local Open Scope Z_scope.

Variable Math_sin : Z -> Q.
Variable LocalTZA : Zone.

(** What [Math.sin] guarantees: a value between -1 and 1. *)
Hypothesis sin_range : forall seed, (-1 <= Math_sin seed <= 1)%Q.

Lemma jitter_range (d : Z) :
  0 <= Qfloor (randomFactor Math_sin LocalTZA d * 2500) <= 2500.
Proof.
  pose proof (sin_range (dateSeed LocalTZA d)) as [Hlo Hhi].
  unfold randomFactor.
  set (v := Math_sin (dateSeed LocalTZA d)) in *.
  assert (H0 : (0 <= (v + 1) / 2 * 2500)%Q).
  { assert (E : ((v + 1) / 2 * 2500 == (v + 1) * 1250)%Q) by field. lra. }
  assert (H1 : ((v + 1) / 2 * 2500 <= 2500)%Q).
  { assert (E : ((v + 1) / 2 * 2500 == (v + 1) * 1250)%Q) by field. lra. }
  split.
  - change 0 with (Qfloor (inject_Z 0)). apply Qfloor_resp_le. exact H0.
  - change 2500 with (Qfloor (inject_Z 2500)) at 2.
    apply Qfloor_resp_le. exact H1.
Qed.

Lemma baseUsage_range (d : Z) :
  if isWeekend LocalTZA d
  then 1500 <= baseUsage Math_sin LocalTZA d <= 4000
  else 5000 <= baseUsage Math_sin LocalTZA d <= 7500.
Proof.
  pose proof (jitter_range d) as H. unfold baseUsage.
  destruct (isWeekend LocalTZA d); lia.
Qed.

Lemma spike_cases (d : Z) :
  if isWeekend LocalTZA d
  then spike LocalTZA d = 0 \/ spike LocalTZA d = 15000
       \/ spike LocalTZA d = 45000
  else spike LocalTZA d = 0 \/ spike LocalTZA d = 5000
       \/ spike LocalTZA d = 15000 \/ spike LocalTZA d = 45000.
Proof.
  unfold spike.
  destruct (isWeekend LocalTZA d);
    destruct (Z.rem (dayIndex d) 37 =? 0);
    destruct (Z.rem (dayIndex d) 11 =? 0);
    destruct (Z.rem (dayIndex d) 5 =? 0); cbn [andb negb]; auto.
Qed.

(** X2: every generated usage is a whole number in a fixed range: from
    1500 to 49000 on a weekend and from 5000 to 52500 on a weekday. *)
Theorem usage_range (today days : Z) (s : Sample) :
  In s (generateMockData Math_sin LocalTZA today days) ->
  if isWeekend LocalTZA (date s)
  then 1500 <= usage s <= 49000
  else 5000 <= usage s <= 52500.
Proof.
  intros Hin. rewrite (usage_of_generated _ _ _ _ _ Hin).
  pose proof (baseUsage_range (date s)) as Hb.
  pose proof (spike_cases (date s)) as Hs.
  destruct (isWeekend LocalTZA (date s)); lia.
Qed.

(** X3: without a spike a weekend sample stays below every weekday
    sample, whatever the calls that produced the two. *)
Theorem weekend_below_weekday (today days today' days' : Z) (s s' : Sample) :
  In s (generateMockData Math_sin LocalTZA today days) ->
  In s' (generateMockData Math_sin LocalTZA today' days') ->
  isWeekend LocalTZA (date s) = true ->
  isWeekend LocalTZA (date s') = false ->
  spike LocalTZA (date s) = 0 ->
  usage s <= 4000 /\ 5000 <= usage s' /\ usage s < usage s'.
Proof.
  intros Hin Hin' Hw Hw' Hs.
  rewrite (usage_of_generated _ _ _ _ _ Hin),
          (usage_of_generated _ _ _ _ _ Hin').
  pose proof (baseUsage_range (date s)) as Hb.
  pose proof (baseUsage_range (date s')) as Hb'.
  pose proof (spike_cases (date s')) as Hc.
  rewrite Hw in Hb. rewrite Hw' in Hb', Hc. lia.
Qed.

End GeneratorBounds.

Section GeneratorLabels.

Import GeneratorFacts CalendarFacts.
Local Open Scope Z_scope.

Variable Math_sin : Z -> Q.
Variable LocalTZA : Zone.

(** X4: the labels and the baseline of a sample are functions of its
    calendar day.  Two samples of the same local day, from any two calls,
    carry the same short and long label and the same baseline; they carry
    the same usage when their day indices agree, which is always so when
    the zone offset is zero. *)
Theorem labels_depend_on_day (today days today' days' : Z) (s s' : Sample) :
  In s (generateMockData Math_sin LocalTZA today days) ->
  In s' (generateMockData Math_sin LocalTZA today' days') ->
  localDay LocalTZA (date s) = localDay LocalTZA (date s') ->
  displayDate s = displayDate s' /\
  fullDate s = fullDate s' /\
  baseUsage Math_sin LocalTZA (date s) = baseUsage Math_sin LocalTZA (date s') /\
  (dayIndex (date s) = dayIndex (date s') -> usage s = usage s') /\
  (LocalTZA = 0 -> usage s = usage s').
Proof.
  intros Hin Hin' Hday.
  pose proof (usage_of_generated _ _ _ _ _ Hin) as Hu.
  pose proof (usage_of_generated _ _ _ _ _ Hin') as Hu'.
  apply In_generateLoop in Hin. destruct Hin as [i Hs].
  apply In_generateLoop in Hin'. destruct Hin' as [i' Hs'].
  assert (Hdd : displayDate s = formatShort LocalTZA (date s))
    by (rewrite Hs; unfold sampleAt; cbn [sampleOn displayDate date]; reflexivity).
  assert (Hdd' : displayDate s' = formatShort LocalTZA (date s'))
    by (rewrite Hs'; unfold sampleAt; cbn [sampleOn displayDate date]; reflexivity).
  assert (Hfd : fullDate s = formatFull LocalTZA (date s))
    by (rewrite Hs; unfold sampleAt; cbn [sampleOn fullDate date]; reflexivity).
  assert (Hfd' : fullDate s' = formatFull LocalTZA (date s'))
    by (rewrite Hs'; unfold sampleAt; cbn [sampleOn fullDate date]; reflexivity).
  destruct (fields_of_local_day LocalTZA _ _ Hday) as (Hy & Hm & Hd & Hw).
  pose proof (baseUsage_local LocalTZA Math_sin _ _ Hday) as Hb.
  assert (Hidx : dayIndex (date s) = dayIndex (date s') -> usage s = usage s').
  { intros Hi. rewrite Hu, Hu', Hb. f_equal.
    unfold spike, isWeekend. rewrite Hi, Hw. reflexivity. }
  split; [rewrite Hdd, Hdd'; unfold formatShort; rewrite Hm, Hd; reflexivity|].
  split; [rewrite Hfd, Hfd'; unfold formatFull;
          rewrite Hy, Hm, Hd, Hw; reflexivity|].
  split; [exact Hb|]. split; [exact Hidx|].
  intros Hz. apply Hidx. subst LocalTZA.
  unfold localDay, LocalTime, Day in Hday. rewrite !Z.add_0_r in Hday.
  unfold dayIndex, getTime. exact Hday.
Qed.

End GeneratorLabels.

Lemma sampleSin_range : forall seed, (-1 <= sampleSin seed <= 1)%Q.
Proof. intros seed. split; discriminate. Qed.

(** Witness of [usage_range]: Saturday 14 September 2024. *)
Lemma usage_range_witness :
  let s := sampleAt sampleSin 0 1726326000000 0 in
  In s (generateMockData sampleSin 0 1726326000000 1) /\
  isWeekend 0 (date s) = true /\
  1500 <= usage s <= 49000.
Proof.
  cbv zeta.
  assert (Hin : In (sampleAt sampleSin 0 1726326000000 0)
                   (generateMockData sampleSin 0 1726326000000 1))
    by generated.
  assert (Hw : isWeekend 0 (date (sampleAt sampleSin 0 1726326000000 0)) = true)
    by (vm_compute; reflexivity).
  split; [exact Hin|]. split; [exact Hw|].
  pose proof (usage_range sampleSin 0 sampleSin_range
                1726326000000 1 _ Hin) as H.
  rewrite Hw in H. exact H.
Defined.

(** Witness of [weekend_below_weekday]: Sunday 15 and Friday 13 September
    2024, from one call. *)
Lemma weekend_below_weekday_witness :
  let data := generateMockData sampleSin 0 1726412400000 3 in
  let friday := sampleAt sampleSin 0 1726412400000 2 in
  let sunday := sampleAt sampleSin 0 1726412400000 0 in
  In friday data /\ In sunday data /\ usage sunday < usage friday.
Proof.
  cbv zeta.
  assert (Hf : In (sampleAt sampleSin 0 1726412400000 2)
                  (generateMockData sampleSin 0 1726412400000 3))
    by generated.
  assert (Hs : In (sampleAt sampleSin 0 1726412400000 0)
                  (generateMockData sampleSin 0 1726412400000 3))
    by generated.
  split; [exact Hf|]. split; [exact Hs|].
  apply (weekend_below_weekday sampleSin 0 sampleSin_range
           1726412400000 3 1726412400000 3 _ _ Hs Hf);
    vm_compute; reflexivity.
Defined.

(** Witness of [labels_depend_on_day]: 14 September 2024 as the last day
    of one call and as the first day of a call made twelve hours later. *)
Lemma labels_depend_on_day_witness :
  let s := sampleAt sampleSin 0 1726326000000 0 in
  let s' := sampleAt sampleSin 0 1726369200000 1 in
  In s (generateMockData sampleSin 0 1726326000000 1) /\
  In s' (generateMockData sampleSin 0 1726369200000 2) /\
  date s <> date s' /\
  fullDate s = fullDate s' /\
  usage s = usage s'.
Proof.
  cbv zeta.
  assert (Hin : In (sampleAt sampleSin 0 1726326000000 0)
                   (generateMockData sampleSin 0 1726326000000 1))
    by generated.
  assert (Hin' : In (sampleAt sampleSin 0 1726369200000 1)
                    (generateMockData sampleSin 0 1726369200000 2))
    by generated.
  split; [exact Hin|]. split; [exact Hin'|].
  split; [vm_compute; discriminate|].
  destruct (labels_depend_on_day sampleSin 0 _ _ _ _ _ _ Hin Hin')
    as (_ & Hf & _ & _ & Hu).
  - vm_compute. reflexivity.
  - split; [exact Hf | exact (Hu eq_refl)].
Defined.

(** ** More on the Y scale *)

Module AxisShape.

Import NumberFacts AxisFacts.
Local Open Scope Q_scope.

(** For a positive maximum: the step is a multiplier [mu] times the power
    of ten [10^e] under [roughStep], and the maximum lies between one and
    five steps. *)
Lemma step_shape (q : Q) :
  0 < q ->
  exists (e : Z) (mu s : Q),
    step (computeAxis (Fin q)) = Fin s /\
    s == mu * Qpow10 e /\
    (mu == 1 \/ mu == 2.5 \/ mu == 5 \/ mu == 10) /\
    Qpow10 e <= q / 4 /\ q / 4 < 10 * Qpow10 e /\
    0 < s /\ s < q /\ q <= 5 * s.
Proof.
  intros Hq.
  pose proof (step_eq q Hq) as Hstep. cbv zeta in Hstep.
  pose proof (ratio_range q Hq) as [Hr1 Hr10].
  pose proof (c_range q Hq) as Hc.
  pose proof (m_pos q) as Hm.
  pose proof (magnitude_brackets (q / 4) (rough_pos q Hq)) as [Hlo Hhi].
  set (e := ilog10 (Qnum (q / 4)) (Zpos (Qden (q / 4)))) in *.
  set (m := Qpow10 e) in *.
  set (r := q / 4 / m) in *.
  pose proof (Qle_ceiling r) as Hceil.
  pose proof (Qceiling_lt r) as Hceil'.
  set (c := Qceiling r) in *.
  assert (Hq4 : q == 4 * r * m).
  { unfold r. field. lra. }
  rewrite multiplierFor_ofZ in Hstep.
  assert (Hcq : inject_Z (c - 1) == inject_Z c - 1).
  { unfold Z.sub. rewrite inject_Z_plus. reflexivity. }
  rewrite Hcq in Hceil'.
  assert (Bounds : forall mu : Q, 0 < mu -> mu < 4 * r -> 4 * r <= 5 * mu ->
             0 < mu * m /\ mu * m < q /\ q <= 5 * (mu * m)).
  { intros mu Hmu H1 H2. split; [apply Qmult_lt_0_compat; assumption|].
    rewrite Hq4. split.
    - apply Qmult_lt_r; assumption.
    - setoid_replace (5 * (mu * m)) with (5 * mu * m) by ring.
      apply Qmult_le_r; assumption. }
  destruct (Z.leb_spec c 1) as [C1|C1].
  { assert (c = 1%Z) by lia. subst c.
    assert (H1 : inject_Z (Qceiling r) == 1) by (rewrite H; reflexivity).
    exists e, 1, (inject_Z 1 * m).
    split; [exact Hstep|]. split; [reflexivity|]. split; [left; reflexivity|].
    split; [exact Hlo|]. split; [exact Hhi|].
    apply (Bounds 1); lra. }
  destruct (Z.leb_spec c 2) as [C2|C2].
  { assert (Hc2 : inject_Z c == 2).
    { assert (c = 2%Z) as -> by lia. reflexivity. }
    exists e, 2.5, (2.5 * m).
    split; [exact Hstep|]. split; [reflexivity|].
    split; [right; left; reflexivity|].
    split; [exact Hlo|]. split; [exact Hhi|].
    apply (Bounds 2.5); lra. }
  assert (H3 : 3 <= inject_Z c).
  { change 3 with (inject_Z 3). rewrite <- Zle_Qle. lia. }
  destruct (Z.leb_spec c 6) as [C6|C6].
  { assert (H6 : inject_Z c <= 6).
    { change 6 with (inject_Z 6). rewrite <- Zle_Qle. lia. }
    exists e, 5, (inject_Z 5 * m).
    split; [exact Hstep|]. split; [reflexivity|].
    split; [right; right; left; reflexivity|].
    split; [exact Hlo|]. split; [exact Hhi|].
    apply (Bounds 5); lra. }
  assert (H7 : 7 <= inject_Z c).
  { change 7 with (inject_Z 7). rewrite <- Zle_Qle. lia. }
  exists e, 10, (inject_Z 10 * m).
  split; [exact Hstep|]. split; [reflexivity|].
  split; [right; right; right; reflexivity|].
  split; [exact Hlo|]. split; [exact Hhi|].
  apply (Bounds 10); lra.
Qed.

(** The number of steps up to [niceMax]. *)
Lemma steps_to_niceMax (q s : Q) :
  0 < q -> step (computeAxis (Fin q)) = Fin s -> 0 < s ->
  s < q -> q <= 5 * s ->
  let k := Qceiling (q / s) in
  niceMax (computeAxis (Fin q)) = Fin (inject_Z k * s) /\
  (2 <= k <= 5)%Z /\
  inject_Z k * s - s < q /\ q <= inject_Z k * s.
Proof.
  intros Hq Hs Hpos Hlt Hle. cbv zeta.
  destruct (niceMax_eq q Hq s Hs Hpos) as [Hn _].
  split; [exact Hn|].
  assert (H1 : 1 < q / s).
  { apply Qlt_shift_div_l; [exact Hpos | lra]. }
  assert (H5 : q / s <= 5).
  { apply Qle_shift_div_r; [exact Hpos | lra]. }
  pose proof (Qle_ceiling (q / s)) as Hc.
  pose proof (Qceiling_lt (q / s)) as Hc'.
  assert (Hcq : inject_Z (Qceiling (q / s) - 1)
                == inject_Z (Qceiling (q / s)) - 1).
  { unfold Z.sub. rewrite inject_Z_plus. reflexivity. }
  rewrite Hcq in Hc'.
  assert (E : q / s * s == q) by (field; lra).
  split.
  - split.
    + assert (H : inject_Z 1 < inject_Z (Qceiling (q / s))).
      { change (inject_Z 1) with 1. lra. }
      rewrite <- Zlt_Qlt in H. lia.
    + pose proof (Qceiling_resp_le (q / s) (inject_Z 5) H5) as H.
      rewrite Qceiling_Z in H. exact H.
  - split.
    + apply (Qmult_lt_r _ _ s Hpos) in Hc'. rewrite E in Hc'.
      setoid_replace (inject_Z (Qceiling (q / s)) * s - s)
        with ((inject_Z (Qceiling (q / s)) - 1) * s) by ring.
      exact Hc'.
    + apply (Qmult_le_r _ _ s Hpos) in Hc. rewrite E in Hc. exact Hc.
Qed.

(** A maximum below zero leaves nothing finite. *)
Lemma computeAxis_negative (q : Q) :
  q < 0 -> computeAxis (Fin q) = {| niceMax := NaN; step := NaN |}.
Proof.
  intros Hq. unfold computeAxis. cbv zeta.
  assert (R : div (Fin q) (ofZ 4) = Fin (q / 4))
    by (apply div_Fin, four_nonzero).
  rewrite !R.
  assert (Hl : floor_log10 (Fin (q / 4)) = NaN).
  { unfold floor_log10, Qsign.
    assert (Ec : (0 ?= q / 4) = Gt).
    { apply Qgt_alt. apply Qlt_shift_div_r; [reflexivity | lra]. }
    rewrite Ec. reflexivity. }
  rewrite !Hl. reflexivity.
Qed.

End AxisShape.

Section AxisExtras.

Import NumberFacts AxisFacts AxisShape.
Local Open Scope Q_scope.

(** X5: for every positive maximum, [niceMax] is the least whole number
    of steps that reaches the maximum: the step and [niceMax] are finite
    and positive, [niceMax = k * step] for an integer [k],
    [maxValue <= niceMax], and one step less would fall short. *)
Theorem niceMax_least_multiple (q : Q) :
  0 < q ->
  exists n s k,
    computeAxis (Fin q) = {| niceMax := Fin n; step := Fin s |} /\
    0 < s /\ 0 < n /\ n == inject_Z k * s /\
    n - s < q /\ q <= n.
Proof.
  intros Hq.
  destruct (step_shape q Hq) as (e & mu & s & Hs & _ & _ & _ & _ & Hpos & Hlt & Hle).
  destruct (steps_to_niceMax q s Hq Hs Hpos Hlt Hle) as (Hn & Hk & Hlo & Hhi).
  exists (inject_Z (Qceiling (q / s)) * s), s, (Qceiling (q / s)).
  split.
  - destruct (computeAxis (Fin q)) as [nm st]. cbn [step niceMax] in *.
    congruence.
  - split; [exact Hpos|]. split; [lra|]. split; [reflexivity|].
    split; assumption.
Qed.

(** X6: a chart of a positive maximum has between two and five grid
    intervals: [niceMax] is 2, 3, 4 or 5 steps. *)
Theorem grid_interval_count (q : Q) :
  0 < q ->
  exists s k,
    step (computeAxis (Fin q)) = Fin s /\
    niceMax (computeAxis (Fin q)) = Fin (inject_Z k * s) /\
    (2 <= k <= 5)%Z.
Proof.
  intros Hq.
  destruct (step_shape q Hq) as (e & mu & s & Hs & _ & _ & _ & _ & Hpos & Hlt & Hle).
  destruct (steps_to_niceMax q s Hq Hs Hpos Hlt Hle) as (Hn & Hk & _).
  exists s, (Qceiling (q / s)). split; [exact Hs|]. split; assumption.
Qed.

(** X7: the step of a positive maximum is a nice number: 1, 2.5, 5 or 10
    times the power of ten [10^e] with [10^e <= maxValue / 4 < 10^(e+1)]. *)
Theorem step_is_nice_number (q : Q) :
  0 < q ->
  exists (e : Z) (mu s : Q),
    step (computeAxis (Fin q)) = Fin s /\
    s == mu * Qpow10 e /\
    (mu == 1 \/ mu == 2.5 \/ mu == 5 \/ mu == 10) /\
    Qpow10 e <= q / 4 /\ q / 4 < Qpow10 (e + 1).
Proof.
  intros Hq.
  destruct (step_shape q Hq) as (e & mu & s & Hs & Hmu & Hcases & Hlo & Hhi & _).
  exists e, mu, s. rewrite Qpow10_succ. repeat split; assumption.
Qed.

(** X8: the fallback to 5000 is never taken.  For every number [m], finite
    or not, the product [Math.ceil(m / step) * step] is not [=== 0], so
    [niceMax] is that product. *)
Theorem niceMax_fallback_unreachable (m : number) :
  let s := step (computeAxis m) in
  strict_eq (mul (Math_ceil (div m s)) s) (ofZ 0) = false /\
  niceMax (computeAxis m) = mul (Math_ceil (div m s)) s.
Proof.
  cbv zeta.
  assert (Hgen : strict_eq (mul (Math_ceil (div m (step (computeAxis m))))
                                (step (computeAxis m))) (ofZ 0) = false ->
                 niceMax (computeAxis m)
                 = mul (Math_ceil (div m (step (computeAxis m))))
                       (step (computeAxis m))).
  { intros H. unfold computeAxis in *. cbv zeta in *. cbn [step niceMax] in *.
    rewrite H. reflexivity. }
  assert (Hz : strict_eq (mul (Math_ceil (div m (step (computeAxis m))))
                              (step (computeAxis m))) (ofZ 0) = false).
  { destruct m as [| | |q]; try reflexivity.
    destruct (Q_dec q 0) as [[Hneg|Hpos]|Hzero].
    - rewrite (computeAxis_negative q Hneg). reflexivity.
    - destruct (step_positive q Hpos) as (s & Hs & Hspos).
      destruct (niceMax_eq q Hpos s Hs Hspos) as [_ Hn].
      rewrite Hs, (div_Fin q s) by lra.
      cbn [Math_ceil]. unfold ofZ. cbn [mul].
      apply strict_eq_Fin_false. change (inject_Z 0) with 0. lra.
    - pose proof (niceMax_zero q Hzero) as Hn.
      unfold computeAxis in *. cbv zeta in *. cbn [step niceMax] in *.
      destruct (strict_eq _ (ofZ 0)) eqn:E; [discriminate Hn | reflexivity]. }
  split; [exact Hz | exact (Hgen Hz)].
Qed.

(** X9: [niceMax] is a number only for a positive finite maximum.  For
    zero, a negative value, an infinity or [NaN] (the maximum of an empty
    series is [-Infinity]) it is [NaN]. *)
Theorem niceMax_NaN_unless_positive (m : number) :
  (forall q, m = Fin q -> q <= 0) ->
  niceMax (computeAxis m) = NaN.
Proof.
  intros H. destruct m as [| | |q]; try reflexivity.
  specialize (H q eq_refl).
  destruct (Qlt_le_dec q 0) as [Hneg|Hnn].
  - rewrite (computeAxis_negative q Hneg). reflexivity.
  - apply niceMax_zero. lra.
Qed.

End AxisExtras.

Lemma niceMax_least_multiple_witness :
  (0 < 47750)%Q /\
  exists n s k,
    computeAxis (Fin 47750) = {| niceMax := Fin n; step := Fin s |} /\
    (0 < s)%Q /\ (0 < n)%Q /\ (n == inject_Z k * s)%Q /\
    (n - s < 47750)%Q /\ (47750 <= n)%Q.
Proof.
  split; [reflexivity|].
  apply (niceMax_least_multiple 47750). reflexivity.
Defined.

Lemma grid_interval_count_witness :
  (0 < 47750)%Q /\
  exists s k,
    step (computeAxis (Fin 47750)) = Fin s /\
    niceMax (computeAxis (Fin 47750)) = Fin (inject_Z k * s) /\
    (2 <= k <= 5)%Z.
Proof.
  split; [reflexivity|].
  apply (grid_interval_count 47750). reflexivity.
Defined.

Lemma step_is_nice_number_witness :
  (0 < 47750)%Q /\
  exists (e : Z) (mu s : Q),
    step (computeAxis (Fin 47750)) = Fin s /\
    (s == mu * Qpow10 e)%Q /\
    (mu == 1 \/ mu == 2.5 \/ mu == 5 \/ mu == 10)%Q /\
    (Qpow10 e <= 47750 / 4)%Q /\ (47750 / 4 < Qpow10 (e + 1))%Q.
Proof.
  split; [reflexivity|].
  apply (step_is_nice_number 47750). reflexivity.
Defined.

(** Witness of [niceMax_NaN_unless_positive]: the maximum of no sample. *)
Lemma niceMax_NaN_unless_positive_witness :
  maxUsageOf [] = NegInf /\ niceMax (computeAxis (maxUsageOf [])) = NaN.
Proof.
  split; [reflexivity|].
  apply (niceMax_NaN_unless_positive (maxUsageOf [])).
  intros q H. discriminate H.
Defined.

(** ** Grid lines *)

Module TickFacts.

Import NumberFacts AxisFacts.
Local Open Scope Q_scope.

Section Ticks.

Variables w h nm s : Q.
Variable K : Z.
Hypothesis s_pos : 0 < s.
Hypothesis K_pos : (0 < K)%Z.
Hypothesis nm_steps : nm == inject_Z K * s.

Local Abbreviation axis := {| niceMax := Fin nm; step := Fin s |}.

Lemma nm_pos : 0 < nm.
Proof.
  rewrite nm_steps. apply Qmult_lt_0_compat; [|exact s_pos].
  rewrite <- (Zlt_Qlt 0). exact K_pos.
Qed.

(** The [fuel] turns from tick [j] on, when they all fit under [niceMax]. *)
Lemma gridLoop_ticks (fuel : nat) :
  forall (v : Q) (j : Z),
    (0 <= j)%Z -> v == inject_Z j * s ->
    (j + Z.of_nat fuel <= K + 1)%Z ->
    List.length (gridLoop (Fin w) (Fin h) axis fuel (Fin v)) = fuel /\
    forall (i : nat) dflt, (i < fuel)%nat ->
      exists v', v' == inject_Z (j + Z.of_nat i) * s /\
        nth i (gridLoop (Fin w) (Fin h) axis fuel (Fin v)) dflt
        = (gridLineAt (Fin w) (Fin h) axis (Fin v'),
           yLabelAt (Fin h) axis (Fin v')).
Proof.
  induction fuel as [|fuel IH]; intros v j Hj Hv Hfit.
  - split; [reflexivity|]. intros i dflt Hi. lia.
  - cbn [gridLoop].
    assert (Hle : le (Fin v) (niceMax axis) = true).
    { apply le_Fin. rewrite Hv, nm_steps.
      apply Qmult_le_r; [exact s_pos|]. rewrite <- Zle_Qle. lia. }
    rewrite Hle. cbn [step add].
    assert (Hv' : v + s == inject_Z (j + 1) * s).
    { rewrite Hv, inject_Z_plus. change (inject_Z 1) with 1. ring. }
    destruct (IH (v + s) (j + 1)%Z ltac:(lia) Hv' ltac:(lia)) as [Hlen Hnth].
    split; [cbn [List.length]; rewrite Hlen; reflexivity|].
    intros i dflt Hi. destruct i as [|i].
    + exists v. split; [|reflexivity].
      rewrite Hv. cbn [Z.of_nat]. rewrite Z.add_0_r. reflexivity.
    + destruct (Hnth i dflt ltac:(lia)) as (v' & Ev' & Hn).
      exists v'. split; [|exact Hn].
      rewrite Ev'. replace (j + 1 + Z.of_nat i)%Z with (j + Z.of_nat (S i))%Z
        by lia. reflexivity.
Qed.

Lemma gridFuel_steps : gridFuel axis = S (Z.to_nat K).
Proof.
  unfold gridFuel. cbn [niceMax step].
  assert (Hs : ~ s == 0) by lra.
  rewrite (div_Fin nm s Hs).
  assert (E : nm / s == inject_Z K).
  { rewrite nm_steps. field. exact Hs. }
  rewrite E, Qfloor_Z. reflexivity.
Qed.

(** Where tick [v] is drawn. *)
Lemma tick_geometry (v : Q) (j : Z) :
  v == inject_Z j * s ->
  let line := gridLineAt (Fin w) (Fin h) axis (Fin v) in
  let text := yLabelAt (Fin h) axis (Fin v) in
  let y := 10 + (h - 35) * (1 - inject_Z j / inject_Z K) in
  is_fin (line_x1 line) 50 /\ is_fin (line_x2 line) (w - 10) /\
  is_fin (line_y1 line) y /\ is_fin (line_y2 line) y /\
  is_fin (text_x text) 40 /\ is_fin (text_y text) (y + 4) /\
  text_anchor text = AnchorEnd /\
  textContent text = formatNumber (Fin v).
Proof.
  intros Hv. cbv zeta.
  pose proof nm_pos as Hnm.
  assert (Hnz : ~ nm == 0) by lra.
  assert (HK : ~ inject_Z K == 0).
  { assert (0 < inject_Z K) by (rewrite <- (Zlt_Qlt 0); exact K_pos). lra. }
  assert (Hs : ~ s == 0) by lra.
  unfold gridLineAt, yLabelAt, yScale.
  cbn [line_x1 line_x2 line_y1 line_y2 text_x text_y text_anchor textContent
       niceMax].
  change (chartHeight (Fin h)) with (Fin (h + - 10 + - 25)).
  rewrite (div_Fin v nm Hnz).
  unfold ofZ. cbn [left right top margin mul add sub neg is_fin ofZ].
  assert (Ey : 10 + (h + - 10 + - 25 + - (v / nm * (h + - 10 + - 25)))
               == 10 + (h - 35) * (1 - inject_Z j / inject_Z K)).
  { rewrite Hv, nm_steps. change (inject_Z 10) with 10.
    change (inject_Z 25) with 25. field. split; assumption. }
  change (inject_Z 10) with 10 in *. change (inject_Z 50) with 50.
  change (inject_Z 4) with 4.
  split; [reflexivity|]. split; [ring|]. split; [exact Ey|].
  split; [exact Ey|]. split; [reflexivity|].
  split; [rewrite Ey; reflexivity|]. split; reflexivity.
Qed.

End Ticks.

End TickFacts.

(** X10: the grid of a positive maximum.  With [niceMax = k * step], the
    loop draws [k + 1] grid lines, one per multiple [j * step] of the step
    from 0 to [niceMax] inclusive.  Line [j] runs from the left margin to
    the right margin at height [10 + (h - 35) * (1 - j / k)], so the line of
    0 is the bottom edge of the chart and the line of [niceMax] its top
    edge; its label is [formatNumber] of the value, right-aligned at
    [x = 40], four units below the line. *)
Theorem grid_ticks_geometry (w h q : Q) :
  (0 < q)%Q ->
  exists (s : Q) (k : Z),
    step (computeAxis (Fin q)) = Fin s /\
    niceMax (computeAxis (Fin q)) = Fin (inject_Z k * s) /\
    List.length (gridTicks (Fin w) (Fin h) (computeAxis (Fin q)))
    = S (Z.to_nat k) /\
    forall (j : Z) dflt, (0 <= j <= k)%Z ->
      let tick := nth (Z.to_nat j)
                      (gridTicks (Fin w) (Fin h) (computeAxis (Fin q))) dflt in
      let y := (10 + (h - 35) * (1 - inject_Z j / inject_Z k))%Q in
      is_fin (line_x1 (fst tick)) 50 /\
      is_fin (line_x2 (fst tick)) (w - 10) /\
      is_fin (line_y1 (fst tick)) y /\
      is_fin (line_y2 (fst tick)) y /\
      is_fin (text_x (snd tick)) 40 /\
      is_fin (text_y (snd tick)) (y + 4) /\
      text_anchor (snd tick) = AnchorEnd /\
      exists v, (v == inject_Z j * s)%Q /\
                textContent (snd tick) = formatNumber (Fin v).
Proof.
  intros Hq.
  destruct (AxisShape.step_shape q Hq)
    as (e & mu & s & Hs & _ & _ & _ & _ & Hpos & Hlt & Hle).
  destruct (AxisShape.steps_to_niceMax q s Hq Hs Hpos Hlt Hle)
    as (Hn & Hk & _).
  set (k := Qceiling (q / s)) in *.
  exists s, k. split; [exact Hs|]. split; [exact Hn|].
  assert (Hax : computeAxis (Fin q)
                = {| niceMax := Fin (inject_Z k * s); step := Fin s |}).
  { destruct (computeAxis (Fin q)) as [nm st]. cbn [step niceMax] in *.
    congruence. }
  rewrite Hax. unfold gridTicks.
  assert (HK : (0 < k)%Z) by lia.
  rewrite (TickFacts.gridFuel_steps (inject_Z k * s) s k Hpos (Qeq_refl _)).
  destruct (TickFacts.gridLoop_ticks w h (inject_Z k * s) s k Hpos
              (Qeq_refl _) (S (Z.to_nat k)) (inject_Z 0) 0%Z)
    as [Hlen Hnth].
  { lia. }
  { change (inject_Z 0) with 0%Q. ring. }
  { lia. }
  split; [exact Hlen|].
  intros j dflt Hj. cbv zeta.
  destruct (Hnth (Z.to_nat j) dflt ltac:(lia)) as (v & Ev & Hn').
  rewrite Z.add_0_l, Z2Nat.id in Ev by lia.
  change (ofZ 0) with (Fin (inject_Z 0)). rewrite Hn'. cbn [fst snd].
  destruct (TickFacts.tick_geometry w h (inject_Z k * s) s k Hpos HK
              (Qeq_refl _) v j Ev)
    as (H1 & H2 & H3 & H4 & H5 & H6 & H7 & H8).
  repeat split; try assumption.
  exists v. split; assumption.
Qed.

Lemma grid_ticks_geometry_witness :
  (0 < 47750)%Q /\
  exists (s : Q) (k : Z),
    step (computeAxis (Fin 47750)) = Fin s /\
    niceMax (computeAxis (Fin 47750)) = Fin (inject_Z k * s) /\
    List.length (gridTicks (Fin 800) (Fin 300) (computeAxis (Fin 47750)))
    = S (Z.to_nat k).
Proof.
  split; [reflexivity|].
  destruct (grid_ticks_geometry 800 300 47750 ltac:(reflexivity))
    as (s & k & Hs & Hn & Hlen & _).
  exists s, k. split; [exact Hs|]. split; [exact Hn | exact Hlen].
Defined.

(** ** Bars *)

Module BarFacts.

Import NumberFacts AxisFacts.
Local Open Scope Q_scope.

Lemma Math_max2_ofZ (a b : Z) :
  Math_max2 (ofZ a) (ofZ b) = ofZ (Z.max a b).
Proof.
  unfold Math_max2, ofZ.
  destruct (lt (Fin (inject_Z a)) (Fin (inject_Z b))) eqn:E.
  - apply lt_Fin in E. rewrite <- Zlt_Qlt in E.
    rewrite Z.max_r by lia. reflexivity.
  - apply lt_Fin_false in E. rewrite <- Zle_Qle in E.
    rewrite Z.max_l by lia. reflexivity.
Qed.

Lemma fold_max_ofZ (l : list Sample) :
  forall a : Z,
    fold_left Math_max2 (map (fun d => ofZ (usage d)) l) (ofZ a)
    = ofZ (fold_left Z.max (map usage l) a).
Proof.
  induction l as [|d l IH]; intros a; cbn [map fold_left].
  - reflexivity.
  - rewrite Math_max2_ofZ. apply IH.
Qed.

Lemma fold_Zmax_spec (l : list Z) :
  forall a : Z,
    let M := fold_left Z.max l a in
    (a <= M)%Z /\ (forall u, In u l -> (u <= M)%Z) /\ (M = a \/ In M l).
Proof.
  induction l as [|u l IH]; intros a; cbn [fold_left].
  - cbv zeta. split; [lia|]. split; [intros u []| left; reflexivity].
  - specialize (IH (Z.max a u)). cbv zeta in *.
    destruct IH as (H1 & H2 & H3).
    split; [lia|]. split.
    + intros v [<-|Hv]; [lia | exact (H2 v Hv)].
    + destruct H3 as [H3|H3]; [|right; right; exact H3].
      destruct (Z.max_spec a u) as [[_ E]|[_ E]].
      * right. left. rewrite H3. symmetry. exact E.
      * left. rewrite H3. exact E.
Qed.

(** The maximum of a series that is not empty: the usage of one of its
    samples, and not below any. *)
Lemma maxUsageOf_spec (data : list Sample) :
  data <> [] ->
  exists M : Z,
    maxUsageOf data = ofZ M /\
    (forall d, In d data -> (usage d <= M)%Z) /\
    (exists d, In d data /\ usage d = M).
Proof.
  intros Hne. destruct data as [|d0 rest]; [congruence|].
  unfold maxUsageOf, Math_max. cbn [map fold_left].
  change (Math_max2 NegInf (ofZ (usage d0))) with (ofZ (usage d0)).
  rewrite fold_max_ofZ.
  pose proof (fold_Zmax_spec (map usage rest) (usage d0)) as H.
  cbv zeta in H. destruct H as (H1 & H2 & H3).
  exists (fold_left Z.max (map usage rest) (usage d0)).
  split; [reflexivity|]. split.
  - intros d [<-|Hd]; [exact H1|]. apply H2. apply in_map. exact Hd.
  - destruct H3 as [H3|H3].
    + exists d0. split; [left; reflexivity | symmetry; exact H3].
    + apply in_map_iff in H3. destruct H3 as (d & Hd & Hin).
      exists d. split; [right; exact Hin | exact Hd].
Qed.

Section Slot.

Variables (w : Q) (n : nat).
Hypothesis n_pos : (0 < n)%nat.
Hypothesis w_wide : 60 < w.

Local Abbreviation N := (inject_Z (Z.of_nat n)).
Local Abbreviation slot := ((w - 60) / N).

Lemma barWidth_cases :
  exists bw, barWidth (Fin w) n = Fin bw /\
             0 < bw /\ bw <= 80 /\ bw <= 0.98 * slot /\
             (bw == 80 \/ bw == 0.98 * slot).
Proof.
  pose proof (ZoneFacts.slot_positive w n n_pos w_wide) as Hslot.
  pose proof (ZoneFacts.slot_eq w n n_pos) as E.
  unfold barWidth. cbv zeta.
  rewrite (ZoneFacts.totalBarWidth_Fin w n n_pos).
  change (sub (ofZ 1) barGapPct) with (Fin (inject_Z 1 + - 0.02)).
  cbn [mul]. unfold gt.
  set (tw := (w + - 50 + - 10) / N) in *.
  destruct (lt (ofZ 80) (Fin (tw * (inject_Z 1 + - 0.02)))) eqn:L.
  - apply lt_Fin in L. change (inject_Z 80) with 80 in L.
    change (inject_Z 1) with 1 in L.
    exists (inject_Z 80). change (inject_Z 80) with 80.
    split; [reflexivity|]. split; [reflexivity|].
    split; [discriminate|]. split; [lra | left; reflexivity].
  - apply lt_Fin_false in L. change (inject_Z 80) with 80 in L.
    change (inject_Z 1) with 1 in *.
    exists (tw * (1 + - 0.02)).
    split; [reflexivity|]. split; [lra|]. split; [exact L|].
    split; [lra | right; lra].
Qed.

Lemma barX_centred (i : nat) (bw : Q) :
  barWidth (Fin w) n = Fin bw ->
  is_fin (barX (Fin w) n i)
         (50 + inject_Z (Z.of_nat i) * slot + (slot - bw) / 2).
Proof.
  intros Hbw. pose proof (ZoneFacts.slot_eq w n n_pos) as E.
  unfold barX, actualGap, slotX. rewrite Hbw.
  rewrite (ZoneFacts.totalBarWidth_Fin w n n_pos).
  unfold ofZ. cbn [left margin mul add sub neg ofZ].
  rewrite (div_Fin _ (inject_Z 2)) by discriminate.
  cbn [add is_fin]. rewrite E.
  change (inject_Z 50) with 50. change (inject_Z 2) with 2. field.
  exact (ZoneFacts.N_nonzero n n_pos).
Qed.

End Slot.

End BarFacts.

(** X11: in a chart wider than its margins every bar lies inside its slot
    and in the middle of it.  The bar is 98% of the slot wide, or 80 units
    when that would be more; the space left over is split evenly between
    the two sides, so a bar never touches its neighbours. *)
Theorem bar_centred_in_slot (w : Q) (n i : nat) :
  (60 < w)%Q -> (0 < n)%nat ->
  let slot := ((w - 60) / inject_Z (Z.of_nat n))%Q in
  let sx := (50 + inject_Z (Z.of_nat i) * slot)%Q in
  exists bw bx,
    barWidth (Fin w) n = Fin bw /\
    is_fin (barX (Fin w) n i) bx /\
    (0 < bw)%Q /\ (bw <= 80)%Q /\
    (bw == 80 \/ bw == 0.98 * slot)%Q /\
    (bx - sx == sx + slot - (bx + bw))%Q /\
    (sx < bx)%Q /\ (bx + bw < sx + slot)%Q.
Proof.
  intros Hw Hn. cbv zeta.
  destruct (BarFacts.barWidth_cases w n Hn Hw) as (bw & Hbw & Hpos & H80 & H98 & Hc).
  pose proof (ZoneFacts.slot_positive w n Hn Hw) as Hslot.
  set (slot := ((w - 60) / inject_Z (Z.of_nat n))%Q) in *.
  exists bw, (50 + inject_Z (Z.of_nat i) * slot + (slot - bw) / 2)%Q.
  split; [exact Hbw|].
  split; [exact (BarFacts.barX_centred w n Hn i bw Hbw)|].
  split; [exact Hpos|]. split; [exact H80|]. split; [exact Hc|].
  set (sx := (50 + inject_Z (Z.of_nat i) * slot)%Q).
  assert (Hhalf : ((slot - bw) / 2 == (slot - bw) * (1 # 2))%Q) by field.
  split; [rewrite Hhalf; ring|].
  split; rewrite Hhalf; lra.
Qed.

Lemma bar_centred_in_slot_witness :
  (60 < 800)%Q /\ (0 < 30)%nat /\
  exists bw bx,
    barWidth (Fin 800) 30 = Fin bw /\
    is_fin (barX (Fin 800) 30 3) bx /\
    (0 < bw)%Q /\ (bw <= 80)%Q.
Proof.
  split; [reflexivity|]. split; [lia|].
  destruct (bar_centred_in_slot 800 30 3 ltac:(reflexivity) ltac:(lia))
    as (bw & bx & H1 & H2 & H3 & H4 & _).
  exists bw, bx. split; [exact H1|]. split; [exact H2|].
  split; [exact H3 | exact H4].
Defined.

(** X12: bars stay inside the chart.  For a series with no negative value
    and a positive maximum, in a rectangle at least as high as the vertical
    margins, every bar has a height between 0 and the chart height and
    stands on the bottom edge of the chart; the series has a largest
    value, and the bar of every sample that carries it is at least half as
    high as the chart. *)
Theorem bars_within_chart (h : Q) (data : list Sample) :
  (35 <= h)%Q ->
  (forall d, In d data -> 0 <= usage d) ->
  (exists d, In d data /\ 0 < usage d) ->
  let axis := computeAxis (maxUsageOf data) in
  (forall d, In d data ->
     exists bh,
       barH (Fin h) axis d = Fin bh /\
       (0 <= bh)%Q /\ (bh <= h - 35)%Q /\
       is_fin (add (barY (Fin h) axis d)
                   (Math_max2 (ofZ 0) (barH (Fin h) axis d)))
              (h - 25)) /\
  (exists d, In d data /\ forall d', In d' data -> usage d' <= usage d) /\
  (forall d, In d data ->
     (forall d', In d' data -> usage d' <= usage d) ->
     exists bh, barH (Fin h) axis d = Fin bh /\ ((h - 35) / 2 <= bh)%Q).
Proof.
  intros Hh Hnn (d1 & Hd1 & Hpos1). cbv zeta.
  assert (Hne : data <> []) by (intros E; rewrite E in Hd1; exact Hd1).
  destruct (BarFacts.maxUsageOf_spec data Hne) as (M & HM & Hle & (dM & HdM & EM)).
  assert (HMpos : 0 < M) by (specialize (Hle d1 Hd1); lia).
  rewrite HM. change (ofZ M) with (Fin (inject_Z M)).
  assert (Hq : (0 < inject_Z M)%Q) by (rewrite <- (Zlt_Qlt 0); exact HMpos).
  destruct (AxisShape.step_shape (inject_Z M) Hq)
    as (e & mu & s & Hs & _ & _ & _ & _ & Hspos & Hlt & Hle5).
  destruct (AxisShape.steps_to_niceMax (inject_Z M) s Hq Hs Hspos Hlt Hle5)
    as (Hn & Hk & Hlo & Hhi).
  set (k := Qceiling (inject_Z M / s)) in *.
  set (n := (inject_Z k * s)%Q) in *.
  assert (Hnpos : (0 < n)%Q) by lra.
  assert (Hnz : ~ (n == 0)%Q) by lra.
  assert (Hch : (0 <= h + - 10 + - 25)%Q) by lra.
  assert (HbarH : forall d,
            barH (Fin h) (computeAxis (Fin (inject_Z M))) d
            = Fin (inject_Z (usage d) / n * (h + - 10 + - 25))).
  { intros d. unfold barH. rewrite Hn. unfold ofZ.
    rewrite (NumberFacts.div_Fin _ n Hnz). reflexivity. }
  split.
  - intros d Hd. exists (inject_Z (usage d) / n * (h + - 10 + - 25))%Q.
    assert (Hu0 : (0 <= inject_Z (usage d))%Q).
    { rewrite <- (Zle_Qle 0). exact (Hnn d Hd). }
    assert (HuM : (inject_Z (usage d) <= inject_Z M)%Q).
    { rewrite <- Zle_Qle. exact (Hle d Hd). }
    assert (Hr0 : (0 <= inject_Z (usage d) / n)%Q).
    { apply Qle_shift_div_l; [exact Hnpos | lra]. }
    assert (Hr1 : (inject_Z (usage d) / n <= 1)%Q).
    { apply Qle_shift_div_r; [exact Hnpos | lra]. }
    assert (Hb0 : (0 <= inject_Z (usage d) / n * (h + - 10 + - 25))%Q).
    { apply Qmult_le_0_compat; assumption. }
    assert (Hb1 : (inject_Z (usage d) / n * (h + - 10 + - 25)
                   <= h - 35)%Q).
    { apply (Qmult_le_compat_r _ _ (h + - 10 + - 25)) in Hr1; [|exact Hch].
      lra. }
    split; [exact (HbarH d)|]. split; [exact Hb0|]. split; [exact Hb1|].
    unfold barY. rewrite (HbarH d).
    change (chartHeight (Fin h)) with (Fin (h + - 10 + - 25)).
    unfold Math_max2, ofZ. cbn [top margin sub add neg].
    destruct (lt (Fin (inject_Z 0)) _) eqn:L; cbn [add is_fin ofZ].
    + change (inject_Z 10) with 10%Q. ring.
    + apply NumberFacts.lt_Fin_false in L.
      change (inject_Z 0) with 0%Q in *. change (inject_Z 10) with 10%Q. lra.
  - split.
    { exists dM. split; [exact HdM|].
      intros d' Hd'. rewrite EM. exact (Hle d' Hd'). }
    intros d Hd Hmax.
    assert (Ed : usage d = M).
    { pose proof (Hle d Hd). pose proof (Hmax dM HdM). lia. }
    exists (inject_Z (usage d) / n * (h + - 10 + - 25))%Q.
    split; [exact (HbarH d)|].
    rewrite Ed.
    assert (Hk2 : (2 * s <= n)%Q).
    { unfold n. apply Qmult_le_r; [exact Hspos|].
      change 2%Q with (inject_Z 2). rewrite <- Zle_Qle. lia. }
    assert (Hhalf : ((1 # 2) <= inject_Z M / n)%Q).
    { apply Qle_shift_div_l; [exact Hnpos | lra]. }
    apply (Qmult_le_compat_r _ _ (h + - 10 + - 25)) in Hhalf; [|exact Hch].
    assert (E2 : ((h - 35) / 2 == (1 # 2) * (h + - 10 + - 25))%Q) by field.
    rewrite E2. exact Hhalf.
Qed.

(** Witness of [bars_within_chart]: three days ending on 14 September
    2024, whose last sample carries the largest value, 47750. *)
Lemma bars_within_chart_witness :
  let data := generateMockData sampleSin 0 1726326000000 3 in
  let d := sampleAt sampleSin 0 1726326000000 0 in
  In d data /\
  (forall d', In d' data -> usage d' <= usage d) /\
  exists bh,
    barH (Fin 300) (computeAxis (maxUsageOf data)) d = Fin bh /\
    ((300 - 35) / 2 <= bh)%Q.
Proof.
  cbv zeta.
  assert (E : generateMockData sampleSin 0 1726326000000 3
              = [sampleAt sampleSin 0 1726326000000 2;
                 sampleAt sampleSin 0 1726326000000 1;
                 sampleAt sampleSin 0 1726326000000 0])
    by (vm_compute; reflexivity).
  assert (Hin : In (sampleAt sampleSin 0 1726326000000 0)
                   (generateMockData sampleSin 0 1726326000000 3))
    by generated.
  assert (Hmax : forall d',
            In d' (generateMockData sampleSin 0 1726326000000 3) ->
            usage d' <= usage (sampleAt sampleSin 0 1726326000000 0)).
  { rewrite E. intros d' [<-|[<-|[<-|[]]]]; vm_compute; discriminate. }
  split; [exact Hin|]. split; [exact Hmax|].
  apply (bars_within_chart 300 (generateMockData sampleSin 0 1726326000000 3)).
  - discriminate.
  - rewrite E. intros d' [<-|[<-|[<-|[]]]]; vm_compute; discriminate.
  - exists (sampleAt sampleSin 0 1726326000000 0).
    split; [exact Hin | vm_compute; reflexivity].
  - exact Hin.
  - exact Hmax.
Defined.

(** ** The outline of a bar *)

Section Outline.

Import NumberFacts Page.
Local Open Scope Q_scope.

Variables x y bh w : Q.
Hypothesis bh_nonneg : 0 <= bh.

Lemma clamped_height :
  exists hv, Math_max2 (ofZ 0) (Fin bh) = Fin hv /\ hv == bh.
Proof.
  unfold Math_max2, ofZ.
  destruct (lt (Fin (inject_Z 0)) (Fin bh)) eqn:L.
  - exists bh. split; reflexivity.
  - apply lt_Fin_false in L. change (inject_Z 0) with 0 in *.
    exists 0. split; [reflexivity | lra].
Qed.

(** X13: both outlines cover the same box.  The path of a bar starts at
    the bottom left corner [(x, y + h)], reaches the top at [y], comes down
    to the bottom right corner [(x + w, y + h)] and closes back to the
    start.  The plain rectangle visits the two top corners; the rounded
    outline leaves each top corner out by the radius 4 on either side. *)
Theorem outline_vertices :
  let pts := vertices (pathD (Fin x) (Fin y) (Fin bh) (Fin w)) in
  (bh < 4 ->
   Forall2 at_point pts
     [ (x, y + bh); (x, y); (x + w, y); (x + w, y + bh); (x, y + bh) ]) /\
  (4 <= bh ->
   Forall2 at_point pts
     [ (x, y + bh); (x, y + 4); (x + 4, y); (x + w - 4, y);
       (x + w, y + 4); (x + w, y + bh); (x, y + bh) ]).
Proof.
  cbv zeta. unfold pathD. cbv zeta.
  destruct clamped_height as (hv & -> & Ehv).
  unfold cornerRadius, ofZ. change (inject_Z 4) with 4.
  split; intros Hbh.
  - assert (L : lt (Fin hv) (Fin 4) = true) by (apply lt_Fin; lra).
    rewrite L. unfold vertices, ofZ.
    cbn [pathPoints moveBy fst snd add neg].
    repeat (apply Forall2_cons; [split|]); try apply Forall2_nil;
      unfold moveBy, ofZ; cbn [fst snd add neg is_fin];
      change (inject_Z 0) with 0; rewrite ?Ehv; ring.
  - assert (L : lt (Fin hv) (Fin 4) = false) by (apply lt_Fin_false; lra).
    rewrite L. unfold vertices, ofZ.
    cbn [pathPoints moveBy fst snd add sub neg mul].
    repeat (apply Forall2_cons; [split|]); try apply Forall2_nil;
      unfold moveBy, ofZ; cbn [fst snd add neg is_fin];
      change (inject_Z 0) with 0; change (inject_Z 2) with 2;
      rewrite ?Ehv; ring.
Qed.

End Outline.

Lemma outline_vertices_witness :
  (0 <= 50)%Q /\ (4 <= 50)%Q /\
  Forall2 Page.at_point
    (Page.vertices (pathD (Fin 70) (Fin 100) (Fin 50) (Fin 80)))
    [ (70, 100 + 50); (70, 100 + 4); (70 + 4, 100); (70 + 80 - 4, 100);
      (70 + 80, 100 + 4); (70 + 80, 100 + 50); (70, 100 + 50) ]%Q.
Proof.
  split; [discriminate|]. split; [discriminate|].
  apply (proj2 (outline_vertices 70 100 50 80 ltac:(discriminate))).
  discriminate.
Defined.

(** ** X axis labels *)

Module LabelFacts.

Local Open Scope Z_scope.


Section Count.

Variables width height : number.
Variable axis : AxisSpec.
Variable count : nat.
Variable range : Z.



End Count.


End LabelFacts.



(** ** Rendering and [update] as a whole *)

(** X15: a render replaces the drawing.  The result of [renderChart] does
    not depend on what the container held or on the rectangle of an earlier
    render: rendering again gives the same state as rendering once, the
    container never holds more than one [svg], and the range and the data
    are never changed. *)
Theorem renderChart_replaces_drawing (w h w' h' : number) (st : State) :
  renderChart w h (renderChart w' h' st) = renderChart w h st /\
  (List.length (container (renderChart w h st)) <= 1)%nat /\
  currentRange (renderChart w h st) = currentRange st /\
  chartData (renderChart w h st) = chartData st.
Proof.
  assert (Hr : forall a b, currentRange (renderChart a b st) = currentRange st).
  { intros a b. unfold renderChart.
    destruct (strict_eq a (ofZ 0) || strict_eq b (ofZ 0)); reflexivity. }
  assert (Hd : forall a b, chartData (renderChart a b st) = chartData st).
  { intros a b. unfold renderChart.
    destruct (strict_eq a (ofZ 0) || strict_eq b (ofZ 0)); reflexivity. }
  split; [|split; [|split; [apply Hr | apply Hd]]].
  - unfold renderChart at 1. rewrite (Hr w' h'), (Hd w' h').
    unfold renderChart. reflexivity.
  - unfold renderChart.
    destruct (strict_eq w (ofZ 0) || strict_eq h (ofZ 0)); cbn; lia.
Qed.

(** X16: [update] with a positive range whose dates are all valid.  The
    call does not throw; afterwards the range is the one asked for, the
    series has that many samples, and the chart holds one cursor and one
    bar for each of them; none of this depends on the state before, so a
    second [update] discards the first. *)
Theorem update_positive_range (Math_sin : Z -> Q) (LocalTZA : Zone)
    (today : Z) (w h : number) (range : Z) (st st' : State) :
  (0 < range)%Z ->
  datesValid LocalTZA today range ->
  strict_eq w (ofZ 0) = false ->
  strict_eq h (ofZ 0) = false ->
  let after := update Math_sin LocalTZA today w h range st in
  update_call Math_sin LocalTZA today w h range st = (after, None) /\
  currentRange after = range /\
  List.length (chartData after) = Z.to_nat range /\
  (exists svg, container after = [svg] /\
     List.length (cursors svg) = Z.to_nat range /\
     List.length (bars svg) = Z.to_nat range) /\
  update Math_sin LocalTZA today w h range st' = after.
Proof.
  intros Hrange Hvalid Hw Hh. cbv zeta.
  destruct (GeneratorFacts.generateMockData_Returned
              LocalTZA Math_sin today range Hvalid) as [Hcall Hlen].
  split; [unfold update_call; rewrite Hcall; reflexivity|].
  unfold update.
  set (fresh := fun c =>
         {| currentRange := range;
            chartData := generateMockData Math_sin LocalTZA today range;
            container := c |}).
  assert (Hind : renderChart w h (fresh (container st'))
                 = renderChart w h (fresh (container st)))
    by (unfold renderChart, fresh; reflexivity).
  destruct (RenderFacts.renderChart_draws w h (fresh (container st)) Hw Hh)
    as (svg & Hr & Hc & Hb).
  fold (fresh (container st)). fold (fresh (container st')).
  rewrite Hind, Hr. cbn [currentRange chartData container fresh].
  split; [reflexivity|]. split; [exact Hlen|]. split.
  - exists svg. split; [reflexivity|].
    cbn [chartData fresh] in Hc, Hb. rewrite Hc, Hb.
    rewrite !length_map, length_combine, length_seq, Hlen. lia.
  - reflexivity.
Qed.

Lemma update_positive_range_witness :
  let after := update sampleSin 0 1726326000000 (ofZ 800) (ofZ 300) 7
                      initialState in
  currentRange after = 7%Z /\ List.length (chartData after) = 7%nat.
Proof.
  cbv zeta.
  assert (Hvalid : datesValid 0 1726326000000 7)
    by (apply GeneratorFacts.datesValid_fixed; unfold msPerDay; lia).
  destruct (update_positive_range sampleSin 0 1726326000000 (ofZ 800)
              (ofZ 300) 7 initialState initialState
              eq_refl Hvalid eq_refl eq_refl) as (_ & H1 & H2 & _).
  split; [exact H1 | exact H2].
Defined.

(** X17: [update] with a range that is not positive does not fail: the
    series is empty and the chart is drawn with nothing in it, no cursor,
    no grid line, no bar and no label. *)
Theorem update_nonpositive_range (Math_sin : Z -> Q) (LocalTZA : Zone)
    (today : Z) (w h : number) (range : Z) (st : State) :
  (range <= 0)%Z ->
  strict_eq w (ofZ 0) = false ->
  strict_eq h (ofZ 0) = false ->
  update Math_sin LocalTZA today w h range st
  = {| currentRange := range;
       chartData := [];
       container := [ {| svg_width := w; svg_height := h;
                         cursors := []; grid := []; bars := [];
                         labels := [] |} ] |}.
Proof.
  intros Hrange Hw Hh. unfold update, generateMockData, generateMockData_call.
  replace (Z.to_nat range) with 0%nat by lia.
  cbn [generateLoop]. unfold renderChart.
  cbn [currentRange chartData container]. rewrite Hw, Hh.
  reflexivity.
Qed.

Lemma update_nonpositive_range_witness :
  container (update sampleSin 0 1726326000000 (ofZ 800) (ofZ 300) 0
                    initialState)
  = [ {| svg_width := ofZ 800; svg_height := ofZ 300;
         cursors := []; grid := []; bars := []; labels := [] |} ].
Proof.
  rewrite (update_nonpositive_range sampleSin 0 1726326000000 (ofZ 800)
             (ofZ 300) 0 initialState ltac:(discriminate) eq_refl eq_refl).
  reflexivity.
Defined.

(** ** Number formats *)

Section FormatNumber.

Import NumberFacts.
Local Open Scope Q_scope.

Lemma toFixed0_bounds (x : Q) :
  let k := Qfloor (x + (1 # 2)) in
  inject_Z k - (1 # 2) <= x /\ x < inject_Z k + (1 # 2).
Proof.
  cbv zeta.
  pose proof (Qfloor_le (x + (1 # 2))) as Hlo.
  pose proof (Qlt_floor (x + (1 # 2))) as Hhi.
  rewrite inject_Z_plus in Hhi. change (inject_Z 1) with 1 in Hhi.
  split; lra.
Qed.

(** X18: [formatNumber] keeps a finite value below 1000 as it is and
    prints a value from 1000 on as a whole number of thousands, the nearest
    one, with a half rounded up; whole thousands are printed exactly. *)
Theorem formatNumber_rounds (q : Q) :
  (q < 1000 -> formatNumber (Fin q) = Digits (Fin q)) /\
  (1000 <= q ->
   exists k : Z,
     formatNumber (Fin q) = Thousands (ofZ k) /\ (1 <= k)%Z /\
     inject_Z k - (1 # 2) <= q / 1000 /\ q / 1000 < inject_Z k + (1 # 2)) /\
  (forall k : Z, q == inject_Z (1000 * k) -> (1 <= k)%Z ->
     formatNumber (Fin q) = Thousands (ofZ k)).
Proof.
  assert (Hthousands : 1000 <= q ->
            formatNumber (Fin q)
            = Thousands (ofZ (Qfloor (q / 1000 + (1 # 2))))).
  { intros Hq. unfold formatNumber, ge.
    assert (L : le (ofZ 1000) (Fin q) = true) by (apply le_Fin; exact Hq).
    rewrite L. unfold ofZ. rewrite (div_Fin q (inject_Z 1000)) by discriminate.
    reflexivity. }
  split; [|split].
  - intros Hq. unfold formatNumber, ge.
    assert (L : le (ofZ 1000) (Fin q) = false) by (apply le_Fin_false; exact Hq).
    rewrite L. reflexivity.
  - intros Hq. exists (Qfloor (q / 1000 + (1 # 2))).
    split; [exact (Hthousands Hq)|].
    pose proof (toFixed0_bounds (q / 1000)) as [Hlo Hhi].
    split; [|split; assumption].
    assert (H1 : 1 <= q / 1000).
    { apply Qle_shift_div_l; [reflexivity | lra]. }
    pose proof (Qfloor_resp_le (inject_Z 1) (q / 1000 + (1 # 2))) as Hf.
    rewrite Qfloor_Z in Hf. apply Hf. change (inject_Z 1) with 1. lra.
  - intros k Hk Hk1.
    assert (Hq : 1000 <= q).
    { rewrite Hk, inject_Z_mult. change (inject_Z 1000) with 1000.
      assert (1 <= inject_Z k) by (change 1 with (inject_Z 1);
                                    rewrite <- Zle_Qle; exact Hk1).
      lra. }
    rewrite (Hthousands Hq). f_equal. f_equal.
    pose proof (toFixed0_bounds (q / 1000)) as [Hlo Hhi].
    assert (E : q / 1000 == inject_Z k).
    { rewrite Hk, inject_Z_mult. change (inject_Z 1000) with 1000. field. }
    set (k' := Qfloor (q / 1000 + (1 # 2))) in *.
    assert (H1 : inject_Z k' < inject_Z (k + 1)).
    { rewrite inject_Z_plus. change (inject_Z 1) with 1. lra. }
    assert (H2 : inject_Z k < inject_Z (k' + 1)).
    { rewrite inject_Z_plus. change (inject_Z 1) with 1. lra. }
    rewrite <- Zlt_Qlt in H1, H2. lia.
Qed.

End FormatNumber.

(** Witness of [formatNumber_rounds]: 1500 is printed as two thousands,
    25000 as twenty-five. *)
Lemma formatNumber_rounds_witness :
  formatNumber (Fin 25000) = Thousands (ofZ 25) /\
  exists k : Z,
    formatNumber (Fin 1500) = Thousands (ofZ k) /\ (1 <= k)%Z /\
    (inject_Z k - (1 # 2) <= 1500 / 1000)%Q /\
    (1500 / 1000 < inject_Z k + (1 # 2))%Q.
Proof.
  split.
  - apply (proj2 (proj2 (formatNumber_rounds 25000)) 25%Z);
      [reflexivity | discriminate].
  - apply (proj1 (proj2 (formatNumber_rounds 1500))). discriminate.
Defined.

Module GroupFacts.

Import Page.

Definition notComma (c : ascii) : bool := negb (Ascii.eqb c ","%char).

Lemma groupReversed_short (l : list ascii) :
  (List.length l <= 3)%nat -> groupReversed l = l.
Proof.
  destruct l as [|a [|b [|c [|d r]]]]; cbn [List.length]; try reflexivity.
  lia.
Qed.

Lemma groupReversed_long (a b c d : ascii) (r : list ascii) :
  groupReversed (a :: b :: c :: d :: r)
  = a :: b :: c :: ","%char :: groupReversed (d :: r).
Proof. reflexivity. Qed.

(** Induction three digits at a time. *)
Lemma by_threes (P : list ascii -> Prop) :
  (forall l, (List.length l <= 3)%nat -> P l) ->
  (forall a b c d r, P (d :: r) -> P (a :: b :: c :: d :: r)) ->
  forall l, P l.
Proof.
  intros Hshort Hlong l.
  assert (H : forall n l, (List.length l <= n)%nat -> P l).
  { clear l. induction n as [|n IH]; intros l Hl.
    - apply Hshort. lia.
    - destruct l as [|a [|b [|c [|d r]]]];
        try (apply Hshort; cbn [List.length]; lia).
      apply Hlong. apply IH. cbn [List.length] in *. lia. }
  exact (H (List.length l) l (Nat.le_refl _)).
Qed.

Lemma filter_groupReversed (l : list ascii) :
  filter notComma (groupReversed l) = filter notComma l.
Proof.
  induction l as [l Hl | a b c d r IH] using by_threes.
  - rewrite groupReversed_short by assumption. reflexivity.
  - rewrite groupReversed_long. cbn [filter].
    change (notComma ","%char) with false. cbv iota.
    rewrite IH. reflexivity.
Qed.

Lemma length_groupReversed (l : list ascii) :
  List.length (groupReversed l)
  = (List.length l + (List.length l - 1) / 3)%nat.
Proof.
  induction l as [l Hl | a b c d r IH] using by_threes.
  - rewrite groupReversed_short by assumption.
    destruct l as [|a [|b [|c [|d r]]]]; cbn [List.length] in *;
      try reflexivity. lia.
  - rewrite groupReversed_long. cbn [List.length] in *. rewrite IH.
    replace (S (S (S (S (List.length r)))) - 1)%nat
      with (List.length r + 1 * 3)%nat by lia.
    rewrite Nat.div_add by discriminate.
    replace (S (List.length r) - 1)%nat with (List.length r) by lia.
    lia.
Qed.

(** Every fourth place is a comma; the other places hold the digits in
    order. *)
Lemma nth_groupReversed (dflt : ascii) (l : list ascii) :
  forall p, (p < List.length (groupReversed l))%nat ->
    nth p (groupReversed l) dflt
    = if (p mod 4 =? 3)%nat then ","%char else nth (p - p / 4) l dflt.
Proof.
  induction l as [l Hl | a b c d r IH] using by_threes; intros p Hp.
  - rewrite groupReversed_short in * by assumption.
    assert (Hp3 : (p < 3)%nat) by lia.
    rewrite Nat.mod_small, Nat.div_small by lia.
    replace (p =? 3)%nat with false by (symmetry; apply Nat.eqb_neq; lia).
    rewrite Nat.sub_0_r. reflexivity.
  - rewrite groupReversed_long in *.
    destruct p as [|[|[|[|p]]]]; try reflexivity.
    cbn [List.length] in Hp.
    change (nth (S (S (S (S p)))) (a :: b :: c :: ","%char
                                     :: groupReversed (d :: r)) dflt)
      with (nth p (groupReversed (d :: r)) dflt).
    rewrite IH by lia.
    replace (S (S (S (S p)))) with (p + 1 * 4)%nat by lia.
    rewrite Nat.Div0.mod_add, Nat.div_add by discriminate.
    destruct (p mod 4 =? 3)%nat; [reflexivity|].
    pose proof (Nat.Div0.div_le_upper_bound p 4 p ltac:(lia)) as Hdiv.
    replace (p + 1 * 4 - (p / 4 + 1))%nat with (S (S (S (p - p / 4)))) by lia.
    reflexivity.
Qed.

Lemma list_ascii_of_append (s1 s2 : string) :
  list_ascii_of_string (s1 ++ s2)
  = (list_ascii_of_string s1 ++ list_ascii_of_string s2)%list.
Proof.
  induction s1 as [|c s1 IH]; cbn [append list_ascii_of_string app].
  - reflexivity.
  - rewrite IH. reflexivity.
Qed.

(** The decimal numeral of an integer has no comma in it. *)
Lemma uint_digits_no_comma (d : Decimal.uint) :
  forallb notComma (list_ascii_of_string (NilEmpty.string_of_uint d)) = true.
Proof.
  induction d; cbn [NilEmpty.string_of_uint list_ascii_of_string forallb];
    try reflexivity; rewrite IHd; reflexivity.
Qed.

Lemma decimal_no_comma (z : Z) :
  (0 <= z)%Z -> forallb notComma (list_ascii_of_string (decimal z)) = true.
Proof.
  intros Hz. unfold decimal, NilZero.string_of_int.
  destruct z as [|p|p]; [reflexivity| |lia].
  cbn [Z.to_int]. unfold NilZero.string_of_uint.
  destruct (Pos.to_uint p) eqn:E; try reflexivity;
    rewrite <- E; apply uint_digits_no_comma.
Qed.

Lemma filter_all (l : list ascii) :
  forallb notComma l = true -> filter notComma l = l.
Proof.
  induction l as [|c l IH]; cbn [forallb filter]; [reflexivity|].
  intros H. apply andb_true_iff in H. destruct H as [Hc Hl].
  rewrite Hc, (IH Hl). reflexivity.
Qed.

End GroupFacts.

(** X19: [formatNumberFull] only adds commas.  Taking the commas out of
    its result gives back the plain decimal numeral of the number, sign
    included. *)
Theorem formatNumberFull_without_commas (num : Z) :
  filter GroupFacts.notComma
         (list_ascii_of_string (Page.formatNumberFull num))
  = list_ascii_of_string
      ((if (num <? 0)%Z then "-" else "") ++ decimal (Z.abs num)).
Proof.
  unfold Page.formatNumberFull, Page.groupDigits.
  rewrite !GroupFacts.list_ascii_of_append, filter_app.
  rewrite list_ascii_of_string_of_list_ascii.
  rewrite filter_rev, GroupFacts.filter_groupReversed, filter_rev,
          rev_involutive.
  rewrite (GroupFacts.filter_all (list_ascii_of_string (decimal (Z.abs num))))
    by (apply GroupFacts.decimal_no_comma; lia).
  f_equal. destruct (num <? 0)%Z; reflexivity.
Qed.

(** X20: where the commas are.  For a number that is not negative, read
    from the right, every fourth character of [formatNumberFull] is a comma
    and the characters between are the digits of the number in order; with
    [D] digits the result has [D + (D - 1) / 3] characters. *)
Theorem formatNumberFull_groups (num : Z) :
  (0 <= num)%Z ->
  let out := rev (list_ascii_of_string (Page.formatNumberFull num)) in
  let digits := rev (list_ascii_of_string (decimal num)) in
  List.length out
  = (List.length digits + (List.length digits - 1) / 3)%nat /\
  forall (p : nat) (dflt : ascii), (p < List.length out)%nat ->
    nth p out dflt
    = if (p mod 4 =? 3)%nat then ","%char
      else nth (p - p / 4) digits dflt.
Proof.
  intros Hnum. cbv zeta. unfold Page.formatNumberFull, Page.groupDigits.
  replace (num <? 0)%Z with false by (symmetry; apply Z.ltb_ge; exact Hnum).
  rewrite Z.abs_eq by exact Hnum.
  change (("" ++ ?s)%string) with s.
  rewrite list_ascii_of_string_of_list_ascii, rev_involutive.
  split.
  - apply GroupFacts.length_groupReversed.
  - intros p dflt Hp. apply GroupFacts.nth_groupReversed. exact Hp.
Qed.

(** Witness of [formatNumberFull_groups]: 47750 is shown as 47,750. *)
Lemma formatNumberFull_groups_witness :
  (0 <= 47750)%Z /\ Page.formatNumberFull 47750 = "47,750" /\
  List.length (rev (list_ascii_of_string (Page.formatNumberFull 47750)))
  = (5 + (5 - 1) / 3)%nat.
Proof.
  split; [discriminate|]. split; [reflexivity|].
  apply (proj1 (formatNumberFull_groups 47750 ltac:(discriminate))).
Defined.

(** ** Class lists *)

Module ClassFacts.

Import Page.

Lemma contains_app (cl cl' : list string) (c : string) :
  contains (cl ++ cl') c = contains cl c || contains cl' c.
Proof. unfold contains. apply existsb_app. Qed.

Lemma contains_add1 (cl : list string) (t c : string) :
  contains (classList_add1 cl t) c = contains cl c || String.eqb c t.
Proof.
  unfold classList_add1. destruct (contains cl t) eqn:E.
  - destruct (String.eqb_spec c t) as [->|_].
    + rewrite E. reflexivity.
    + rewrite orb_false_r. reflexivity.
  - rewrite contains_app. unfold contains at 2. cbn [existsb].
    rewrite orb_false_r. reflexivity.
Qed.

Lemma contains_remove1 (cl : list string) (t c : string) :
  contains (classList_remove1 cl t) c
  = contains cl c && negb (String.eqb c t).
Proof.
  unfold classList_remove1, contains.
  induction cl as [|x cl IH]; cbn [filter existsb]; [reflexivity|].
  destruct (String.eqb_spec x t) as [->|Hx]; cbn [negb existsb].
  - rewrite IH. destruct (String.eqb_spec c t) as [_|_]; cbn [negb orb].
    + rewrite !andb_false_r. reflexivity.
    + reflexivity.
  - rewrite IH. destruct (String.eqb_spec c x) as [->|_]; cbn [orb].
    + destruct (String.eqb_spec x t); [contradiction | reflexivity].
    + reflexivity.
Qed.

Lemma contains_add (toks cl : list string) (c : string) :
  contains (classList_add cl toks) c = contains cl c || contains toks c.
Proof.
  unfold classList_add. revert cl.
  induction toks as [|t toks IH]; intros cl; cbn [fold_left].
  - unfold contains at 3. cbn [existsb]. rewrite orb_false_r. reflexivity.
  - rewrite IH, contains_add1. unfold contains at 4. cbn [existsb].
    fold (contains toks c). rewrite orb_assoc. reflexivity.
Qed.

Lemma contains_remove (toks cl : list string) (c : string) :
  contains (classList_remove cl toks) c
  = contains cl c && negb (contains toks c).
Proof.
  unfold classList_remove. revert cl.
  induction toks as [|t toks IH]; intros cl; cbn [fold_left].
  - unfold contains at 3. cbn [existsb negb]. rewrite andb_true_r.
    reflexivity.
  - rewrite IH, contains_remove1. unfold contains at 4. cbn [existsb].
    fold (contains toks c). rewrite negb_orb, andb_assoc. reflexivity.
Qed.

Lemma add1_present (cl : list string) (t : string) :
  contains cl t = true -> classList_add1 cl t = cl.
Proof. intros H. unfold classList_add1. rewrite H. reflexivity. Qed.

Lemma remove1_absent (cl : list string) (t : string) :
  contains cl t = false -> classList_remove1 cl t = cl.
Proof.
  unfold classList_remove1, contains.
  induction cl as [|x cl IH]; cbn [existsb filter]; [reflexivity|].
  intros H. apply orb_false_iff in H. destruct H as [Hx Hcl].
  rewrite String.eqb_sym in Hx. rewrite Hx. cbn [negb].
  rewrite (IH Hcl). reflexivity.
Qed.

Lemma add_present (toks cl : list string) :
  (forall t, In t toks -> contains cl t = true) ->
  classList_add cl toks = cl.
Proof.
  unfold classList_add. induction toks as [|t toks IH]; intros H;
    cbn [fold_left]; [reflexivity|].
  rewrite add1_present by (apply H; left; reflexivity).
  apply IH. intros u Hu. apply H. right. exact Hu.
Qed.

Lemma remove_absent (toks cl : list string) :
  (forall t, In t toks -> contains cl t = false) ->
  classList_remove cl toks = cl.
Proof.
  unfold classList_remove. induction toks as [|t toks IH]; intros H;
    cbn [fold_left]; [reflexivity|].
  rewrite remove1_absent by (apply H; left; reflexivity).
  apply IH. intros u Hu. apply H. right. exact Hu.
Qed.

Lemma contains_In (cl : list string) (c : string) :
  contains cl c = true <-> In c cl.
Proof.
  unfold contains. rewrite existsb_exists. split.
  - intros (x & Hx & E). apply String.eqb_eq in E. subst x. exact Hx.
  - intros H. exists c. split; [exact H | apply String.eqb_refl].
Qed.

End ClassFacts.

(** ** The tooltip *)

Module HoverFacts.

Import Page ClassFacts.

Lemma setFill_repeat (i : nat) (v : string) (n : nat) :
  setFill i v (repeat v n) = repeat v n.
Proof.
  revert i. induction n as [|n IH]; intros i.
  - destruct i; reflexivity.
  - destruct i as [|i]; cbn [repeat setFill]; [reflexivity|].
    rewrite IH. reflexivity.
Qed.

Lemma setFill_twice (i : nat) (u v : string) (l : list string) :
  setFill i v (setFill i u l) = setFill i v l.
Proof.
  revert i. induction l as [|x l IH]; intros i.
  - destruct i; reflexivity.
  - destruct i as [|i]; cbn [setFill]; [reflexivity|].
    rewrite IH. reflexivity.
Qed.

Lemma nth_error_in_range (data : list Sample) (i : nat) :
  (i < List.length data)%nat -> exists d, nth_error data i = Some d.
Proof.
  intros H. destruct (nth_error data i) as [d|] eqn:E.
  - exists d. reflexivity.
  - apply nth_error_None in E. lia.
Qed.

Section Trace.

Variable data : list Sample.
Variable tip0 : Tooltip.

Local Abbreviation n := (List.length data).
Local Abbreviation follows := (shows data tip0).

Lemma follows_step (es : list PointerEvent) :
  forall cur cur' ui,
    pointerPath n cur es = Some cur' ->
    follows cur ui ->
    follows cur' (dispatchAll data es ui).
Proof.
  induction es as [|e es IH]; intros cur cur' ui Hpath Hinv.
  - cbn in Hpath. injection Hpath as <-. exact Hinv.
  - unfold dispatchAll in *. cbn [fold_left].
    destruct Hinv as [Hother Hcur].
    destruct e as [i|i cx cy|i]; destruct cur as [j|];
      cbn [pointerPath] in Hpath; try discriminate.
    + (* enter *)
      destruct (Nat.ltb_spec i n) as [Hi|Hi]; [|discriminate].
      destruct (nth_error_in_range data i Hi) as (d & Hd).
      apply (IH (Some i) cur'); [exact Hpath|].
      cbn [dispatch]. rewrite Hd. unfold shows, onMouseEnter.
      cbn [cursor_fill tooltip tooltip_classes tooltipDate tooltipUsage].
      destruct Hcur as [Hfill Hhid].
      split.
      * intros c Hc. rewrite contains_remove, Hother by exact Hc.
        unfold contains at 2. cbn [existsb].
        destruct (String.eqb_spec c "hidden"); [contradiction|].
        cbn [orb negb]. apply andb_true_r.
      * rewrite Hfill. split; [reflexivity|]. split.
        { rewrite contains_remove. apply andb_false_iff. right.
          reflexivity. }
        exists d. repeat split. exact Hd.
    + (* move *)
      destruct (Nat.eqb_spec i j) as [->|]; [|discriminate].
      apply (IH (Some j) cur'); [exact Hpath|].
      destruct Hcur as (Hfill & Hhid & d & Hd & Hdate & Husage).
      cbn [dispatch]. rewrite Hd. unfold shows, onMouseMove.
      cbn [cursor_fill tooltip tooltip_classes tooltipDate tooltipUsage].
      split; [exact Hother|]. split; [exact Hfill|]. split; [exact Hhid|].
      exists d. repeat split; assumption.
    + (* leave *)
      destruct (Nat.eqb_spec i j) as [->|]; [|discriminate].
      apply (IH None cur'); [exact Hpath|].
      destruct Hcur as (Hfill & Hhid & d & Hd & _).
      cbn [dispatch]. rewrite Hd. unfold shows, onMouseLeave.
      cbn [cursor_fill tooltip tooltip_classes tooltipDate tooltipUsage].
      split.
      * intros c Hc. rewrite contains_add, Hother by exact Hc.
        unfold contains at 2. cbn [existsb].
        destruct (String.eqb_spec c "hidden"); [contradiction|].
        cbn [orb]. apply orb_false_r.
      * rewrite Hfill, setFill_twice, setFill_repeat.
        split; [reflexivity|].
        rewrite contains_add. apply orb_true_iff. right. reflexivity.
Qed.

End Trace.

End HoverFacts.

(** X21: the tooltip follows the pointer.  Start from freshly drawn
    cursors and a hidden tooltip, and let the pointer enter, move within
    and leave zones in any sequence a pointer can produce.  Afterwards, if
    the pointer is in a zone, the cursor of that zone and no other is
    highlighted, the tooltip is visible and shows the long date of the
    zone's sample and its usage with thousands grouped, followed by
    " tokens"; if the pointer is in no zone, no cursor is highlighted and the
    tooltip is hidden.  The other classes of the tooltip stay as they
    were. *)
Theorem tooltip_follows_pointer (data : list Sample) (tip0 : Page.Tooltip)
    (es : list Page.PointerEvent) (cur : option nat) :
  Page.contains (Page.tooltip_classes tip0) "hidden" = true ->
  Page.pointerPath (List.length data) None es = Some cur ->
  Page.shows data tip0 cur
    (Page.dispatchAll data es (Page.afterRender data tip0)).
Proof.
  intros Hhidden Hpath.
  apply (HoverFacts.follows_step data tip0 es None cur _ Hpath).
  unfold Page.shows, Page.afterRender. cbn [Page.tooltip Page.cursor_fill].
  split; [reflexivity|]. split; [reflexivity | exact Hhidden].
Qed.

(** Witness of [tooltip_follows_pointer]: into the second of three zones,
    a move, out, and into the third. *)
Lemma tooltip_follows_pointer_witness :
  let data := generateMockData sampleSin 0 1726326000000 3 in
  let tip0 := {| Page.tooltip_classes := ["tooltip"; "hidden"];
                 Page.tooltipDate := ""; Page.tooltipUsage := "";
                 Page.tooltip_translate := None |} in
  let es := [ Page.MouseEnter 1; Page.MouseMove 1 (ofZ 200) (ofZ 90);
              Page.MouseLeave 1; Page.MouseEnter 2 ] in
  Page.shows data tip0 (Some 2%nat)
    (Page.dispatchAll data es (Page.afterRender data tip0)) /\
  Page.tooltipUsage
    (Page.tooltip (Page.dispatchAll data es (Page.afterRender data tip0)))
  = "47,750 tokens".
Proof.
  cbv zeta. split.
  - apply tooltip_follows_pointer; reflexivity.
  - vm_compute. reflexivity.
Defined.

(** ** The range buttons *)

Module ButtonFacts.

Import Page ClassFacts.

Lemma restyle_contains (range : Z) (btn : RangeButton) (c : string) :
  contains (button_classes (restyle range btn)) c
  = if match data_value btn with
       | Some val => (val =? range)%Z
       | None => false
       end
    then (contains (button_classes btn) c || String.eqb c "active")
         && negb (contains inactiveClasses c)
    else (contains (button_classes btn) c && negb (String.eqb c "active"))
         || contains inactiveClasses c.
Proof.
  unfold restyle.
  destruct (match data_value btn with
            | Some val => (val =? range)%Z
            | None => false
            end); cbn [button_classes].
  - rewrite contains_remove, contains_add. unfold contains at 2.
    cbn [existsb]. rewrite orb_false_r. reflexivity.
  - rewrite contains_add, contains_remove. unfold contains at 2.
    cbn [existsb]. rewrite orb_false_r. reflexivity.
Qed.

Lemma restyle_twice (range : Z) (btn : RangeButton) :
  restyle range (restyle range btn) = restyle range btn.
Proof.
  assert (Hdv : data_value (restyle range btn) = data_value btn).
  { unfold restyle. destruct (match data_value btn with
                              | Some val => (val =? range)%Z
                              | None => false
                              end); reflexivity. }
  pose proof (restyle_contains range btn) as Hc.
  unfold restyle at 1. rewrite Hdv.
  destruct (match data_value btn with
            | Some val => (val =? range)%Z
            | None => false
            end) eqn:E.
  - rewrite (add_present ["active"]).
    2:{ intros t [<-|[]]. rewrite Hc, String.eqb_refl, orb_true_r.
        reflexivity. }
    rewrite remove_absent.
    2:{ intros t Ht. rewrite Hc.
        apply contains_In in Ht. rewrite Ht. apply andb_false_r. }
    unfold restyle. rewrite E. reflexivity.
  - rewrite (remove_absent ["active"]).
    2:{ intros t [<-|[]]. rewrite Hc, String.eqb_refl. cbn [negb].
        rewrite andb_false_r. reflexivity. }
    rewrite add_present.
    2:{ intros t Ht. rewrite Hc.
        apply contains_In in Ht. rewrite Ht. apply orb_true_r. }
    unfold restyle. rewrite E. reflexivity.
Qed.

End ButtonFacts.

(** X22: after [update] has restyled the buttons, the active button is the
    one of the range.  Every element of class [range-btn] carries [active]
    exactly when its [data-value] is the range, and carries each of the
    three inactive classes exactly when it is not; its other classes, the
    class [range-btn] among them, are as before.  Elements without the
    class [range-btn] are left alone. *)
Theorem updateButtons_marks_range (range : Z)
    (elements : list Page.RangeButton) (i : nat) (el : Page.RangeButton) :
  nth_error elements i = Some el ->
  exists el',
    nth_error (Page.updateButtons range elements) i = Some el' /\
    Page.data_value el' = Page.data_value el /\
    (Page.contains (Page.button_classes el) "range-btn" = false ->
     el' = el) /\
    (Page.contains (Page.button_classes el) "range-btn" = true ->
     (Page.contains (Page.button_classes el') "active" = true
      <-> Page.data_value el = Some range) /\
     (forall c, In c Page.inactiveClasses ->
        (Page.contains (Page.button_classes el') c = true
         <-> Page.data_value el <> Some range)) /\
     (forall c, c <> "active" -> ~ In c Page.inactiveClasses ->
        Page.contains (Page.button_classes el') c
        = Page.contains (Page.button_classes el) c)).
Proof.
  intros Hel. unfold Page.updateButtons.
  rewrite nth_error_map, Hel. cbn [option_map].
  eexists. split; [reflexivity|].
  destruct (Page.contains (Page.button_classes el) "range-btn") eqn:Hcls.
  2:{ split; [reflexivity|]. split; [reflexivity | discriminate]. }
  assert (Hdv : Page.data_value (Page.restyle range el) = Page.data_value el).
  { unfold Page.restyle.
    destruct (match Page.data_value el with
              | Some val => (val =? range)%Z
              | None => false
              end); reflexivity. }
  split; [exact Hdv|]. split; [discriminate|]. intros _.
  assert (Hflag : match Page.data_value el with
                  | Some val => (val =? range)%Z
                  | None => false
                  end = true <-> Page.data_value el = Some range).
  { destruct (Page.data_value el) as [v|]; [|split; discriminate].
    rewrite Z.eqb_eq. split; [intros ->; reflexivity | congruence]. }
  pose proof (ButtonFacts.restyle_contains range el) as Hc.
  assert (Hia : Page.contains Page.inactiveClasses "active" = false)
    by reflexivity.
  destruct (match Page.data_value el with
            | Some val => (val =? range)%Z
            | None => false
            end) eqn:E.
  - split; [|split].
    + rewrite Hc, String.eqb_refl, orb_true_r, Hia. cbn [negb andb].
      split; [intros _; apply Hflag; reflexivity | reflexivity].
    + intros c Hin. rewrite Hc.
      apply ClassFacts.contains_In in Hin. rewrite Hin, andb_false_r.
      split; [discriminate|]. intros H. exfalso. apply H, Hflag. reflexivity.
    + intros c Hact Hin. rewrite Hc.
      destruct (String.eqb_spec c "active"); [contradiction|].
      destruct (Page.contains Page.inactiveClasses c) eqn:Ein.
      * apply ClassFacts.contains_In in Ein. contradiction.
      * cbn [negb]. rewrite orb_false_r, andb_true_r. reflexivity.
  - assert (Hne : Page.data_value el <> Some range).
    { intros H. apply Hflag in H. discriminate. }
    split; [|split].
    + rewrite Hc, String.eqb_refl, Hia. cbn [negb].
      rewrite andb_false_r. cbn [orb].
      split; [discriminate | intros H; contradiction].
    + intros c Hin. rewrite Hc.
      apply ClassFacts.contains_In in Hin. rewrite Hin, orb_true_r.
      split; [intros _; exact Hne | reflexivity].
    + intros c Hact Hin. rewrite Hc.
      destruct (String.eqb_spec c "active"); [contradiction|].
      destruct (Page.contains Page.inactiveClasses c) eqn:Ein.
      * apply ClassFacts.contains_In in Ein. contradiction.
      * cbn [negb]. rewrite orb_false_r, andb_true_r. reflexivity.
Qed.

Lemma updateButtons_marks_range_witness :
  let week := {| Page.data_value := Some 7%Z;
                 Page.button_classes := ["range-btn"; "active"] |} in
  let month := {| Page.data_value := Some 30%Z;
                  Page.button_classes :=
                    "range-btn" :: Page.inactiveClasses |} in
  exists el',
    nth_error (Page.updateButtons 30 [week; month]) 1 = Some el' /\
    Page.data_value el' = Some 30%Z.
Proof.
  cbv zeta.
  destruct (updateButtons_marks_range 30
              [ {| Page.data_value := Some 7%Z;
                   Page.button_classes := ["range-btn"; "active"] |};
                {| Page.data_value := Some 30%Z;
                   Page.button_classes :=
                     "range-btn" :: Page.inactiveClasses |} ]
              1 _ eq_refl) as (el' & H1 & H2 & _).
  exists el'. split; [exact H1 | exact H2].
Defined.

(** X23: restyling the buttons twice for the same range changes nothing
    the second time, class order included. *)
Theorem updateButtons_idempotent (range : Z)
    (elements : list Page.RangeButton) :
  Page.updateButtons range (Page.updateButtons range elements)
  = Page.updateButtons range elements.
Proof.
  unfold Page.updateButtons. rewrite map_map. apply map_ext.
  intros el.
  destruct (Page.contains (Page.button_classes el) "range-btn") eqn:Hcls.
  - assert (Hkeep : Page.contains
                      (Page.button_classes (Page.restyle range el))
                      "range-btn" = true).
    { rewrite ButtonFacts.restyle_contains, Hcls.
      destruct (match Page.data_value el with
                | Some val => (val =? range)%Z
                | None => false
                end); reflexivity. }
    rewrite Hkeep. apply ButtonFacts.restyle_twice.
  - rewrite Hcls. reflexivity.
Qed.

(** ** The debounced resize *)

Module ResizeFacts.

Import Page.
Local Open Scope Z_scope.

Lemma last_cons_default (l : list Z) :
  forall u t, last (u :: l) t = last l u.
Proof.
  induction l as [|z l IH]; intros u t; [reflexivity|].
  change (last (u :: z :: l) t) with (last (z :: l) t).
  rewrite (IH z t), (IH z u). reflexivity.
Qed.

(** While resize events follow one another by less than the delay, the
    pending timer is the one of the latest event and none has fired. *)
Lemma burst_keeps_pending (later : list Z) :
  forall (t : Z) (log : list Z),
    closeTogether t later ->
    resizes later {| pendingDue := Some (t + 100); redraws := log |}
    = {| pendingDue := Some (last later t + 100); redraws := log |}.
Proof.
  induction later as [|u rest IH]; intros t log Hclose.
  - reflexivity.
  - destruct Hclose as [Hu Hrest]. unfold resizes in *. cbn [fold_left].
    unfold resizeAt at 2. unfold runTimers. cbn [pendingDue].
    replace (t + 100 <=? u) with false by (symmetry; apply Z.leb_gt; lia).
    unfold onResize. cbn [redraws].
    rewrite (IH u log Hrest), last_cons_default. reflexivity.
Qed.

End ResizeFacts.

(** X24: a burst of resize events gives one redraw.  When no timer is
    pending and resize events arrive at times each less than 100 ms after
    the one before, nothing is redrawn during the burst; the only redraw
    is the one 100 ms after the last event. *)
Theorem resize_burst_one_redraw (t : Z) (later : list Z) (log : list Z)
    (now : Z) :
  Page.closeTogether t later ->
  (last later t + 100 <= now)%Z ->
  let rs0 := {| Page.pendingDue := None; Page.redraws := log |} in
  Page.redraws (Page.resizes (t :: later) rs0) = log /\
  Page.runTimers now (Page.resizes (t :: later) rs0)
  = {| Page.pendingDue := None;
       Page.redraws := (log ++ [last later t + 100])%list |}.
Proof.
  intros Hclose Hnow. cbv zeta.
  assert (H : Page.resizes (t :: later)
                {| Page.pendingDue := None; Page.redraws := log |}
              = {| Page.pendingDue := Some (last later t + 100)%Z;
                   Page.redraws := log |}).
  { unfold Page.resizes. cbn [fold_left].
    change (Page.resizeAt {| Page.pendingDue := None; Page.redraws := log |} t)
      with {| Page.pendingDue := Some (t + 100)%Z; Page.redraws := log |}.
    exact (ResizeFacts.burst_keeps_pending later t log Hclose). }
  rewrite H. split; [reflexivity|].
  unfold Page.runTimers. cbn [Page.pendingDue Page.redraws].
  replace (last later t + 100 <=? now)%Z with true
    by (symmetry; apply Z.leb_le; exact Hnow).
  reflexivity.
Qed.

(** Witness of [resize_burst_one_redraw]: five events 50 ms apart. *)
Lemma resize_burst_one_redraw_witness :
  Page.runTimers 1000
    (Page.resizes [0; 50; 100; 150; 200]%Z
       {| Page.pendingDue := None; Page.redraws := [] |})
  = {| Page.pendingDue := None; Page.redraws := [300%Z] |}.
Proof.
  apply (resize_burst_one_redraw 0 [50; 100; 150; 200]%Z [] 1000).
  - cbn. lia.
  - discriminate.
Defined.

Module SpacedFacts.

Import Page.
Local Open Scope Z_scope.

Lemma spaced_each_fires (later : list Z) :
  forall (t : Z) (log : list Z),
    farApart t later ->
    resizes later {| pendingDue := Some (t + 100); redraws := log |}
    = {| pendingDue := Some (last later t + 100);
         redraws := (log ++ map (fun u => u + 100)
                                (removelast (t :: later)))%list |}.
Proof.
  induction later as [|u rest IH]; intros t log Hfar.
  - cbn [resizes fold_left last removelast map]. rewrite app_nil_r.
    reflexivity.
  - destruct Hfar as [Hu Hrest]. unfold resizes in *. cbn [fold_left].
    unfold resizeAt at 2. unfold runTimers. cbn [pendingDue redraws].
    replace (t + 100 <=? u) with true by (symmetry; apply Z.leb_le; lia).
    unfold onResize. cbn [redraws].
    rewrite (IH u (log ++ [t + 100])%list Hrest),
            ResizeFacts.last_cons_default.
    change (removelast (t :: u :: rest)) with (t :: removelast (u :: rest)).
    cbn [map]. rewrite <- app_assoc. reflexivity.
Qed.

End SpacedFacts.

(** X25: resize events that come more than 100 ms apart are each redrawn.
    Starting with no pending timer, when every event comes strictly after
    the timer of the one before was due, every event but the last has had
    its redraw by the time the next one arrives, and the redraw of the last
    one is pending. *)
Theorem resize_spaced_each_redrawn (t : Z) (later : list Z) (log : list Z) :
  Page.farApart t later ->
  Page.resizes (t :: later) {| Page.pendingDue := None; Page.redraws := log |}
  = {| Page.pendingDue := Some (last later t + 100)%Z;
       Page.redraws := (log ++ map (fun u => (u + 100)%Z)
                                   (removelast (t :: later)))%list |}.
Proof.
  intros Hfar. unfold Page.resizes. cbn [fold_left].
  change (Page.resizeAt {| Page.pendingDue := None; Page.redraws := log |} t)
    with {| Page.pendingDue := Some (t + 100)%Z; Page.redraws := log |}.
  exact (SpacedFacts.spaced_each_fires later t log Hfar).
Qed.

(** Witness of [resize_spaced_each_redrawn]: three events 150 and 250 ms
    apart. *)
Lemma resize_spaced_each_redrawn_witness :
  Page.farApart 0 [150; 400]%Z /\
  Page.resizes [0; 150; 400]%Z
    {| Page.pendingDue := None; Page.redraws := [] |}
  = {| Page.pendingDue := Some 500%Z; Page.redraws := [100; 250]%Z |}.
Proof.
  assert (Hfar : Page.farApart 0 [150; 400]%Z) by (cbn; lia).
  split; [exact Hfar|].
  apply (resize_spaced_each_redrawn 0 [150; 400]%Z [] Hfar).
Defined.
